(** * BTC purchasing power tracker: a shallow embedding of
      [scripts/update_prices.py] and the properties of its pipeline.

    The script fetches price series, resamples them to quarter ends,
    divides every asset series by the BTC series and writes one JSON
    document per asset.  The pandas operations it calls are embedded as
    functions on lists of rows; the script's own functions are embedded in
    a state-and-exception monad over a store of data frames, a file system
    and the standard output.

    Conventions.
    - A [float64] is an IEEE 754 binary64 number, held as the rational it
      denotes, a negative zero, an infinity or NaN.  Multiplication and
      division round the exact result to the nearest binary64 number,
      halves to even, through the division of the Standard Library's
      specification of floating-point arithmetic ([SpecFloat]).
    - A [Timestamp] is a calendar date; the quarter bins of pandas are
      closed on the end of the quarter's last day, so the time of day does
      not influence the bin of a row. *)

From Stdlib Require Import ZArith QArith Qround Qabs Lia Lqa Ascii String SpecFloat.
From stdpp Require Import base list strings gmap pretty list_numbers sorting.

Local Open Scope Z_scope.

(** ** Timestamps and calendar quarters *)

Inductive Month :=
  | Jan | Feb | Mar | Apr | May | Jun | Jul | Aug | Sep | Oct | Nov | Dec.

Record Timestamp := mkTs { year : Z; month : Month; day : Z }.

Global Instance Month_eq_dec : EqDecision Month.
Proof. solve_decision. Defined.

Global Instance Timestamp_eq_dec : EqDecision Timestamp.
Proof. solve_decision. Defined.

Definition month_num (m : Month) : Z :=
  match m with
  | Jan => 1 | Feb => 2 | Mar => 3 | Apr => 4 | May => 5 | Jun => 6
  | Jul => 7 | Aug => 8 | Sep => 9 | Oct => 10 | Nov => 11 | Dec => 12
  end.

Definition month_of_num (n : Z) : option Month :=
  match n with
  | 1 => Some Jan | 2 => Some Feb | 3 => Some Mar | 4 => Some Apr
  | 5 => Some May | 6 => Some Jun | 7 => Some Jul | 8 => Some Aug
  | 9 => Some Sep | 10 => Some Oct | 11 => Some Nov | 12 => Some Dec
  | _ => None
  end.

(** Chronological order: lexicographic on year, month, day. *)
Definition ts_lt (a b : Timestamp) : Prop :=
  year a < year b \/
  (year a = year b /\
   (month_num (month a) < month_num (month b) \/
    (month_num (month a) = month_num (month b) /\ day a < day b))).

Definition ts_le (a b : Timestamp) : Prop := ts_lt a b \/ a = b.

Definition ts_ltb (a b : Timestamp) : bool :=
  (year a <? year b) ||
  ((year a =? year b) &&
   ((month_num (month a) <? month_num (month b)) ||
    ((month_num (month a) =? month_num (month b)) && (day a <? day b)))).

Definition ts_leb (a b : Timestamp) : bool := negb (ts_ltb b a).

(** The calendar quarter of a date, counted from year 0: quarter [4*y] is
    January to March of year [y]. *)
Definition quarter (d : Timestamp) : Z :=
  4 * year d + (month_num (month d) - 1) / 3.

(** The label pandas gives the bin of frequency ["QE"]: the last day of
    the quarter. *)
Definition quarter_end (q : Z) : Timestamp :=
  match q mod 4 with
  | 0 => mkTs (q / 4) Mar 31
  | 1 => mkTs (q / 4) Jun 30
  | 2 => mkTs (q / 4) Sep 30
  | _ => mkTs (q / 4) Dec 31
  end.

Definition is_leap (y : Z) : bool :=
  ((y mod 4 =? 0) && negb (y mod 100 =? 0)) || (y mod 400 =? 0).

Definition days_in_month (y : Z) (m : Month) : Z :=
  match m with
  | Feb => if is_leap y then 29 else 28
  | Apr | Jun | Sep | Nov => 30
  | _ => 31
  end.

(** ** Text: formatting and parsing *)

Definition pad2 (n : Z) : string :=
  if n <? 10 then "0" +:+ pretty n else pretty n.

(** [timestamp.strftime("%Y-%m-%d")]. *)
Definition strftime_ymd (d : Timestamp) : string :=
  pretty (year d) +:+ "-" +:+ pad2 (month_num (month d)) +:+ "-" +:+ pad2 (day d).

Definition digit_val (c : ascii) : option Z :=
  let n := Z.of_nat (nat_of_ascii c) in
  if (48 <=? n) && (n <=? 57) then Some (n - 48) else None.

(** The value of a non-empty string of decimal digits, read after the
    [acc] already read. *)
Fixpoint parse_digits (s : string) (acc : Z) : option Z :=
  match s with
  | EmptyString => Some acc
  | String c s' =>
      match digit_val c with
      | Some v => parse_digits s' (10 * acc + v)
      | None => None
      end
  end.

Definition parse_nat (s : string) : option Z :=
  match s with
  | EmptyString => None
  | _ => parse_digits s 0
  end.

(** [s.split(sep)] as the list of fields, with the field being read in
    [cur] (reversed). *)
Fixpoint split_on (sep : ascii) (s : string) (cur : string) : list string :=
  match s with
  | EmptyString => [String.rev cur]
  | String c s' =>
      if decide (c = sep) then String.rev cur :: split_on sep s' EmptyString
      else split_on sep s' (String c cur)
  end.

(** [str.upper()] on ASCII letters. *)
Definition upper_ascii (c : ascii) : ascii :=
  let n := nat_of_ascii c in
  if ((97 <=? n) && (n <=? 122))%nat then ascii_of_nat (n - 32) else c.

Fixpoint upper (s : string) : string :=
  match s with
  | EmptyString => EmptyString
  | String c s' => String (upper_ascii c) (upper s')
  end.

(** ** Floating-point values *)

(** A binary64 number: [Fin q] is the finite number of value [q], with
    [Fin 0] the positive zero; [NZero] is the negative zero. *)
Inductive float64 :=
  | Fin (q : Q)
  | NZero
  | PInf
  | NInf
  | NaN.

Definition isna (x : float64) : bool :=
  match x with NaN => true | _ => false end.

Definition notna (x : float64) : bool := negb (isna x).

(** The sign bit. *)
Definition f_neg (x : float64) : bool :=
  match x with
  | Fin q => negb (Qle_bool 0 q)
  | NZero | NInf => true
  | PInf | NaN => false
  end.

Definition f_zero (neg : bool) : float64 := if neg then NZero else Fin 0.

Definition f_inf (neg : bool) : float64 := if neg then NInf else PInf.

(** The value of a finite number. *)
Definition f_val (x : float64) : option Q :=
  match x with
  | Fin q => Some q
  | NZero => Some 0%Q
  | _ => None
  end.

(** The number a binary64 datum of the Standard Library's specification
    denotes: sign, mantissa [m] and exponent [e] stand for [m * 2 ^ e]. *)
Definition of_spec (x : spec_float) : float64 :=
  match x with
  | S754_zero s => f_zero s
  | S754_infinity s => f_inf s
  | S754_nan => NaN
  | S754_finite s m e =>
      Fin (Qred (inject_Z (if s then Z.neg m else Z.pos m) * 2 ^ e))
  end.

(** The binary64 number nearest to the rational [q], halves to the even
    mantissa, infinite past the largest finite number: the IEEE division
    of numerator by denominator, both taken as floating-point numbers of
    exponent 0. *)
Definition b64 (q : Q) : float64 :=
  let d := S754_finite false (Qden q) 0 in
  match Qnum q with
  | Z0 => Fin 0
  | Z.pos n => of_spec (SFdiv 53 1024 (S754_finite false n 0) d)
  | Z.neg n => of_spec (SFdiv 53 1024 (S754_finite true n 0) d)
  end.

(** IEEE multiplication. *)
Definition f_mul (x y : float64) : float64 :=
  let neg := xorb (f_neg x) (f_neg y) in
  match x, y with
  | NaN, _ | _, NaN => NaN
  | _, _ =>
      match f_val x, f_val y with
      | Some a, Some b =>
          if Qeq_bool (a * b) 0 then f_zero neg else b64 (a * b)
      | Some a, None | None, Some a =>
          if Qeq_bool a 0 then NaN else f_inf neg
      | None, None => f_inf neg
      end
  end.

(** IEEE division: a division by zero is no error, it yields an infinity
    or, for zero by zero, NaN. *)
Definition f_div (x y : float64) : float64 :=
  let neg := xorb (f_neg x) (f_neg y) in
  match x, y with
  | NaN, _ | _, NaN => NaN
  | _, _ =>
      match f_val x, f_val y with
      | Some a, Some b =>
          if Qeq_bool b 0 then
            if Qeq_bool a 0 then NaN else f_inf neg
          else if Qeq_bool a 0 then f_zero neg
          else b64 (a / b)
      | Some _, None => f_zero neg
      | None, Some _ => f_inf neg
      | None, None => NaN
      end
  end.

(** Rounding to the nearest integer, halves to the even neighbour. *)
Definition round_half_even (x : Q) : Z :=
  let f := Qfloor x in
  let r := (x - inject_Z f)%Q in
  match (r ?= 1 # 2)%Q with
  | Lt => f
  | Gt => f + 1
  | Eq => if Z.even f then f else f + 1
  end.

(** [numpy.rint]: the nearest integer, halves to even, with the sign of
    the argument when it is zero. *)
Definition f_rint (x : float64) : float64 :=
  match x with
  | Fin q =>
      let z := round_half_even q in
      if z =? 0 then f_zero (f_neg x) else Fin (inject_Z z)
  | _ => x
  end.

(** [10.0 ** n]. *)
Definition pow10 (n : nat) : float64 := b64 (inject_Z (10 ^ Z.of_nat n)).

(** [round(x, n)] for a numpy float64 and [n] decimal places: numpy
    scales by the power of ten, rounds to the nearest integer and scales
    back, every step in binary64. *)
Definition round_nd (n : nat) (x : float64) : float64 :=
  f_div (f_rint (f_mul x (pow10 n))) (pow10 n).

(** The number a decimal numeral denotes: sign, integer digits and an
    optional fraction.  This is the numeral syntax of the FRED CSV files;
    every other token is not a number. *)
Definition parse_unsigned (s : string) : option Q :=
  match split_on "." s EmptyString with
  | [i] => inject_Z <$> parse_nat i
  | [i; f] =>
      match i, f with
      | EmptyString, EmptyString => None
      | _, _ =>
          match parse_digits i 0, parse_digits f 0 with
          | Some a, Some b =>
              let p := 10 ^ Z.of_nat (String.length f) in
              Some (Qred (inject_Z (a * p + b) / inject_Z p))
          | _, _ => None
          end
      end
  | _ => None
  end.

(** Sign and magnitude of a signed numeral. *)
Definition parse_decimal (s : string) : option (bool * Q) :=
  match s with
  | String "-" s' => pair true <$> parse_unsigned s'
  | String "+" s' => pair false <$> parse_unsigned s'
  | _ => pair false <$> parse_unsigned s
  end.


(** ** Exceptions *)

Abbreviation path := (list string).

Inductive exn :=
  | KeyError (key : string)
  | IndexError (index size : nat)
  | ValueError (msg : string)
  | InvalidIndexError
  | FileNotFoundError (p : path)
  | IOError (msg : string).

Inductive result (A : Type) :=
  | Ok (a : A)
  | Raise (e : exn).
Arguments Ok {A} a.
Arguments Raise {A} e.

(** ** pandas: series and data frames

    A series is its rows in storage order, each an index label and a
    value; a data frame has named columns and, per row, one cell for each
    column. *)

Abbreviation Series := (list (Timestamp * float64)).

Record DataFrame := mkDF {
  columns : list string;
  rows : list (Timestamp * list float64)
}.

(** [pd.DataFrame()]. *)
Definition empty_frame : DataFrame := mkDF [] [].

(** [df.empty]: some axis has length 0. *)
Definition df_empty (df : DataFrame) : bool :=
  match columns df, rows df with
  | [], _ | _, [] => true
  | _, _ => false
  end.

(** [series.to_frame(name=...)]. *)
Definition to_frame (name : string) (s : Series) : DataFrame :=
  mkDF [name] (map (fun r => (r.1, [r.2])) s).

Fixpoint col_pos (name : string) (cols : list string) : option nat :=
  match cols with
  | [] => None
  | c :: cols' =>
      if decide (c = name) then Some O else S <$> col_pos name cols'
  end.

(** [row[name]] for a row of a frame with columns [cols]; [None] when
    [name in row] is false. *)
Definition row_get (cols : list string) (cells : list float64)
    (name : string) : option float64 :=
  match col_pos name cols with
  | Some i => Some (default NaN (cells !! i))
  | None => None
  end.

(** [df[name]]. *)
Definition df_getitem (df : DataFrame) (name : string) : result Series :=
  match col_pos name (columns df) with
  | Some i => Ok (map (fun r => (r.1, default NaN (r.2 !! i))) (rows df))
  | None => Raise (KeyError name)
  end.

(** Stable sort by timestamp, as pandas sorts an index that is not
    monotonic before it bins or joins. *)
Fixpoint insert_by {A} (key : A -> Timestamp) (x : A) (l : list A) : list A :=
  match l with
  | [] => [x]
  | y :: l' =>
      if ts_leb (key x) (key y) then x :: l else y :: insert_by key x l'
  end.

Definition sort_by {A} (key : A -> Timestamp) (l : list A) : list A :=
  foldr (insert_by key) [] l.

(** The last value of a group that is not NaN, NaN when there is none. *)
Definition last_valid (g : list float64) : float64 :=
  fold_left (fun acc v => if isna v then acc else v) g NaN.

Definition in_quarter (q : Z) (r : Timestamp * float64) : bool :=
  quarter r.1 =? q.

(** One bin of [resample("QE")] over rows sorted by time: the label of
    quarter [q] with the last valid value observed in that quarter. *)
Definition quarter_bin (sorted : Series) (q : Z) : Timestamp * float64 :=
  (quarter_end q,
   last_valid ((filter (fun r => in_quarter q r = true) sorted).*2)).

(** [series.resample("QE").last()]: the rows are sorted by time, the span
    from the first to the last row is cut into consecutive calendar
    quarters, and every quarter yields one bin. *)
Definition resample_QE_last (s : Series) : Series :=
  let sorted := sort_by fst s in
  match sorted with
  | [] => []
  | first :: _ =>
      let q0 := quarter first.1 in
      let q1 := quarter (default first (last sorted)).1 in
      map (quarter_bin sorted) (seqZ q0 (q1 - q0 + 1))
  end.

(** [series.dropna()]. *)
Definition dropna (s : Series) : Series :=
  filter (fun r => notna r.2 = true) s.

(** [df.dropna()]: rows with a NaN in any column are dropped. *)
Definition df_dropna (df : DataFrame) : DataFrame :=
  mkDF (columns df) (filter (fun r => forallb notna r.2 = true) (rows df)).

Fixpoint has_dup (l : list Timestamp) : bool :=
  match l with
  | [] => false
  | d :: l' => bool_decide (d ∈ l') || has_dup l'
  end.

(** The value a series holds at label [d], NaN where it has none. *)
Fixpoint value_at (d : Timestamp) (s : Series) : float64 :=
  match s with
  | [] => NaN
  | r :: s' => if decide (r.1 = d) then r.2 else value_at d s'
  end.

(** [pd.concat([s1, s2], axis=1, keys=[k1, k2])]: an outer join on the
    index.  Equal indexes are pasted side by side; otherwise the result is
    indexed by the sorted union of the labels, which pandas refuses to
    build when an index has a repeated label. *)
Definition concat_axis1 (k1 k2 : string) (s1 s2 : Series) : result DataFrame :=
  if decide (s1.*1 = s2.*1) then
    Ok (mkDF [k1; k2] (zip_with (fun a b => (a.1, [a.2; b.2])) s1 s2))
  else if has_dup s1.*1 || has_dup s2.*1 then Raise InvalidIndexError
  else
    let union := s1.*1 ++ filter (fun d => d ∉ s1.*1) s2.*1 in
    Ok (mkDF [k1; k2]
          (map (fun d => (d, [value_at d s1; value_at d s2]))
               (sort_by id union))).

(** [a / b] on two series with the same index. *)
Definition series_div (a b : Series) : Series :=
  zip_with (fun x y => (x.1, f_div x.2 y.2)) a b.

(** [df[name] = s] for a new column name and a series with the index of
    [df]. *)
Definition df_setitem (df : DataFrame) (name : string) (s : Series) : DataFrame :=
  mkDF (columns df ++ [name])
       (zip_with (fun r v => (r.1, r.2 ++ [v.2])) (rows df) s).

(** ** JSON documents *)

#[local] Set Warnings "-register-all".
Inductive json :=
  | JNull
  | JNum (x : float64)
  | JStr (s : string)
  | JArr (items : list json)
  | JObj (members : list (string * json)).

(** ** The world outside the script

    What the two data providers answer, the wall clock and the place of
    the script in the file system. *)

Inductive col_index :=
  | Index (names : list string)
  | MultiIndex (names : list (string * string)).

Record ProviderFrame := mkPF {
  pf_columns : col_index;
  pf_rows : list (Timestamp * list float64)
}.

Record CsvTable := mkCsv {
  csv_columns : list string;
  csv_rows : list (list string)
}.

Record World := mkWorld {
  yf_download : string -> result ProviderFrame;
  read_csv : string -> result CsvTable;
  now_isoformat : nat -> string;
  script_file : path
}.

(** ** The state of a run

    Data frames are objects in a store, named by their location; a file
    holds the documents dumped into it since it was last truncated. *)

Abbreviation loc := nat (only parsing).

Record State := mkState {
  heap : list DataFrame;
  dirs : gset path;
  files : gmap path (list json);
  stdout : list string;
  clock : nat
}.

Definition set_heap (h : list DataFrame) (s : State) : State :=
  mkState h (dirs s) (files s) (stdout s) (clock s).
Definition set_dirs (d : gset path) (s : State) : State :=
  mkState (heap s) d (files s) (stdout s) (clock s).
Definition set_files (f : gmap path (list json)) (s : State) : State :=
  mkState (heap s) (dirs s) f (stdout s) (clock s).
Definition set_stdout (o : list string) (s : State) : State :=
  mkState (heap s) (dirs s) (files s) o (clock s).
Definition set_clock (c : nat) (s : State) : State :=
  mkState (heap s) (dirs s) (files s) (stdout s) c.

(** ** The monad of the script: state and exceptions *)

Definition M (A : Type) : Type := State -> result A * State.

Definition ret {A} (a : A) : M A := fun s => (Ok a, s).

Definition bind {A B} (m : M A) (k : A -> M B) : M B :=
  fun s =>
    match m s with
    | (Ok a, s') => k a s'
    | (Raise e, s') => (Raise e, s')
    end.

Definition lift {A} (r : result A) : M A := fun s => (r, s).

(** [try: m except Exception as e: h e]. *)
Definition try_except {A} (m : M A) (h : exn -> M A) : M A :=
  fun s =>
    match m s with
    | (Ok a, s') => (Ok a, s')
    | (Raise e, s') => h e s'
    end.

Definition rbind {A B} (r : result A) (k : A -> result B) : result B :=
  match r with
  | Ok a => k a
  | Raise e => Raise e
  end.

Declare Scope prog_scope.
Delimit Scope prog_scope with prog.
Notation "'let*' x := m 'in' k" := (bind m (fun x => k))
  (at level 10, x pattern, m at level 100, k at level 200) : prog_scope.
Notation "m ;;; k" := (bind m (fun _ => k))
  (at level 100, k at level 200, right associativity) : prog_scope.

Declare Scope res_scope.
Delimit Scope res_scope with res.
Notation "'let*' x := m 'in' k" := (rbind m (fun x => k))
  (at level 10, x pattern, m at level 100, k at level 200) : res_scope.

Fixpoint for_each {A} (l : list A) (body : A -> M unit) : M unit :=
  match l with
  | [] => ret tt
  | x :: l' => bind (body x) (fun _ => for_each l' body)
  end.

Fixpoint rmap {A B} (f : A -> result B) (l : list A) : result (list B) :=
  match l with
  | [] => Ok []
  | x :: l' =>
      rbind (f x) (fun y => rbind (rmap f l') (fun ys => Ok (y :: ys)))
  end.

(** *** Primitive effects *)

Definition print (line : string) : M unit :=
  fun s => (Ok tt, set_stdout (stdout s ++ [line]) s).

(** A new object in the store. *)
Definition alloc (df : DataFrame) : M loc :=
  fun s => (Ok (length (heap s)), set_heap (heap s ++ [df]) s).

(** The object a reference points to.  A variable of the script always
    refers to an object of the store; the empty frame stands for the
    content of a location that was never allocated. *)
Definition read (l : loc) : M DataFrame :=
  fun s => (Ok (default empty_frame (heap s !! l)), s).

(** In-place update of the object at [l]. *)
Definition write (l : loc) (df : DataFrame) : M unit :=
  fun s => (Ok tt, set_heap (<[l := df]> (heap s)) s).

(** [path.parent]. *)
Definition parent (p : path) : path := removelast p.

(** [path.name]. *)
Definition path_name (p : path) : string := default EmptyString (last p).

(** The root [[]] always exists. *)
Definition dir_exists (s : State) (p : path) : bool :=
  bool_decide (p = []) || bool_decide (p ∈ dirs s).

Fixpoint prefixes (p : path) : list path :=
  match p with
  | [] => [[]]
  | c :: p' => [] :: map (cons c) (prefixes p')
  end.

(** [p.mkdir(parents=True, exist_ok=True)]. *)
Definition mkdir_parents (p : path) : M unit :=
  fun s => (Ok tt, set_dirs (dirs s ∪ list_to_set (prefixes p)) s).

(** [open(p, "w")]: the file is created or truncated; its directory must
    exist. *)
Definition open_w (p : path) : M unit :=
  fun s =>
    if dir_exists s (parent p) then (Ok tt, set_files (<[p := []]> (files s)) s)
    else (Raise (FileNotFoundError p), s).

(** [json.dump(doc, f, indent=2)] on the file opened at [p]. *)
Definition json_dump (doc : json) (p : path) : M unit :=
  fun s => (Ok tt, set_files (alter (fun c => c ++ [doc]) p (files s)) s).

(** ** The script *)

Definition nl : string := String (ascii_of_nat 10) EmptyString.

Fixpoint str_repeat (n : nat) (s : string) : string :=
  match n with
  | O => EmptyString
  | S n' => s +:+ str_repeat n' s
  end.

(** [str(p)] for a path. *)
Fixpoint path_str (p : path) : string :=
  match p with
  | [] => EmptyString
  | [c] => c
  | c :: p' => c +:+ "/" +:+ path_str p'
  end.

(** [str(e)].  An [IndexError] carries the message numpy gives it when an
    index of the column labels is out of bounds. *)
Definition exn_str (e : exn) : string :=
  match e with
  | KeyError k => "'" +:+ k +:+ "'"
  | IndexError i n =>
      "index " +:+ pretty i +:+ " is out of bounds for axis 0 with size "
      +:+ pretty n
  | ValueError m => m
  | InvalidIndexError => "Reindexing only valid with uniquely valued Index objects"
  | FileNotFoundError p =>
      "[Errno 2] No such file or directory: '" +:+ path_str p +:+ "'"
  | IOError m => m
  end.

Definition FRED_SERIES : list (string * string) :=
  [("housing_us_median", "MSPUS");
   ("housing_northeast", "MSPNE");
   ("housing_midwest", "MSPMW");
   ("housing_south", "MSPS");
   ("housing_west", "MSPW")].

Definition YFINANCE_TICKERS : list (string * string) :=
  [("btc_usd", "BTC-USD");
   ("gold_usd", "GC=F");
   ("sp500", "^GSPC")].

Definition START_DATE : Timestamp := mkTs 2010 Jan 1.

(** [d[key]] on a dictionary literal. *)
Fixpoint dict_get (d : list (string * string)) (key : string) : result string :=
  match d with
  | [] => Raise (KeyError key)
  | kv :: d' => if decide (kv.1 = key) then Ok kv.2 else dict_get d' key
  end.

(** [df.columns.get_level_values(0)] when the columns are a MultiIndex. *)
Definition flat_columns (c : col_index) : list string :=
  match c with
  | Index names => names
  | MultiIndex names => names.*1
  end.

(** [pd.to_datetime] on one cell of a CSV: an empty cell is NaT, an ISO
    date is that date, anything else is an error. *)
Definition to_datetime (cell : string) : result (option Timestamp) :=
  match cell with
  | EmptyString => Ok None
  | _ =>
      match split_on "-" cell EmptyString with
      | [ys; ms; ds] =>
          match parse_nat ys, parse_nat ms, parse_nat ds with
          | Some y, Some m, Some d =>
              match month_of_num m with
              | Some mo =>
                  if (1 <=? d) && (d <=? days_in_month y mo)
                  then Ok (Some (mkTs y mo d))
                  else Raise (ValueError cell)
              | None => Raise (ValueError cell)
              end
          | _, _, _ => Raise (ValueError cell)
          end
      | _ => Raise (ValueError cell)
      end
  end.

(** [pd.to_numeric(..., errors="coerce")] on one cell. *)
Definition to_numeric_coerce (cell : string) : float64 :=
  match parse_decimal cell with
  | Some (neg, q) =>
      if Qeq_bool q 0 then f_zero neg else b64 (if neg then - q else q)
  | None => NaN
  end.

Definition cell_at (cells : list string) (i : nat) : string :=
  default EmptyString (cells !! i).

(** The first column named like a date, if any. *)
Fixpoint find_date_col (cols : list string) : option string :=
  match cols with
  | [] => None
  | col :: cols' =>
      if bool_decide (upper col ∈ ["DATE"; "OBSERVATION_DATE"]) then Some col
      else find_date_col cols'
  end.

Section Script.

Variable W : World.

Local Open Scope prog_scope.

Definition DATA_DIR : path := parent (parent (script_file W)) ++ ["data"].

Definition now : M string :=
  fun s => (Ok (now_isoformat W (clock s)), set_clock (S (clock s)) s).

Definition fetch_yfinance_data (ticker name : string) : M loc :=
  print ("Fetching " +:+ name +:+ " (" +:+ ticker +:+ ")...") ;;;
  let* df := lift (yf_download W ticker) in
  if match pf_rows df, flat_columns (pf_columns df) with
     | [], _ | _, [] => true
     | _, _ => false
     end
  then
    print ("  Warning: No data returned for " +:+ ticker) ;;;
    alloc empty_frame
  else
    let df := mkDF (flat_columns (pf_columns df)) (pf_rows df) in
    let* close := lift (df_getitem df "Close") in
    let quarterly := resample_QE_last close in
    let quarterly := dropna quarterly in
    print ("  Got " +:+ pretty (length quarterly) +:+ " quarterly data points") ;;;
    alloc (to_frame "price" quarterly).

(** The body of the [try] block of [fetch_fred_data]: the rows of the
    frame it builds, indexed by the parsed dates, with the one column
    ["price"]. *)
Definition fred_try_body (series_id : string) (df : CsvTable)
    : result (list (option Timestamp * float64)) :=
  let cols := csv_columns df in
  (let* date_col :=
     match find_date_col cols with
     | Some col => Ok col
     | None =>
         match cols with
         | col :: _ => Ok col
         | [] => Raise (IndexError 0 0)
         end
     end in
   let* value_col :=
     if bool_decide (series_id ∈ cols) then Ok series_id
     else match cols !! 1%nat with
          | Some col => Ok col
          | None => Raise (IndexError 1 (length cols))
          end in
   let dpos := default O (col_pos date_col cols) in
   let* dates := rmap (fun cells => to_datetime (cell_at cells dpos)) (csv_rows df) in
   match col_pos value_col (delete dpos cols) with
   | None => Raise (KeyError value_col)
   | Some vpos =>
       Ok (zip_with
             (fun d cells => (d, to_numeric_coerce (cell_at (delete dpos cells) vpos)))
             dates (csv_rows df))
   end)%res.

(** [df[df.index >= START_DATE]]: NaT compares false. *)
Definition from_start_date (rows : list (option Timestamp * float64)) : Series :=
  omap (fun r => match r.1 with
                 | Some d => if ts_leb START_DATE d then Some (d, r.2) else None
                 | None => None
                 end) rows.

Definition fetch_fred_data (series_id name : string) : M loc :=
  print ("Fetching " +:+ name +:+ " (" +:+ series_id +:+ ")...") ;;;
  let url := "https://fred.stlouisfed.org/graph/fredgraph.csv?id=" +:+ series_id in
  let* r :=
    try_except
      (let* df := lift (read_csv W url) in
       let* df := lift (fred_try_body series_id df) in
       ret (Some df))
      (fun e =>
         print ("  Warning: Failed to fetch " +:+ series_id +:+ ": " +:+ exn_str e) ;;;
         ret None) in
  match r with
  | None => alloc empty_frame
  | Some df =>
      let df := from_start_date df in
      let quarterly := resample_QE_last df in
      let quarterly := dropna quarterly in
      print ("  Got " +:+ pretty (length quarterly) +:+ " quarterly data points") ;;;
      alloc (to_frame "price" quarterly)
  end.

Definition compute_btc_ratio (btc_df asset_df : loc) : M loc :=
  let* b := read btc_df in
  let* a := read asset_df in
  let* bp := lift (df_getitem b "price") in
  let* ap := lift (df_getitem a "price") in
  let* c := lift (concat_axis1 "btc" "asset" bp ap) in
  let* combined := alloc c in
  let* c := read combined in
  let* combined := alloc (df_dropna c) in
  let* c := read combined in
  let* x := lift (df_getitem c "asset") in
  let* y := lift (df_getitem c "btc") in
  write combined (df_setitem c "asset_per_btc" (series_div x y)) ;;;
  ret combined.

(** [round(row[name], n) if name in row else None]. *)
Definition rounded_field (cols : list string) (cells : list float64)
    (name : string) (n : nat) : json :=
  match row_get cols cells name with
  | Some v => JNum (round_nd n v)
  | None => JNull
  end.

Definition ratio_record (cols : list string) (r : Timestamp * list float64) : json :=
  JObj [("date", JStr (strftime_ymd r.1));
        ("btc_price", rounded_field cols r.2 "btc" 2);
        ("asset_price", rounded_field cols r.2 "asset" 2);
        ("asset_per_btc", rounded_field cols r.2 "asset_per_btc" 10)].

Definition save_to_json (df : loc) (filepath : path) (asset_name : string) : M unit :=
  let* d := read df in
  let records := map (ratio_record (columns d)) (rows d) in
  let* t := now in
  let output := JObj [("asset", JStr asset_name);
                      ("updated_at", JStr t);
                      ("data", JArr records)] in
  mkdir_parents (parent filepath) ;;;
  open_w filepath ;;;
  json_dump output filepath ;;;
  print ("  Saved " +:+ pretty (length records) +:+ " records to " +:+ path_name filepath).

Definition btc_usd_record (cols : list string) (r : Timestamp * list float64)
    : result json :=
  match row_get cols r.2 "price" with
  | Some price =>
      Ok (JObj [("date", JStr (strftime_ymd r.1));
                ("btc_price_usd", JNum price);
                ("btc_per_usd", JNum (f_div (Fin 1) price))])
  | None => Raise (KeyError "price")
  end.

Definition save_btc_usd (btc_df : loc) : M unit :=
  let* d := read btc_df in
  let* records := lift (rmap (btc_usd_record (columns d)) (rows d)) in
  let* t := now in
  let output := JObj [("asset", JStr "USD in BTC");
                      ("updated_at", JStr t);
                      ("data", JArr records)] in
  let filepath := DATA_DIR ++ ["btc_usd.json"] in
  open_w filepath ;;;
  json_dump output filepath ;;;
  print ("  Saved " +:+ pretty (length records) +:+ " records to " +:+ path_name filepath).

(** The body of the loop over [YFINANCE_TICKERS]. *)
Definition yfinance_step (btc_df : loc) (item : string * string) : M unit :=
  let '(name, ticker) := item in
  if decide (name = "btc_usd") then ret tt
  else
    let* asset_df := fetch_yfinance_data ticker name in
    let* a := read asset_df in
    if negb (df_empty a) then
      let* combined := compute_btc_ratio btc_df asset_df in
      save_to_json combined (DATA_DIR ++ [name +:+ ".json"]) name
    else ret tt.

(** The body of the loop over [FRED_SERIES]. *)
Definition fred_step (btc_df : loc) (item : string * string) : M unit :=
  let '(name, series_id) := item in
  let* asset_df := fetch_fred_data series_id name in
  let* a := read asset_df in
  if negb (df_empty a) then
    let* combined := compute_btc_ratio btc_df asset_df in
    save_to_json combined (DATA_DIR ++ [name +:+ ".json"]) name
  else ret tt.

Definition main : M unit :=
  print (str_repeat 50 "=") ;;;
  print "BTC Purchasing Power - Data Update" ;;;
  print (str_repeat 50 "=") ;;;
  print (nl +:+ "[1/3] Fetching yfinance data...") ;;;
  let* ticker := lift (dict_get YFINANCE_TICKERS "btc_usd") in
  let* btc_df := fetch_yfinance_data ticker "Bitcoin" in
  let* b := read btc_df in
  if df_empty b then
    print "Error: Could not fetch BTC data. Aborting."
  else
    save_btc_usd btc_df ;;;
    for_each YFINANCE_TICKERS (yfinance_step btc_df) ;;;
    print (nl +:+ "[2/3] Fetching FRED housing data...") ;;;
    for_each FRED_SERIES (fred_step btc_df) ;;;
    print (nl +:+ "[3/3] Done!") ;;;
    print (str_repeat 50 "=").

End Script.

(** ** Specification-side notions *)

(** Dates strictly increasing along the series. *)
Definition increasing_dates (s : Series) : Prop :=
  StronglySorted (fun a b : Timestamp * float64 => ts_lt a.1 b.1) s.

(** The last row of every run of rows of one quarter, labelled with the
    quarter's end: what quarter-end resampling keeps of valid rows in
    chronological order. *)
Fixpoint last_per_quarter (l : Series) : Series :=
  match l with
  | [] => []
  | r :: l' =>
      match l' with
      | [] => [(quarter_end (quarter r.1), r.2)]
      | r' :: _ =>
          if quarter r.1 =? quarter r'.1 then last_per_quarter l'
          else (quarter_end (quarter r.1), r.2) :: last_per_quarter l'
      end
  end.

(** No row of the series is missing its value. *)
Definition valid_series (s : Series) : Prop :=
  Forall (fun r : Timestamp * float64 => notna r.2 = true) s.

(** The ratio series as the specification words it: the dates present in
    both series, in the order of the BTC series, each with the BTC price,
    the asset price and the asset price divided by the BTC price. *)
Definition inner_join_ratio (btc asset : Series) : list (Timestamp * list float64) :=
  (fun d => (d, [value_at d btc; value_at d asset;
                 f_div (value_at d asset) (value_at d btc)]))
    <$> filter (fun d => d ∈ asset.*1) btc.*1.

(** A quarterly price series: strictly increasing dates, each the last
    day of its quarter, and no missing value. *)
Definition quarterly_series (s : Series) : Prop :=
  increasing_dates s /\
  valid_series s /\
  Forall (fun r : Timestamp * float64 => r.1 = quarter_end (quarter r.1)) s.

(** What a fetcher hands back: the empty frame, or a frame whose only
    column ["price"] is a quarterly series. *)
Definition fetched_frame (df : DataFrame) : Prop :=
  df = empty_frame \/
  exists s, df = to_frame "price" s /\ quarterly_series s.

(** A price above zero. *)
Definition positive_price (x : float64) : Prop :=
  match x with
  | Fin q => (0 < q)%Q
  | PInf => True
  | NZero | NInf | NaN => False
  end.

(** *** Sample worlds and states *)

Definition repo_script : path := ["repo"; "scripts"; "update_prices.py"].

(** A state with nothing in it: no object, no directory, no file. *)
Definition fresh_state : State := mkState [] ∅ ∅ [] 0.

(** The same, with the data directory in place. *)
Definition state_with_data_dir : State :=
  mkState [] {[ ["repo"; "data"] ]} ∅ [] 0.

(** Both providers are out of reach. *)
Definition offline_world : World :=
  mkWorld (fun _ => Raise (IOError "connection refused"))
          (fun _ => Raise (IOError "connection refused"))
          (fun n => "2026-01-01T00:00:0" +:+ pretty n) repo_script.

(** The market provider knows no ticker; FRED is out of reach. *)
Definition no_rows_world : World :=
  mkWorld (fun _ => Ok (mkPF (Index []) []))
          (fun _ => Raise (IOError "connection refused"))
          (fun n => "2026-01-01T00:00:0" +:+ pretty n) repo_script.

(** The market provider reports a close of zero for every ticker. *)
Definition zero_close_world : World :=
  mkWorld (fun _ => Ok (mkPF (Index ["Close"]) [(mkTs 2021 Mar 31, [Fin 0])]))
          (fun _ => Raise (IOError "connection refused"))
          (fun n => "2026-01-01T00:00:0" +:+ pretty n) repo_script.

(** The scenario of the specification: two quarters of BTC and gold, no
    S&P data, and a median house price series whose second quarter is
    the placeholder ["."]. *)
Definition scenario_world : World :=
  mkWorld
    (fun t =>
       if decide (t = "BTC-USD") then
         Ok (mkPF (MultiIndex [("Close", "BTC-USD"); ("Volume", "BTC-USD")])
               [(mkTs 2021 Mar 31, [Fin 50000; Fin 1]);
                (mkTs 2021 Jun 30, [Fin 35000; Fin 2])])
       else if decide (t = "GC=F") then
         Ok (mkPF (Index ["Close"])
               [(mkTs 2021 Mar 31, [Fin 1800]); (mkTs 2021 Jun 30, [Fin 1770])])
       else Ok (mkPF (Index []) []))
    (fun u =>
       if decide (u = "https://fred.stlouisfed.org/graph/fredgraph.csv?id=MSPUS")
       then Ok (mkCsv ["observation_date"; "MSPUS"]
                  [["2021-01-01"; "369800"]; ["2021-04-01"; "."];
                   ["2021-07-01"; "411200"]])
       else Raise (IOError "HTTP Error 404: Not Found"))
    (fun n => "2026-01-01T00:00:0" +:+ pretty n) repo_script.

Definition btc_scenario : Series :=
  [(mkTs 2021 Mar 31, Fin 50000); (mkTs 2021 Jun 30, Fin 35000)].

Definition gold_scenario : Series :=
  [(mkTs 2021 Mar 31, Fin 1800); (mkTs 2021 Jun 30, Fin 1770)].


(** A computation that only adds objects to the store: the objects it
    finds keep their location and their content. *)
Definition store_extends {A} (m : M A) : Prop :=
  forall s, heap s `prefix_of` heap (m s).2.

(** A fetch that returns, without an exception, a frame that is empty. *)
Definition returns_empty (m : M loc) : Prop :=
  forall s, exists l s',
    m s = (Ok l, s') /\ df_empty (default empty_frame (heap s' !! l)) = true.

(** The two ways [fetch_yfinance_data] ends in an exception for a ticker:
    the provider call raises it, or the frame of the provider has rows
    and columns but no column ["Close"]. *)
Definition market_fetch_raises (W : World) (ticker : string) (e : exn) : Prop :=
  yf_download W ticker = Raise e \/
  (exists pf,
     yf_download W ticker = Ok pf /\
     pf_rows pf <> [] /\
     ("Close" ∉ flat_columns (pf_columns pf)) /\
     e = KeyError "Close").

(** The ratio documents of a run: one for every configured name but the
    anchor's, in the data directory. *)
Definition ratio_files (W : World) : list path :=
  (fun name => DATA_DIR W ++ [name +:+ ".json"])
    <$> (filter (fun name => name <> "btc_usd") YFINANCE_TICKERS.*1
         ++ FRED_SERIES.*1).

(** The documents of a run: the BTC-in-USD document and the ratio
    documents. *)
Definition output_files (W : World) : list path :=
  (DATA_DIR W ++ ["btc_usd.json"]) :: ratio_files W.

(** The file system of [s'] differs from that of [s] at most in the files
    [fs], none of which was deleted, and in directories among [ds], which
    were created. *)
Definition fs_within (fs ds : list path) (s s' : State) : Prop :=
  (forall p, p ∉ fs -> files s' !! p = files s !! p) /\
  dom (files s) ⊆ dom (files s') /\
  dirs s ⊆ dirs s' /\
  dirs s' ⊆ dirs s ∪ list_to_set ds.

Definition writes_within {A} (fs ds : list path) (m : M A) : Prop :=
  forall s, fs_within fs ds s (m s).2.

(** * Properties *)

(** ** Chronological order *)

Lemma month_num_range m : 1 <= month_num m <= 12.
Proof. destruct m; simpl; lia. Qed.

Lemma month_num_inj m m' : month_num m = month_num m' -> m = m'.
Proof. destruct m, m'; simpl; intros H; try reflexivity; lia. Qed.

Lemma ts_ltb_lt a b : ts_ltb a b = true <-> ts_lt a b.
Proof.
  unfold ts_ltb, ts_lt.
  rewrite !orb_true_iff, !andb_true_iff, !orb_true_iff, !andb_true_iff.
  rewrite !Z.ltb_lt, !Z.eqb_eq. tauto.
Qed.

Lemma ts_lt_irrefl a : ~ ts_lt a a.
Proof. unfold ts_lt. lia. Qed.

Lemma ts_lt_trans a b c : ts_lt a b -> ts_lt b c -> ts_lt a c.
Proof. unfold ts_lt. lia. Qed.

Lemma ts_lt_total a b : ts_lt a b \/ a = b \/ ts_lt b a.
Proof.
  destruct a as [y m d], b as [y' m' d']. unfold ts_lt; simpl.
  destruct (Z.lt_total y y') as [?|[?|?]]; try lia.
  destruct (Z.lt_total (month_num m) (month_num m')) as [?|[Hm|?]]; try lia.
  destruct (Z.lt_total d d') as [?|[?|?]]; try lia.
  apply month_num_inj in Hm. subst. auto.
Qed.

Lemma ts_leb_le a b : ts_leb a b = true <-> ts_le a b.
Proof.
  unfold ts_leb, ts_le. rewrite negb_true_iff, <- not_true_iff_false, ts_ltb_lt.
  split.
  - intros H. destruct (ts_lt_total a b) as [?|[?|?]]; tauto.
  - intros [H| ->] H'; [|by apply ts_lt_irrefl in H'].
    eapply ts_lt_irrefl, ts_lt_trans; eauto.
Qed.

Lemma ts_leb_refl a : ts_leb a a = true.
Proof. apply ts_leb_le. by right. Qed.

Lemma ts_leb_trans a b c :
  ts_leb a b = true -> ts_leb b c = true -> ts_leb a c = true.
Proof.
  rewrite !ts_leb_le. intros [H| ->] [H'| <-]; unfold ts_le; eauto using ts_lt_trans.
Qed.

Lemma ts_leb_total a b : ts_leb a b = true \/ ts_leb b a = true.
Proof.
  rewrite !ts_leb_le. unfold ts_le.
  destruct (ts_lt_total a b) as [?|[?|?]]; auto.
Qed.

Lemma ts_ltb_leb a b : ts_ltb a b = true -> ts_leb a b = true.
Proof. rewrite ts_ltb_lt, ts_leb_le. by left. Qed.

Lemma ts_leb_false a b : ts_leb a b = false -> ts_ltb b a = true.
Proof. unfold ts_leb. by rewrite negb_false_iff. Qed.

(** The quarter is monotone in the date. *)
Lemma quarter_mono a b : ts_leb a b = true -> quarter a <= quarter b.
Proof.
  rewrite ts_leb_le. intros [H| ->]; [|lia].
  unfold quarter. pose proof (month_num_range (month a)).
  pose proof (month_num_range (month b)).
  destruct H as [H|[Hy [H|[Hm _]]]]; Z.div_mod_to_equations; lia.
Qed.

Lemma quarter_end_cases q :
  (q mod 4 = 0 /\ quarter_end q = mkTs (q / 4) Mar 31) \/
  (q mod 4 = 1 /\ quarter_end q = mkTs (q / 4) Jun 30) \/
  (q mod 4 = 2 /\ quarter_end q = mkTs (q / 4) Sep 30) \/
  (q mod 4 = 3 /\ quarter_end q = mkTs (q / 4) Dec 31).
Proof.
  unfold quarter_end.
  pose proof (Z.mod_pos_bound q 4 ltac:(lia)) as Hb.
  assert (q mod 4 = 0 \/ q mod 4 = 1 \/ q mod 4 = 2 \/ q mod 4 = 3)
    as [H|[H|[H|H]]] by lia; rewrite H; tauto.
Qed.

Lemma quarter_quarter_end q : quarter (quarter_end q) = q.
Proof.
  pose proof (Z.div_mod q 4 ltac:(lia)) as Hq.
  destruct (quarter_end_cases q) as [[E ->]|[[E ->]|[[E ->]|[E ->]]]];
    unfold quarter; cbn [year month month_num]; change ((3 - 1) / 3) with 0;
    change ((6 - 1) / 3) with 1; change ((9 - 1) / 3) with 2;
    change ((12 - 1) / 3) with 3; lia.
Qed.

Lemma quarter_end_lt q q' : q < q' -> ts_lt (quarter_end q) (quarter_end q').
Proof.
  intros Hlt. unfold ts_lt.
  pose proof (Z.div_mod q 4 ltac:(lia)) as Hq.
  pose proof (Z.div_mod q' 4 ltac:(lia)) as Hq'.
  destruct (quarter_end_cases q) as [[E ->]|[[E ->]|[[E ->]|[E ->]]]];
  destruct (quarter_end_cases q') as [[E' ->]|[[E' ->]|[[E' ->]|[E' ->]]]];
    simpl; lia.
Qed.

Lemma quarter_end_inj q q' : quarter_end q = quarter_end q' -> q = q'.
Proof. intros H. by rewrite <- (quarter_quarter_end q), H, quarter_quarter_end. Qed.

(** ** Sorting by timestamp *)

Section Sorting.
Context {A : Type} (key : A -> Timestamp).

Local Abbreviation le_key := (fun x y : A => ts_leb (key x) (key y) = true).
Local Abbreviation lt_key := (fun x y : A => ts_lt (key x) (key y)).

Lemma insert_by_perm x l : insert_by key x l ≡ₚ x :: l.
Proof.
  induction l as [|y l IH]; simpl; [done|].
  destruct (ts_leb (key x) (key y)); [done|].
  rewrite IH. apply Permutation_swap.
Qed.

Lemma sort_by_perm l : sort_by key l ≡ₚ l.
Proof.
  induction l as [|x l IH]; simpl; [done|].
  unfold sort_by in *. simpl. by rewrite insert_by_perm, IH.
Qed.

Lemma elem_of_sort_by x l : x ∈ sort_by key l <-> x ∈ l.
Proof. by rewrite sort_by_perm. Qed.

Lemma insert_by_sorted x l :
  StronglySorted le_key l -> StronglySorted le_key (insert_by key x l).
Proof.
  induction 1 as [|y l Hs IH Hy]; simpl.
  - repeat constructor.
  - destruct (ts_leb (key x) (key y)) eqn:E.
    + constructor; [by constructor|]. constructor; [done|].
      eapply Forall_impl; [exact Hy|]. simpl. eauto using ts_leb_trans.
    + constructor; [done|]. rewrite insert_by_perm. constructor; [|done].
      apply ts_ltb_leb, ts_leb_false, E.
Qed.

Lemma sort_by_sorted l : StronglySorted le_key (sort_by key l).
Proof.
  induction l as [|x l IH]; [constructor|].
  unfold sort_by in *. simpl. by apply insert_by_sorted.
Qed.

(** Sorting leaves a sorted list as it is. *)
Lemma sort_by_id l : StronglySorted le_key l -> sort_by key l = l.
Proof.
  induction 1 as [|x l Hs IH Hx]; [done|].
  unfold sort_by in *. simpl. rewrite IH.
  destruct l as [|y l]; [done|]. simpl.
  inversion Hx as [|?? Hxy _]; subst. by rewrite Hxy.
Qed.

Lemma lt_sorted_le_sorted l :
  StronglySorted lt_key l -> StronglySorted le_key l.
Proof.
  induction 1 as [|x l Hs IH Hx]; constructor; [done|].
  eapply Forall_impl; [exact Hx|]. simpl. intros y Hy.
  apply ts_leb_le. by left.
Qed.

(** A stable sort commutes with the selection of rows. *)
Lemma filter_insert_by (P : A -> Prop) `{!forall x, Decision (P x)} x l :
  StronglySorted le_key l ->
  filter P (insert_by key x l) =
    if decide (P x) then insert_by key x (filter P l) else filter P l.
Proof.
  induction 1 as [|y l Hs IH Hy]; simpl.
  - rewrite filter_cons, filter_nil. by destruct (decide (P x)).
  - destruct (ts_leb (key x) (key y)) eqn:E.
    + rewrite filter_cons. destruct (decide (P x)) as [Hx|Hx]; [|done].
      rewrite filter_cons. destruct (decide (P y)) as [Hpy|Hpy].
      * simpl. by rewrite E.
      * assert (Forall (fun z => ts_leb (key x) (key z) = true) (filter P l)) as Hf.
        { apply Forall_forall. intros z Hz.
          apply list_elem_of_filter in Hz as [_ Hz].
          rewrite Forall_forall in Hy. eauto using ts_leb_trans. }
        destruct (filter P l) as [|z l']; [done|]. simpl.
        inversion Hf as [|?? Hxz _]; subst. by rewrite Hxz.
    + rewrite !(filter_cons _ y), IH.
      destruct (decide (P y)); destruct (decide (P x)); simpl; try done.
      by rewrite E.
Qed.

Lemma filter_sort_by (P : A -> Prop) `{!forall x, Decision (P x)} l :
  filter P (sort_by key l) = sort_by key (filter P l).
Proof.
  induction l as [|x l IH]; [done|].
  unfold sort_by in *. simpl.
  rewrite filter_insert_by by apply sort_by_sorted.
  rewrite filter_cons. destruct (decide (P x)); simpl; by rewrite IH.
Qed.

End Sorting.

(** ** The last valid value of a group *)

Lemma last_valid_snoc g v :
  last_valid (g ++ [v]) = if isna v then last_valid g else v.
Proof. unfold last_valid. by rewrite fold_left_app. Qed.

Lemma last_valid_singleton v : last_valid [v] = v.
Proof. by destruct v. Qed.

Lemma last_valid_dropna g :
  last_valid (filter (fun v => notna v = true) g) = last_valid g.
Proof.
  induction g as [|v g IH] using rev_ind; [done|].
  rewrite filter_app, last_valid_snoc, filter_cons, filter_nil.
  destruct (decide (notna v = true)) as [Hv|Hv]; unfold notna in Hv.
  - rewrite last_valid_snoc. by destruct (isna v).
  - rewrite app_nil_r. by destruct (isna v).
Qed.

Lemma last_valid_nil_iff g :
  last_valid g = NaN <-> Forall (fun v => isna v = true) g.
Proof.
  induction g as [|v g IH] using rev_ind.
  - split; [constructor|done].
  - rewrite last_valid_snoc, Forall_app, Forall_singleton.
    destruct (isna v) eqn:E.
    + rewrite IH. tauto.
    + split; [|intros [_ ?]; done]. intros ->. done.
Qed.

Lemma last_valid_all_valid g v :
  Forall (fun v => notna v = true) g -> last g = Some v -> last_valid g = v.
Proof.
  intros Hg Hl. apply last_Some in Hl as [g' ->].
  rewrite last_valid_snoc. apply Forall_app in Hg as [_ Hv].
  rewrite Forall_singleton in Hv. unfold notna in Hv.
  by destruct (isna v).
Qed.

Lemma last_valid_elem_of g : notna (last_valid g) = true -> last_valid g ∈ g.
Proof.
  induction g as [|v g IH] using rev_ind; [done|].
  rewrite last_valid_snoc. destruct (isna v) eqn:E; set_solver.
Qed.

(** ** Selections of a list *)

Section Filter.
Context {A : Type} (P : A -> Prop) `{!forall x, Decision (P x)}.

Lemma filter_none (l : list A) : Forall (fun x => ~ P x) l -> filter P l = [].
Proof.
  induction 1 as [|x l Hx _ IH]; [done|].
  by rewrite filter_cons_False.
Qed.

Lemma filter_all (l : list A) : Forall P l -> filter P l = l.
Proof.
  induction 1 as [|x l Hx _ IH]; [done|].
  by rewrite filter_cons_True, IH.
Qed.

Lemma filter_ext_in (Q : A -> Prop) `{!forall x, Decision (Q x)} (l : list A) :
  (forall x, x ∈ l -> P x <-> Q x) -> filter P l = filter Q l.
Proof.
  induction l as [|x l IH]; intros Hl; [done|].
  rewrite !filter_cons, IH by (intros; apply Hl; by right).
  pose proof (Hl x ltac:(by left)) as Hx.
  destruct (decide (P x)), (decide (Q x)); tauto.
Qed.

Lemma filter_fmap_list {B} (f : B -> A) (l : list B) :
  filter P (f <$> l) = f <$> filter (fun y => P (f y)) l.
Proof.
  induction l as [|y l IH]; [done|].
  rewrite fmap_cons, !filter_cons, IH. by destruct (decide (P (f y))).
Qed.

Lemma filter_sorted (R : relation A) (l : list A) :
  StronglySorted R l -> StronglySorted R (filter P l).
Proof.
  induction 1 as [|x l Hs IH Hx]; [constructor|].
  rewrite filter_cons. destruct (decide (P x)); [|done].
  constructor; [done|]. apply Forall_forall. intros y Hy.
  apply list_elem_of_filter in Hy as [_ Hy].
  rewrite Forall_forall in Hx. auto.
Qed.
End Filter.

Lemma filter_eq_NoDup {A} `{EqDecision A} (x : A) (l : list A) :
  NoDup l -> x ∈ l -> filter (fun y => y = x) l = [x].
Proof.
  induction 1 as [|y l Hy Hl IH]; [by intros ?%elem_of_nil|].
  rewrite filter_cons. intros [->|Hx]%elem_of_cons.
  - rewrite decide_True by done. f_equal.
    apply filter_none, Forall_forall. by intros z ? ->.
  - rewrite decide_False by (by intros ->). auto.
Qed.

(** ** Quarter bins *)

Lemma seqZ_sorted a n : StronglySorted Z.lt (seqZ a n).
Proof.
  destruct (decide (n <= 0)) as [|Hn]; [rewrite seqZ_nil by done; constructor|].
  rewrite <- (Z2Nat.id n) by lia. generalize (Z.to_nat n) as k. clear.
  intros k. revert a. induction k as [|k IH]; intros a.
  - rewrite seqZ_nil by done. constructor.
  - rewrite seqZ_cons by lia. constructor.
    + replace (Z.pred (Z.of_nat (S k))) with (Z.of_nat k) by lia. apply IH.
    + apply Forall_seqZ. lia.
Qed.

(** Rows labelled with the ends of increasing quarters are in strictly
    increasing date order. *)
Lemma quarter_rows_increasing (f : Z -> float64) (qs : list Z) :
  StronglySorted Z.lt qs ->
  increasing_dates ((fun q => (quarter_end q, f q)) <$> qs).
Proof.
  unfold increasing_dates. induction 1 as [|q qs Hs IH Hq]; [constructor|].
  rewrite fmap_cons. constructor; [done|].
  apply Forall_fmap, Forall_forall. rewrite Forall_forall in Hq.
  intros q' Hq'. simpl. by apply quarter_end_lt, Hq.
Qed.

Lemma increasing_dates_sorted (s : Series) :
  increasing_dates s -> sort_by fst s = s.
Proof. intros H. by apply sort_by_id, lt_sorted_le_sorted. Qed.

(** Among rows that are one per quarter, the bin of a quarter holds the
    row of that quarter. *)
Lemma quarter_bin_rows (f : Z -> float64) a n q :
  a <= q < a + n ->
  quarter_bin ((fun q => (quarter_end q, f q)) <$> seqZ a n) q = (quarter_end q, f q).
Proof.
  intros Hq. unfold quarter_bin. f_equal.
  rewrite filter_fmap_list.
  rewrite (filter_ext_in _ (fun y => y = q)).
  - rewrite filter_eq_NoDup by (by apply NoDup_seqZ || by apply elem_of_seqZ).
    simpl. apply last_valid_singleton.
  - intros y _. unfold in_quarter. simpl.
    rewrite quarter_quarter_end. apply Z.eqb_eq.
Qed.

Lemma last_seqZ a n : 0 < n -> last (seqZ a n) = Some (a + n - 1).
Proof.
  intros Hn. rewrite last_lookup, length_seqZ.
  rewrite lookup_seqZ_lt by lia. f_equal. lia.
Qed.

(** Resampling rows that already are one bin per consecutive quarter
    gives the same rows. *)
Lemma resample_quarter_rows (f : Z -> float64) a n :
  resample_QE_last ((fun q => (quarter_end q, f q)) <$> seqZ a n)
  = (fun q => (quarter_end q, f q)) <$> seqZ a n.
Proof.
  destruct (decide (n <= 0)) as [|Hn]; [by rewrite seqZ_nil|].
  unfold resample_QE_last.
  rewrite increasing_dates_sorted by apply quarter_rows_increasing, seqZ_sorted.
  rewrite fmap_last, last_seqZ by lia.
  rewrite (seqZ_cons a n) at 1 by lia. rewrite fmap_cons. simpl.
  rewrite !quarter_quarter_end.
  replace (a + n - 1 - a + 1) with n by lia.
  apply list_eq. intros i. rewrite !list_lookup_fmap.
  destruct (seqZ a n !! i) as [q|] eqn:E; [|done]. simpl. f_equal.
  apply lookup_seqZ in E. apply quarter_bin_rows. lia.
Qed.

(** The rows of a sorted series lie between its first and last quarter. *)
Lemma sorted_quarter_bounds (r0 : Timestamp * float64) (s : Series) r :
  StronglySorted (fun x y : Timestamp * float64 => ts_leb x.1 y.1 = true) (r0 :: s) ->
  r ∈ r0 :: s ->
  quarter r0.1 <= quarter r.1 <= quarter (default r0 (last (r0 :: s))).1.
Proof.
  intros Hs Hr. split.
  - apply StronglySorted_inv in Hs as [_ Hall].
    apply elem_of_cons in Hr as [->|Hr]; [lia|].
    rewrite Forall_forall in Hall. by apply quarter_mono, Hall.
  - destruct (last (r0 :: s)) as [rl|] eqn:El; [|by apply last_None in El].
    simpl. apply last_Some in El as [l' El]. rewrite El in Hs, Hr.
    apply elem_of_app in Hr as [Hr|Hr].
    + apply quarter_mono.
      apply (StronglySorted_app_1_elem_of _ l' [rl] r rl Hs Hr). by left.
    + apply list_elem_of_singleton in Hr as ->. lia.
Qed.

(** What [resample_QE_last] computes, with its first quarter and its
    number of bins. *)
Lemma resample_QE_last_bins (s : Series) :
  s <> [] ->
  exists a n, 0 < n /\
    resample_QE_last s = quarter_bin (sort_by fst s) <$> seqZ a n /\
    forall r, r ∈ s -> a <= quarter r.1 < a + n.
Proof.
  intros Hs. unfold resample_QE_last.
  pose proof (sort_by_sorted fst s) as Hsorted.
  destruct (sort_by fst s) as [|r0 s'] eqn:E.
  { exfalso. apply Hs. apply Permutation_nil_r. by rewrite <- (sort_by_perm fst s), E. }
  eexists _, _. split_and!; [|reflexivity|].
  - pose proof (sorted_quarter_bounds r0 s' r0 Hsorted ltac:(set_solver)). lia.
  - intros r Hr. rewrite <- (elem_of_sort_by fst), E in Hr.
    pose proof (sorted_quarter_bounds r0 s' r Hsorted Hr). lia.
Qed.

(** ** Resampling keeps the last valid row of every quarter *)

Lemma resample_QE_last_nil : resample_QE_last [] = [].
Proof. done. Qed.

(** Resampling is idempotent, missing bins included. *)
Lemma resample_QE_last_idem (s : Series) :
  resample_QE_last (resample_QE_last s) = resample_QE_last s.
Proof.
  destruct (decide (s = [])) as [->|Hs]; [done|].
  destruct (resample_QE_last_bins s Hs) as (a & n & _ & -> & _).
  apply (resample_quarter_rows
           (fun q => last_valid
              (filter (fun r => in_quarter q r = true) (sort_by fst s)).*2)).
Qed.

Lemma dropna_fmap_snd (s : Series) :
  filter (fun v => notna v = true) s.*2 = (dropna s).*2.
Proof. unfold dropna. by rewrite filter_fmap_list. Qed.

Lemma last_per_quarter_run a (run rest : Series) r :
  last run = Some r ->
  Forall (fun x => quarter x.1 = a) run ->
  Forall (fun x => quarter x.1 <> a) rest ->
  last_per_quarter (run ++ rest) = (quarter_end a, r.2) :: last_per_quarter rest.
Proof.
  intros Hl Hrun Hrest. induction Hrun as [|x run Hx Hrun IH]; [done|].
  destruct run as [|y run].
  - simpl in Hl. injection Hl as ->. simpl.
    destruct rest as [|z rest]; [by rewrite Hx|].
    inversion Hrest as [|?? Hz _]; subst.
    destruct (Z.eqb_spec (quarter r.1) (quarter z.1)); [congruence|done].
  - rewrite last_cons_cons in Hl. specialize (IH Hl).
    inversion Hrun as [|?? Hy _]; subst.
    change (last_per_quarter ((x :: y :: run) ++ rest)) with
      (if quarter x.1 =? quarter y.1 then last_per_quarter ((y :: run) ++ rest)
       else (quarter_end (quarter x.1), x.2) :: last_per_quarter ((y :: run) ++ rest)).
    by rewrite Hy, Z.eqb_refl.
Qed.

(** A sorted series whose quarters are at least [a] starts with its rows
    of quarter [a]. *)
Lemma sorted_split_quarter a (s : Series) :
  StronglySorted (fun x y : Timestamp * float64 => ts_leb x.1 y.1 = true) s ->
  Forall (fun x => a <= quarter x.1) s ->
  exists run rest, s = run ++ rest /\
    Forall (fun x => quarter x.1 = a) run /\
    Forall (fun x => a < quarter x.1) rest.
Proof.
  induction 1 as [|x s Hs IH Hx]; intros Ha.
  - by exists [], [].
  - apply Forall_cons in Ha as [Hxa Ha].
    destruct (decide (quarter x.1 = a)) as [E|E].
    + destruct (IH Ha) as (run & rest & -> & Hrun & Hrest).
      exists (x :: run), rest. split_and!; [done| |done]. by constructor.
    + exists [], (x :: s). split_and!; [done|constructor|].
      constructor; [lia|]. apply Forall_forall. intros y Hy.
      rewrite Forall_forall in Hx. apply Hx, quarter_mono in Hy. lia.
Qed.

Lemma quarter_bins_last_per_quarter (k : nat) : forall a (s : Series),
  StronglySorted (fun x y : Timestamp * float64 => ts_leb x.1 y.1 = true) s ->
  Forall (fun x => a <= quarter x.1 < a + Z.of_nat k) s ->
  dropna (quarter_bin s <$> seqZ a (Z.of_nat k)) = last_per_quarter (dropna s).
Proof.
  induction k as [|k IH]; intros a s Hs Hb.
  - destruct s as [|x s]; [done|]. apply Forall_cons in Hb as [? _]. lia.
  - destruct (sorted_split_quarter a s Hs) as (run & rest & -> & Hrun & Hrest).
    { eapply Forall_impl; [exact Hb|]. simpl. lia. }
    apply Forall_app in Hb as [_ Hb].
    apply StronglySorted_app_1_r in Hs.
    rewrite seqZ_cons by lia. rewrite fmap_cons.
    replace (Z.pred (Z.of_nat (S k))) with (Z.of_nat k) by lia.
    assert (quarter_bin (run ++ rest) <$> seqZ (Z.succ a) (Z.of_nat k)
            = quarter_bin rest <$> seqZ (Z.succ a) (Z.of_nat k)) as ->.
    { apply list_fmap_ext. intros i q Hq%lookup_seqZ.
      unfold quarter_bin. rewrite filter_app, (filter_none _ run); [done|].
      eapply Forall_impl; [exact Hrun|]. unfold in_quarter. simpl.
      intros x Hx. rewrite Hx. intros ?%Z.eqb_eq. lia. }
    unfold dropna at 1. rewrite filter_cons. fold (dropna (quarter_bin rest <$> seqZ (Z.succ a) (Z.of_nat k))).
    rewrite (IH (Z.succ a) rest Hs).
    2:{ rewrite Forall_forall in Hb, Hrest. apply Forall_forall.
        intros x Hx. specialize (Hb x Hx). specialize (Hrest x Hx). simpl in *. lia. }
    assert (quarter_bin (run ++ rest) a
            = (quarter_end a, last_valid (dropna run).*2)) as Hbin.
    { unfold quarter_bin. f_equal. rewrite filter_app, (filter_none _ rest), app_nil_r.
      - rewrite filter_all, <- dropna_fmap_snd; [by rewrite last_valid_dropna|].
        eapply Forall_impl; [exact Hrun|]. unfold in_quarter. simpl.
        intros x ->. apply Z.eqb_refl.
      - eapply Forall_impl; [exact Hrest|]. unfold in_quarter. simpl.
        intros x Hx ?%Z.eqb_eq. lia. }
    unfold dropna at 3. rewrite filter_app. fold (dropna run) (dropna rest).
    rewrite Hbin. cbn [snd].
    destruct (last (dropna run)) as [r|] eqn:El.
    + assert (Forall (fun x : Timestamp * float64 => notna x.2 = true) (dropna run)) as Hv.
      { apply Forall_forall. by intros x [? _]%list_elem_of_filter. }
      rewrite (last_valid_all_valid _ r.2).
      * rewrite decide_True.
        2:{ rewrite Forall_forall in Hv. apply Hv. by eapply last_Some_elem_of. }
        rewrite (last_per_quarter_run a _ _ r); [done|done| |].
        -- apply Forall_forall. intros x [_ Hx]%list_elem_of_filter.
           rewrite Forall_forall in Hrun. auto.
        -- apply Forall_forall. intros x [_ Hx]%list_elem_of_filter.
           rewrite Forall_forall in Hrest. apply Hrest in Hx. lia.
      * by apply Forall_fmap.
      * by rewrite fmap_last, El.
    + apply last_None in El. by rewrite El.
Qed.

(** Quarter-end resampling followed by [dropna]: the valid rows in
    chronological order, the last one of every quarter. *)
Lemma quarterly_last_per_quarter (s : Series) :
  dropna (resample_QE_last s) = last_per_quarter (sort_by fst (dropna s)).
Proof.
  destruct (decide (s = [])) as [->|Hs]; [done|].
  destruct (resample_QE_last_bins s Hs) as (a & n & Hn & -> & Hb).
  unfold dropna at 2. rewrite <- filter_sort_by.
  rewrite <- (Z2Nat.id n) by lia.
  apply quarter_bins_last_per_quarter; [apply sort_by_sorted|].
  apply Forall_forall. intros x Hx%elem_of_sort_by. apply Hb in Hx. lia.
Qed.

(** Rows without a value have no influence on the quarterly series. *)
Lemma quarterly_dropna (s : Series) :
  dropna (resample_QE_last (dropna s)) = dropna (resample_QE_last s).
Proof.
  rewrite !quarterly_last_per_quarter. do 2 f_equal.
  unfold dropna. apply filter_all, Forall_forall.
  by intros x [? _]%list_elem_of_filter.
Qed.

(** Resampling and dropping twice is resampling and dropping once. *)
Lemma quarterly_idem (s : Series) :
  dropna (resample_QE_last (dropna (resample_QE_last s)))
  = dropna (resample_QE_last s).
Proof. by rewrite quarterly_dropna, resample_QE_last_idem. Qed.

(** ** Joining two series on their dates *)

Lemma increasing_dates_index (s : Series) :
  increasing_dates s -> StronglySorted ts_lt s.*1.
Proof.
  unfold increasing_dates. induction 1 as [|r s Hs IH Hr]; [constructor|].
  rewrite fmap_cons. constructor; [done|]. by apply Forall_fmap.
Qed.

Lemma ts_lt_sorted_NoDup (l : list Timestamp) : StronglySorted ts_lt l -> NoDup l.
Proof.
  induction 1 as [|d l Hs IH Hd]; constructor; [|done].
  intros Hin. rewrite Forall_forall in Hd.
  by apply (ts_lt_irrefl d), Hd.
Qed.

Lemma increasing_dates_NoDup (s : Series) : increasing_dates s -> NoDup s.*1.
Proof. intros. by apply ts_lt_sorted_NoDup, increasing_dates_index. Qed.

Lemma ts_lt_sorted_sort (l : list Timestamp) :
  StronglySorted ts_lt l -> sort_by id l = l.
Proof. intros H. by apply sort_by_id, (lt_sorted_le_sorted id). Qed.

Lemma has_dup_NoDup (l : list Timestamp) : NoDup l -> has_dup l = false.
Proof.
  induction 1 as [|d l Hd Hl IH]; [done|].
  simpl. by rewrite bool_decide_eq_false_2, IH.
Qed.

Lemma value_at_not_elem_of d (s : Series) : d ∉ s.*1 -> value_at d s = NaN.
Proof.
  induction s as [|r s IH]; [done|]. rewrite fmap_cons, not_elem_of_cons.
  intros [Hne Hd]. simpl. rewrite decide_False by done. auto.
Qed.

Lemma value_at_elem_of (s : Series) r :
  NoDup s.*1 -> r ∈ s -> value_at r.1 s = r.2.
Proof.
  induction s as [|r' s IH]; [by intros _ ?%elem_of_nil|].
  rewrite fmap_cons, NoDup_cons. intros [Hr' Hs] [->|Hr]%elem_of_cons; simpl.
  - by rewrite decide_True.
  - rewrite decide_False; [auto|]. intros E. apply Hr'. rewrite E.
    by apply list_elem_of_fmap_2.
Qed.

Lemma value_at_valid d (s : Series) :
  valid_series s -> notna (value_at d s) = true <-> d ∈ s.*1.
Proof.
  intros Hv. induction Hv as [|r s Hr Hs IH]; [by rewrite elem_of_nil|].
  rewrite fmap_cons, elem_of_cons. simpl.
  destruct (decide (r.1 = d)) as [<-|Hne]; [split; [by left|done]|].
  rewrite IH. split; [by right|]. by intros [?|?].
Qed.

Lemma value_at_cons_ne d r (s : Series) : r.1 <> d -> value_at d (r :: s) = value_at d s.
Proof. intros. simpl. by rewrite decide_False. Qed.

(** Two series with the same index, pasted side by side. *)
Lemma zip_same_index (s1 s2 : Series) :
  s1.*1 = s2.*1 -> NoDup s1.*1 ->
  zip_with (fun a b : Timestamp * float64 => (a.1, [a.2; b.2])) s1 s2
  = (fun d => (d, [value_at d s1; value_at d s2])) <$> s1.*1.
Proof.
  revert s2. induction s1 as [|r1 s1 IH]; intros [|r2 s2] Hi Hn; try done.
  rewrite !fmap_cons in Hi. injection Hi as Hr Hi.
  rewrite fmap_cons in Hn. apply NoDup_cons in Hn as [Hr1 Hn].
  simpl. rewrite decide_True by done. rewrite decide_True by done.
  f_equal. rewrite IH by done. apply list_fmap_ext.
  intros i d Hd. apply list_elem_of_lookup_2 in Hd.
  assert (r1.1 <> d) as Hd1 by (intros E; by rewrite E in Hr1).
  assert (r2.1 <> d) as Hd2 by (by rewrite <- Hr).
  simpl. by rewrite !decide_False.
Qed.

Lemma dropna_outer_row (s1 s2 : Series) d :
  valid_series s1 -> valid_series s2 ->
  forallb notna [value_at d s1; value_at d s2] = true <-> d ∈ s1.*1 /\ d ∈ s2.*1.
Proof.
  intros H1 H2. simpl. rewrite !andb_true_iff.
  rewrite (value_at_valid d s1 H1), (value_at_valid d s2 H2). tauto.
Qed.

(** [concat] followed by [dropna] on two series with increasing dates and
    no missing value: the rows of the dates present in both. *)
Lemma concat_dropna_inner (k1 k2 : string) (s1 s2 : Series) :
  increasing_dates s1 -> valid_series s1 ->
  increasing_dates s2 -> valid_series s2 ->
  exists c, concat_axis1 k1 k2 s1 s2 = Ok c /\
    df_dropna c = mkDF [k1; k2]
      ((fun d => (d, [value_at d s1; value_at d s2]))
         <$> filter (fun d => d ∈ s2.*1) s1.*1).
Proof.
  intros Hi1 Hv1 Hi2 Hv2. unfold concat_axis1.
  pose proof (increasing_dates_NoDup s1 Hi1) as Hn1.
  pose proof (increasing_dates_NoDup s2 Hi2) as Hn2.
  destruct (decide (s1.*1 = s2.*1)) as [E|E].
  - eexists. split; [done|]. unfold df_dropna. simpl. f_equal.
    rewrite zip_same_index by done.
    rewrite filter_fmap_list. f_equal.
    apply filter_ext_in. intros d Hd. simpl.
    rewrite !andb_true_iff, (value_at_valid d s1 Hv1), (value_at_valid d s2 Hv2).
    rewrite <- E. tauto.
  - rewrite !has_dup_NoDup by done. simpl.
    eexists. split; [done|]. unfold df_dropna. simpl. f_equal.
    rewrite filter_fmap_list. f_equal.
    rewrite (filter_ext_in _ (fun d => d ∈ s1.*1 /\ d ∈ s2.*1)).
    2:{ intros d _. apply (dropna_outer_row s1 s2 d Hv1 Hv2). }
    rewrite filter_sort_by, filter_app.
    rewrite (filter_none _ (filter _ s2.*1)).
    2:{ apply Forall_forall. intros d [Hd _]%list_elem_of_filter. tauto. }
    rewrite app_nil_r.
    rewrite (filter_ext_in _ (fun d => d ∈ s2.*1) s1.*1) by (intros; tauto).
    apply ts_lt_sorted_sort, filter_sorted, increasing_dates_index, Hi1.
Qed.

(** ** The store *)

Lemma lookup_snoc_length {A} (l : list A) (x : A) : (l ++ [x]) !! length l = Some x.
Proof. by apply list_lookup_middle. Qed.

Lemma insert_snoc_length {A} (l : list A) (x y : A) :
  <[length l := y]> (l ++ [x]) = l ++ [y].
Proof.
  rewrite insert_app_r_alt by lia. by rewrite Nat.sub_diag.
Qed.

Lemma df_getitem_to_frame name (s : Series) :
  df_getitem (to_frame name s) name = Ok s.
Proof.
  unfold df_getitem, to_frame. simpl. rewrite decide_True by done.
  f_equal. rewrite <- list_fmap_compose. rewrite <- (list_fmap_id s) at 2.
  apply list_fmap_ext. by intros i [d v] _.
Qed.

(** ** [compute_btc_ratio] on two quarterly frames *)

Lemma ratio_columns (rows : list (Timestamp * list float64)) :
  df_getitem (mkDF ["btc"; "asset"] rows) "asset"
    = Ok ((fun r => (r.1, default NaN (r.2 !! 1%nat))) <$> rows) /\
  df_getitem (mkDF ["btc"; "asset"] rows) "btc"
    = Ok ((fun r => (r.1, default NaN (r.2 !! 0%nat))) <$> rows).
Proof. done. Qed.

Lemma compute_btc_ratio_quarterly btc_df asset_df s (sb sa : Series) :
  heap s !! btc_df = Some (to_frame "price" sb) ->
  heap s !! asset_df = Some (to_frame "price" sa) ->
  increasing_dates sb -> valid_series sb ->
  increasing_dates sa -> valid_series sa ->
  exists c,
    compute_btc_ratio btc_df asset_df s
    = (Ok (S (length (heap s))),
       set_heap (heap s ++ [c; mkDF ["btc"; "asset"; "asset_per_btc"]
                                    (inner_join_ratio sb sa)]) s).
Proof.
  intros Hb Ha Hib Hvb Hia Hva.
  destruct (concat_dropna_inner "btc" "asset" sb sa Hib Hvb Hia Hva)
    as (c & Hc & Hd).
  exists c. unfold compute_btc_ratio, bind, read, lift, alloc, write, ret.
  rewrite Hb, Ha. cbn [default from_option id].
  rewrite !df_getitem_to_frame, Hc. cbn [heap set_heap].
  rewrite !lookup_snoc_length. cbn [default from_option id].
  rewrite ?lookup_snoc_length. cbn [default from_option id]. rewrite Hd.
  destruct (ratio_columns ((fun d => (d, [value_at d sb; value_at d sa]))
                             <$> filter (fun d => d ∈ sa.*1) sb.*1)) as [-> ->].
  rewrite insert_snoc_length, length_app, Nat.add_1_r.
  f_equal. unfold set_heap. cbn [heap dirs files stdout clock]. f_equal.
  rewrite <- app_assoc. cbn [app]. do 3 f_equal.
  unfold df_setitem, series_div, inner_join_ratio. cbn [columns rows app]. f_equal.
  generalize (filter (fun d => d ∈ sa.*1) sb.*1). intros l.
  induction l as [|d l IH]; [done|]. rewrite !fmap_cons. simpl. by rewrite IH.
Qed.

(** ** The quarterly series of the fetchers *)

Lemma quarterly_series_resample (s : Series) :
  quarterly_series (dropna (resample_QE_last s)).
Proof.
  destruct (decide (s = [])) as [->|Hs].
  { repeat split; constructor. }
  destruct (resample_QE_last_bins s Hs) as (a & n & _ & -> & _).
  split_and!.
  - apply filter_sorted.
    apply (quarter_rows_increasing
             (fun q => last_valid
                (filter (fun r => in_quarter q r = true) (sort_by fst s)).*2)),
          seqZ_sorted.
  - apply Forall_forall. by intros r [? _]%list_elem_of_filter.
  - apply Forall_forall. intros r [_ Hr]%list_elem_of_filter.
    apply list_elem_of_fmap in Hr as (q & -> & _).
    unfold quarter_bin. simpl. by rewrite quarter_quarter_end.
Qed.

(** Every value of the quarterly series is the value of a row of the
    input that lies in the same quarter: nothing is interpolated. *)
Lemma quarterly_values_observed (s : Series) r :
  r ∈ dropna (resample_QE_last s) ->
  exists r0, r0 ∈ s /\ quarter r0.1 = quarter r.1 /\ r0.2 = r.2.
Proof.
  destruct (decide (s = [])) as [->|Hs]; [by intros ?%elem_of_nil|].
  destruct (resample_QE_last_bins s Hs) as (a & n & _ & -> & _).
  intros [Hv Hr]%list_elem_of_filter.
  apply list_elem_of_fmap in Hr as (q & -> & _).
  unfold quarter_bin in *. simpl in *.
  apply last_valid_elem_of in Hv.
  apply list_elem_of_fmap in Hv as (r0 & Hr0 & Hin).
  apply list_elem_of_filter in Hin as [Hq Hin].
  exists r0. rewrite elem_of_sort_by in Hin. split_and!; [done| |done].
  rewrite quarter_quarter_end. unfold in_quarter in Hq. by apply Z.eqb_eq.
Qed.

Lemma quarterly_series_at_most_one_per_quarter (s : Series) r r' :
  quarterly_series s -> r ∈ s -> r' ∈ s -> quarter r.1 = quarter r'.1 -> r = r'.
Proof.
  intros (Hi & _ & Hq) Hr Hr' E.
  rewrite Forall_forall in Hq.
  assert (r.1 = r'.1) as Hd by (by rewrite (Hq r Hr), (Hq r' Hr'), E).
  pose proof (increasing_dates_NoDup s Hi) as Hn.
  pose proof (value_at_elem_of s r Hn Hr) as Hv.
  pose proof (value_at_elem_of s r' Hn Hr') as Hv'.
  destruct r as [d v], r' as [d' v']. simpl in *. subst d'. congruence.
Qed.

(** ** Running the fetchers *)

Lemma fetch_yfinance_data_run W ticker name s :
  fetch_yfinance_data W ticker name s =
  let out := stdout s ++ ["Fetching " +:+ name +:+ " (" +:+ ticker +:+ ")..."] in
  match yf_download W ticker with
  | Raise e => (Raise e, mkState (heap s) (dirs s) (files s) out (clock s))
  | Ok df =>
      if match pf_rows df, flat_columns (pf_columns df) with
         | [], _ | _, [] => true
         | _, _ => false
         end
      then (Ok (length (heap s)),
            mkState (heap s ++ [empty_frame]) (dirs s) (files s)
              (out ++ ["  Warning: No data returned for " +:+ ticker]) (clock s))
      else
        match df_getitem (mkDF (flat_columns (pf_columns df)) (pf_rows df)) "Close" with
        | Raise e => (Raise e, mkState (heap s) (dirs s) (files s) out (clock s))
        | Ok close =>
            let quarterly := dropna (resample_QE_last close) in
            (Ok (length (heap s)),
             mkState (heap s ++ [to_frame "price" quarterly]) (dirs s) (files s)
               (out ++ ["  Got " +:+ pretty (length quarterly)
                        +:+ " quarterly data points"]) (clock s))
        end
  end.
Proof.
  unfold fetch_yfinance_data, bind, print, lift, alloc.
  cbn [set_stdout set_heap heap dirs files stdout clock].
  destruct (yf_download W ticker) as [df|e]; [|done].
  destruct (match pf_rows df, flat_columns (pf_columns df) with
            | [], _ | _, [] => true
            | _, _ => false
            end); [done|].
  by destruct (df_getitem _ "Close").
Qed.

Lemma fetch_fred_data_run W series_id name s :
  fetch_fred_data W series_id name s =
  let out := stdout s ++ ["Fetching " +:+ name +:+ " (" +:+ series_id +:+ ")..."] in
  match rbind (read_csv W ("https://fred.stlouisfed.org/graph/fredgraph.csv?id="
                           +:+ series_id))
              (fred_try_body series_id) with
  | Raise e =>
      (Ok (length (heap s)),
       mkState (heap s ++ [empty_frame]) (dirs s) (files s)
         (out ++ ["  Warning: Failed to fetch " +:+ series_id +:+ ": " +:+ exn_str e])
         (clock s))
  | Ok df =>
      let quarterly := dropna (resample_QE_last (from_start_date df)) in
      (Ok (length (heap s)),
       mkState (heap s ++ [to_frame "price" quarterly]) (dirs s) (files s)
         (out ++ ["  Got " +:+ pretty (length quarterly)
                  +:+ " quarterly data points"]) (clock s))
  end.
Proof.
  unfold fetch_fred_data, bind, try_except, print, lift, alloc, ret, rbind.
  cbn [set_stdout set_heap heap dirs files stdout clock].
  destruct (read_csv W _) as [df|e]; [|done].
  by destruct (fred_try_body series_id df).
Qed.

(** Whatever the providers answer, a fetcher that returns hands back the
    empty frame or a quarterly series, as a new object of the store. *)
Lemma fetch_yfinance_data_ok W ticker name s l s' :
  fetch_yfinance_data W ticker name s = (Ok l, s') ->
  exists df out,
    l = length (heap s) /\ fetched_frame df /\
    s' = mkState (heap s ++ [df]) (dirs s) (files s) (stdout s ++ out) (clock s).
Proof.
  rewrite fetch_yfinance_data_run. cbv zeta.
  destruct (yf_download W ticker) as [df|e]; [|done].
  destruct (match pf_rows df, flat_columns (pf_columns df) with
            | [], _ | _, [] => true
            | _, _ => false
            end).
  - intros [= <- <-]. eexists _, [_; _]. split_and!; [done|by left|].
    by rewrite <- app_assoc.
  - destruct (df_getitem _ "Close") as [close|e]; [|done].
    intros [= <- <-]. eexists _, [_; _]. split_and!; [done| |].
    + right. eexists. split; [done|]. apply quarterly_series_resample.
    + by rewrite <- app_assoc.
Qed.

Lemma fetch_fred_data_ok W series_id name s :
  exists df out,
    fetched_frame df /\
    fetch_fred_data W series_id name s
    = (Ok (length (heap s)),
       mkState (heap s ++ [df]) (dirs s) (files s) (stdout s ++ out) (clock s)).
Proof.
  rewrite fetch_fred_data_run. cbv zeta.
  destruct (rbind _ _) as [df|e].
  - eexists _, [_; _]. split.
    + right. eexists. split; [done|]. apply quarterly_series_resample.
    + by rewrite <- app_assoc.
  - eexists _, [_; _]. split; [by left|]. by rewrite <- app_assoc.
Qed.

(** ** Running the serializers *)

Lemma elem_of_prefixes_self (p : path) : p ∈ prefixes p.
Proof.
  induction p as [|c p IH]; simpl; [by left|].
  right. by apply list_elem_of_fmap_2.
Qed.

Lemma save_to_json_run W df filepath asset_name s :
  save_to_json W df filepath asset_name s =
  let d := default empty_frame (heap s !! df) in
  let records := ratio_record (columns d) <$> rows d in
  (Ok tt,
   mkState (heap s)
     (dirs s ∪ list_to_set (prefixes (parent filepath)))
     (<[filepath := [JObj [("asset", JStr asset_name);
                           ("updated_at", JStr (now_isoformat W (clock s)));
                           ("data", JArr records)]]]> (files s))
     (stdout s ++ ["  Saved " +:+ pretty (length records) +:+ " records to "
                   +:+ path_name filepath])
     (S (clock s))).
Proof.
  unfold save_to_json, bind, read, now, mkdir_parents, open_w, json_dump, print.
  cbn [set_stdout set_heap set_dirs set_files set_clock
       heap dirs files stdout clock].
  unfold dir_exists. cbn [dirs].
  rewrite (bool_decide_eq_true_2 (parent filepath ∈ _)), orb_true_r.
  2:{ apply elem_of_union_r, elem_of_list_to_set, elem_of_prefixes_self. }
  cbn [set_stdout set_heap set_dirs set_files set_clock
       heap dirs files stdout clock].
  by rewrite alter_insert_eq.
Qed.

Lemma save_btc_usd_run W btc_df s :
  save_btc_usd W btc_df s =
  let d := default empty_frame (heap s !! btc_df) in
  let filepath := DATA_DIR W ++ ["btc_usd.json"] in
  match rmap (btc_usd_record (columns d)) (rows d) with
  | Raise e => (Raise e, s)
  | Ok records =>
      if dir_exists s (parent filepath) then
        (Ok tt,
         mkState (heap s) (dirs s)
           (<[filepath := [JObj [("asset", JStr "USD in BTC");
                                 ("updated_at", JStr (now_isoformat W (clock s)));
                                 ("data", JArr records)]]]> (files s))
           (stdout s ++ ["  Saved " +:+ pretty (length records) +:+ " records to "
                         +:+ path_name filepath])
           (S (clock s)))
      else
        (Raise (FileNotFoundError filepath),
         mkState (heap s) (dirs s) (files s) (stdout s) (S (clock s)))
  end.
Proof.
  unfold save_btc_usd, bind, read, lift, now, open_w, json_dump, print.
  cbv zeta.
  destruct (rmap _ _) as [records|e]; [|done].
  cbn [set_stdout set_heap set_dirs set_files set_clock
       heap dirs files stdout clock].
  unfold dir_exists. cbn [dirs].
  destruct (bool_decide _ || bool_decide _); [|done].
  cbn [set_stdout set_heap set_dirs set_files set_clock
       heap dirs files stdout clock].
  by rewrite alter_insert_eq.
Qed.

(** * The claims *)

(** ** Resampling *)

(** C9. Applying the quarter-end-last resampling twice yields the same
    series as applying it once: for [resample("QE").last()] alone, bins
    without a value included, and for the resampling followed by
    [dropna()] that both fetchers perform. *)
Theorem resampling_idempotent (s : Series) :
  resample_QE_last (resample_QE_last s) = resample_QE_last s /\
  dropna (resample_QE_last (dropna (resample_QE_last s)))
  = dropna (resample_QE_last s).
Proof. split; [apply resample_QE_last_idem|apply quarterly_idem]. Qed.

(** C8, as the specification states it, fails: a fetcher hands on a
    price of zero as it is. *)
Lemma fetched_price_not_positive :
  ~ (forall W ticker name s l s' q,
       fetch_yfinance_data W ticker name s = (Ok l, s') ->
       heap s' !! l = Some (to_frame "price" q) ->
       quarterly_series q /\ Forall (fun r => positive_price r.2) q).
Proof.
  intros H.
  destruct (H zero_close_world "BTC-USD" "Bitcoin" fresh_state O
              (fetch_yfinance_data zero_close_world "BTC-USD" "Bitcoin" fresh_state).2
              [(mkTs 2021 Mar 31, Fin 0)] eq_refl eq_refl) as [_ Hpos].
  apply Forall_cons in Hpos as [Hpos _]. simpl in Hpos.
  by apply Qlt_irrefl in Hpos.
Qed.

(** C8, amended. Every series a fetcher produces is the provider's rows
    resampled to quarter ends with the empty bins dropped: its dates are
    strictly increasing quarter ends without duplicates, at most one per
    quarter, no value is missing, and every value was observed in that
    quarter (nothing is interpolated).  The sign of a price is not
    checked: the prices are positive when the provider's are. *)
Theorem fetched_series_quarterly W :
  (forall ticker name s l s',
     fetch_yfinance_data W ticker name s = (Ok l, s') ->
     heap s' !! l = Some empty_frame \/
     exists pf close,
       yf_download W ticker = Ok pf /\
       df_getitem (mkDF (flat_columns (pf_columns pf)) (pf_rows pf)) "Close"
         = Ok close /\
       heap s' !! l = Some (to_frame "price" (dropna (resample_QE_last close)))) /\
  (forall series_id name s,
     exists l s',
       fetch_fred_data W series_id name s = (Ok l, s') /\
       (heap s' !! l = Some empty_frame \/
        exists csv parsed,
          read_csv W ("https://fred.stlouisfed.org/graph/fredgraph.csv?id="
                      +:+ series_id) = Ok csv /\
          fred_try_body series_id csv = Ok parsed /\
          heap s' !! l
          = Some (to_frame "price"
                    (dropna (resample_QE_last (from_start_date parsed)))))) /\
  (forall input : Series,
     let q := dropna (resample_QE_last input) in
     quarterly_series q /\
     NoDup q.*1 /\
     (forall r r', r ∈ q -> r' ∈ q -> quarter r.1 = quarter r'.1 -> r = r') /\
     (forall r, r ∈ q ->
        exists r0, r0 ∈ input /\ quarter r0.1 = quarter r.1 /\ r0.2 = r.2) /\
     (Forall (fun r => isna r.2 = false -> positive_price r.2) input ->
      Forall (fun r => positive_price r.2) q)).
Proof.
  split_and!.
  - intros ticker name s l s'. rewrite fetch_yfinance_data_run. cbv zeta.
    destruct (yf_download W ticker) as [pf|e]; [|done].
    destruct (match pf_rows pf, flat_columns (pf_columns pf) with
              | [], _ | _, [] => true
              | _, _ => false
              end).
    + intros [= <- <-]. left. apply lookup_snoc_length.
    + destruct (df_getitem _ "Close") as [close|e] eqn:E; [|done].
      intros [= <- <-]. right. exists pf, close. split_and!; [done..|].
      apply lookup_snoc_length.
  - intros series_id name s. rewrite fetch_fred_data_run. cbv zeta.
    destruct (read_csv W _) as [csv|e] eqn:Ecsv; simpl.
    + destruct (fred_try_body series_id csv) as [parsed|e] eqn:Ebody.
      * eexists _, _. split; [done|]. right. exists csv, parsed.
        split_and!; [done..|]. apply lookup_snoc_length.
      * eexists _, _. split; [done|]. left. apply lookup_snoc_length.
    + eexists _, _. split; [done|]. left. apply lookup_snoc_length.
  - intros input q. pose proof (quarterly_series_resample input) as Hq.
    split_and!; [done| | | |].
    + apply increasing_dates_NoDup, Hq.
    + intros r r'. by apply quarterly_series_at_most_one_per_quarter.
    + apply quarterly_values_observed.
    + intros Hpos. apply Forall_forall. intros r Hr.
      destruct (quarterly_values_observed input r Hr) as (r0 & Hr0 & _ & Hv).
      rewrite Forall_forall in Hpos. rewrite <- Hv. apply (Hpos r0 Hr0).
      destruct Hq as (_ & Hvalid & _). unfold valid_series in Hvalid.
      rewrite Forall_forall in Hvalid.
      specialize (Hvalid r Hr). unfold notna in Hvalid. rewrite Hv.
      by destruct (isna r.2).
Qed.

Lemma fetched_series_quarterly_witness :
  fetch_yfinance_data scenario_world "GC=F" "gold_usd" fresh_state
  = (Ok O, (fetch_yfinance_data scenario_world "GC=F" "gold_usd" fresh_state).2) /\
  (heap (fetch_yfinance_data scenario_world "GC=F" "gold_usd" fresh_state).2 !! O
   = Some empty_frame \/
   exists pf close,
     yf_download scenario_world "GC=F" = Ok pf /\
     df_getitem (mkDF (flat_columns (pf_columns pf)) (pf_rows pf)) "Close"
       = Ok close /\
     heap (fetch_yfinance_data scenario_world "GC=F" "gold_usd" fresh_state).2 !! O
     = Some (to_frame "price" (dropna (resample_QE_last close)))).
Proof.
  split; [reflexivity|].
  apply (proj1 (fetched_series_quarterly scenario_world)
           "GC=F" "gold_usd" fresh_state O _ eq_refl).
Defined.

(** ** Placeholders in a housing CSV *)

Lemma rmap_app {A B} (f : A -> result B) (l1 l2 : list A) :
  rmap f (l1 ++ l2)
  = rbind (rmap f l1) (fun y1 => rbind (rmap f l2) (fun y2 => Ok (y1 ++ y2))).
Proof.
  induction l1 as [|x l1 IH]; simpl.
  - by destruct (rmap f l2).
  - destruct (f x) as [y|e]; simpl; [|done]. rewrite IH.
    destruct (rmap f l1) as [y1|e]; simpl; [|done].
    by destruct (rmap f l2).
Qed.

Lemma rmap_length {A B} (f : A -> result B) (l : list A) ys :
  rmap f l = Ok ys -> length ys = length l.
Proof.
  revert ys. induction l as [|x l IH]; intros ys; simpl; [by intros [= <-]|].
  destruct (f x) as [y|e]; simpl; [|done].
  destruct (rmap f l) as [ys'|e]; simpl; [|done].
  intros [= <-]. simpl. f_equal. by apply IH.
Qed.

Lemma from_start_date_app l1 l2 :
  from_start_date (l1 ++ l2) = from_start_date l1 ++ from_start_date l2.
Proof. unfold from_start_date. apply omap_app. Qed.

Lemma dropna_app (s1 s2 : Series) : dropna (s1 ++ s2) = dropna s1 ++ dropna s2.
Proof. apply filter_app. Qed.

(** A parsed row without a value leaves the quarterly series as it is
    without that row. *)
Lemma quarterly_missing_row rows1 rows2 (d : option Timestamp) :
  dropna (resample_QE_last (from_start_date (rows1 ++ (d, NaN) :: rows2)))
  = dropna (resample_QE_last (from_start_date (rows1 ++ rows2))).
Proof.
  rewrite <- quarterly_dropna, <- (quarterly_dropna (from_start_date (rows1 ++ rows2))).
  do 2 f_equal. rewrite !from_start_date_app, !dropna_app. f_equal.
  change ((d, NaN) :: rows2) with ([(d, NaN)] ++ rows2).
  rewrite from_start_date_app, dropna_app.
  destruct d as [d|]; simpl; [|done].
  unfold from_start_date. simpl. by destruct (ts_leb START_DATE d).
Qed.

(** C7. In a housing CSV a token that is not a number, such as a lone
    ["."], is coerced to a missing value, not to zero, and the row that
    carries it is dropped: the quarterly series is the one the CSV without
    that row yields. *)
Theorem placeholder_row_dropped series_id cols pre cells post parsed d :
  fred_try_body series_id (mkCsv cols (pre ++ cells :: post)) = Ok parsed ->
  parsed !! length pre = Some (d, to_numeric_coerce ".") ->
  to_numeric_coerce "." = NaN /\
  exists parsed',
    fred_try_body series_id (mkCsv cols (pre ++ post)) = Ok parsed' /\
    dropna (resample_QE_last (from_start_date parsed))
    = dropna (resample_QE_last (from_start_date parsed')).
Proof.
  intros Hbody Hrow. split; [done|].
  change (to_numeric_coerce ".") with NaN in Hrow.
  unfold fred_try_body, rbind in *. cbn [csv_columns csv_rows] in *.
  destruct (match find_date_col cols with
            | Some col => Ok col
            | None => match cols with
                      | col :: _ => Ok col
                      | [] => Raise (IndexError 0 0)
                      end
            end) as [date_col|e]; [|done].
  destruct (if bool_decide (series_id ∈ cols) then Ok series_id
            else match cols !! 1%nat with
                 | Some col => Ok col
                 | None => Raise (IndexError 1 (length cols))
                 end) as [value_col|e]; [|done].
  rewrite rmap_app in Hbody. rewrite rmap_app. unfold rbind in *.
  destruct (rmap _ pre) as [dpre|e] eqn:Epre; [|done].
  simpl in Hbody.
  destruct (to_datetime _) as [dcell|e]; [|done]. simpl in Hbody.
  destruct (rmap _ post) as [dpost|e] eqn:Epost; [|done]. simpl in Hbody.
  destruct (col_pos value_col _) as [vpos|]; [|done].
  injection Hbody as <-. eexists. split; [done|].
  apply rmap_length in Epre.
  change (dpre ++ dcell :: dpost) with (dpre ++ [dcell] ++ dpost) in *.
  change (pre ++ cells :: post) with (pre ++ [cells] ++ post) in *.
  rewrite !zip_with_app in * by done. simpl in *.
  rewrite list_lookup_middle in Hrow by (by rewrite length_zip_with, Epre, Nat.min_id).
  injection Hrow as -> Hv. rewrite Hv.
  apply quarterly_missing_row.
Qed.

Lemma placeholder_row_dropped_witness :
  to_numeric_coerce "." = NaN /\
  exists parsed',
    fred_try_body "MSPUS"
      (mkCsv ["observation_date"; "MSPUS"]
         ([["2021-01-01"; "369800"]] ++ [["2021-07-01"; "411200"]]))
    = Ok parsed' /\
    dropna (resample_QE_last (from_start_date
              [(Some (mkTs 2021 Jan 1), Fin 369800);
               (Some (mkTs 2021 Apr 1), NaN);
               (Some (mkTs 2021 Jul 1), Fin 411200)]))
    = dropna (resample_QE_last (from_start_date parsed')).
Proof.
  apply (placeholder_row_dropped "MSPUS" ["observation_date"; "MSPUS"]
           [["2021-01-01"; "369800"]] ["2021-04-01"; "."]
           [["2021-07-01"; "411200"]] _ (Some (mkTs 2021 Apr 1)));
    reflexivity.
Defined.

(** The housing scenario of the specification, run through the fetcher:
    the quarter of the placeholder is absent from the series. *)
Example housing_placeholder_scenario :
  let r := fetch_fred_data scenario_world "MSPUS" "housing_us_median" fresh_state in
  r.1 = Ok O /\
  heap r.2 = [to_frame "price" [(mkTs 2021 Mar 31, Fin 369800);
                                 (mkTs 2021 Sep 30, Fin 411200)]].
Proof. split; reflexivity. Qed.

(** ** Rounding *)

Lemma round_half_even_nearest (x : Q) :
  (Qabs (inject_Z (round_half_even x) - x) <= 1 # 2)%Q.
Proof.
  pose proof (Qfloor_le x) as Hlo. pose proof (Qlt_floor x) as Hhi.
  rewrite inject_Z_plus in Hhi. change (inject_Z 1) with 1%Q in Hhi.
  unfold round_half_even.
  apply Qabs_Qle_condition.
  destruct (Qcompare_spec (x - inject_Z (Qfloor x)) (1 # 2)) as [E|E|E];
    [destruct (Z.even (Qfloor x))|..]; rewrite ?inject_Z_plus;
    change (inject_Z 1) with 1%Q; split; lra.
Qed.

Lemma round_half_even_tie (x : Q) :
  (x - inject_Z (Qfloor x) == 1 # 2)%Q -> Z.even (round_half_even x) = true.
Proof.
  intros E. unfold round_half_even.
  apply Qeq_alt in E. rewrite E.
  destruct (Z.even (Qfloor x)) eqn:Ev; [done|].
  rewrite Z.even_add, Ev. done.
Qed.

Lemma Qeq_bool_false (a b : Q) : ~ (a == b)%Q -> Qeq_bool a b = false.
Proof.
  intros H. destruct (Qeq_bool a b) eqn:E; [|done]. by apply Qeq_bool_iff in E.
Qed.

Lemma inject_Z_eq_0 (z : Z) : (inject_Z z == 0)%Q <-> z = 0.
Proof. unfold Qeq. cbn [Qnum Qden inject_Z]. lia. Qed.

(** Binary64 at work: the number nearest to one tenth; overflow and
    underflow; a quotient times its divisor that misses the dividend by
    one unit in the last place. *)
Example binary64_examples :
  b64 (1 # 10) = Fin (3602879701896397 # 36028797018963968) /\
  b64 (inject_Z (2 ^ 1024)) = PInf /\
  b64 (1 # 2 ^ 1075) = Fin 0 /\
  b64 (- 3 # 2 ^ 1076) = Fin (- 1 # 2 ^ 1074) /\
  f_mul (f_div (Fin 1800) (Fin 50000)) (Fin 50000)
  = b64 (17999999999999998 # 10000000000000) /\
  f_mul (f_div (Fin 1) (Fin 49)) (Fin 49) = b64 (9999999999999999 # 10000000000000000).
Proof. split_and!; vm_compute; reflexivity. Qed.

(** The powers of ten up to [10^22] are binary64 numbers. *)
Lemma pow10_exact (n : nat) :
  (n <= 22)%nat -> pow10 n = Fin (inject_Z (10 ^ Z.of_nat n)).
Proof.
  intros Hn. do 23 (destruct n as [|n]; [vm_compute; reflexivity|]). lia.
Qed.

Lemma f_div_finite (a b : Q) :
  ~ (a == 0)%Q -> ~ (b == 0)%Q -> f_div (Fin a) (Fin b) = b64 (a / b).
Proof.
  intros Ha Hb. unfold f_div. cbn [f_val].
  by rewrite (Qeq_bool_false _ _ Ha), (Qeq_bool_false _ _ Hb).
Qed.

Lemma f_div_zero_pos (neg : bool) (b : Q) :
  (0 < b)%Q -> f_div (f_zero neg) (Fin b) = f_zero neg.
Proof.
  intros Hb. unfold f_div.
  assert (Qeq_bool b 0 = false) as Eb by (apply Qeq_bool_false; lra).
  assert (Qle_bool 0 b = true) as Lb by (apply Qle_bool_iff; lra).
  destruct neg; cbn [f_zero f_val f_neg]; by rewrite ?Eb, ?Lb.
Qed.

(** [round(x, n)] in binary64: with [y] the product of [x] and [10^n] as
    binary64 gives it and [z] the integer nearest to [y], halves to even,
    the result is the binary64 number nearest to the decimal [z / 10^n]. *)
Lemma round_nd_decimal (n : nat) (q y : Q) :
  (n <= 22)%nat ->
  f_mul (Fin q) (pow10 n) = Fin y ->
  (Qabs (inject_Z (round_half_even y) - y) <= 1 # 2)%Q /\
  round_nd n (Fin q)
  = if round_half_even y =? 0 then f_zero (f_neg (Fin y))
    else b64 (inject_Z (round_half_even y) / inject_Z (10 ^ Z.of_nat n)).
Proof.
  intros Hn Hmul. split; [apply round_half_even_nearest|].
  assert (0 < 10 ^ Z.of_nat n) as Hp by (apply Z.pow_pos_nonneg; lia).
  unfold round_nd. rewrite Hmul, (pow10_exact n Hn). unfold f_rint.
  destruct (round_half_even y =? 0) eqn:Ez.
  - apply f_div_zero_pos. rewrite <- (Zlt_Qlt 0). exact Hp.
  - apply Z.eqb_neq in Ez. apply f_div_finite; rewrite inject_Z_eq_0; lia.
Qed.

Lemma N_div10_bounds (x lo hi : N) :
  (10 * lo <= x)%N -> (x < 10 * hi)%N -> (lo <= (x / 10) < hi)%N.
Proof.
  intros Hlo Hhi. split.
  - by apply N.div_le_lower_bound.
  - by apply N.Div0.div_lt_upper_bound.
Qed.

Lemma pretty_N_length_4 (x : N) :
  (1000 <= x < 10000)%N -> String.length (pretty x) = 4%nat.
Proof.
  intros Hx. unfold pretty, pretty_N. rewrite decide_False by lia.
  destruct (N_div10_bounds x 100 1000) as [H1 H1']; [lia..|].
  destruct (N_div10_bounds ((x / 10)) 10 100) as [H2 H2']; [lia..|].
  destruct (N_div10_bounds (((x / 10) / 10)) 1 10) as [H3 H3']; [lia..|].
  destruct (N_div10_bounds ((((x / 10) / 10) / 10)) 0 1) as [H4 H4']; [lia..|].
  rewrite 4!pretty_N_go_step by lia.
  replace (((((x / 10) / 10) / 10) / 10))%N with 0%N by lia.
  by rewrite pretty_N_go_0.
Qed.

Lemma pretty_N_length_2 (x : N) :
  (10 <= x < 100)%N -> String.length (pretty x) = 2%nat.
Proof.
  intros Hx. unfold pretty, pretty_N. rewrite decide_False by lia.
  destruct (N_div10_bounds x 1 10) as [H1 H1']; [lia..|].
  destruct (N_div10_bounds ((x / 10)) 0 1) as [H2 H2']; [lia..|].
  rewrite 2!pretty_N_go_step by lia.
  replace (((x / 10) / 10))%N with 0%N by lia.
  by rewrite pretty_N_go_0.
Qed.

Lemma pretty_N_length_1 (x : N) :
  (x < 10)%N -> String.length (pretty x) = 1%nat.
Proof.
  intros Hx. unfold pretty, pretty_N.
  destruct (decide (x = 0%N)) as [->|Hne]; [done|].
  destruct (N_div10_bounds x 0 1) as [H1 H1']; [lia..|].
  rewrite pretty_N_go_step by lia.
  replace ((x / 10))%N with 0%N by lia.
  by rewrite pretty_N_go_0.
Qed.

Lemma pretty_Z_N (z : Z) : 0 <= z -> pretty z = pretty (Z.to_N z).
Proof. intros Hz. by destruct z. Qed.

Lemma pad2_length (n : Z) : 0 <= n < 100 -> String.length (pad2 n) = 2%nat.
Proof.
  intros Hn. unfold pad2. rewrite pretty_Z_N by lia.
  destruct (Z.ltb_spec n 10).
  - change (String.length ("0" +:+ pretty (Z.to_N n)))
      with (S (String.length (pretty (Z.to_N n)))).
    by rewrite pretty_N_length_1 by lia.
  - by rewrite pretty_N_length_2 by lia.
Qed.

(** The shape YYYY-MM-DD of a formatted date. *)
Lemma strftime_ymd_shape (d : Timestamp) :
  1000 <= year d < 10000 -> 0 <= day d < 100 ->
  exists ys ms ds,
    strftime_ymd d = ys +:+ "-" +:+ ms +:+ "-" +:+ ds /\
    String.length ys = 4%nat /\ String.length ms = 2%nat /\
    String.length ds = 2%nat.
Proof.
  intros Hy Hd. eexists _, _, _. split; [reflexivity|].
  pose proof (month_num_range (month d)).
  rewrite pretty_Z_N by lia.
  split_and!; [apply pretty_N_length_4|apply pad2_length..]; lia.
Qed.

(** ** The ratio series and its document *)

Lemma inner_join_ratio_dates (sb sa : Series) :
  (inner_join_ratio sb sa).*1 = filter (fun d => d ∈ sa.*1) sb.*1.
Proof.
  unfold inner_join_ratio. rewrite <- list_fmap_compose.
  rewrite <- (list_fmap_id (filter _ _)) at 2. by apply list_fmap_ext.
Qed.

Lemma lookup_snoc2_length {A} (l : list A) (x y : A) :
  (l ++ [x; y]) !! S (length l) = Some y.
Proof.
  change (l ++ [x; y]) with (l ++ [x] ++ [y]). rewrite app_assoc.
  replace (S (length l)) with (length (l ++ [x]))
    by (rewrite length_app; simpl; lia).
  apply lookup_snoc_length.
Qed.

(** C2. For two quarterly price series the output of [compute_btc_ratio]
    holds exactly the dates present in both (an inner join), so it is at
    most as long as the shorter input, and its dates are ascending. *)
Theorem ratio_inner_join btc_df asset_df s (sb sa : Series) :
  heap s !! btc_df = Some (to_frame "price" sb) ->
  heap s !! asset_df = Some (to_frame "price" sa) ->
  increasing_dates sb -> valid_series sb ->
  increasing_dates sa -> valid_series sa ->
  exists l s' combined,
    compute_btc_ratio btc_df asset_df s = (Ok l, s') /\
    heap s' !! l = Some combined /\
    (forall d, d ∈ (rows combined).*1 <-> d ∈ sb.*1 /\ d ∈ sa.*1) /\
    (length (rows combined) <= length sb `min` length sa)%nat /\
    StronglySorted ts_lt (rows combined).*1.
Proof.
  intros Hb Ha Hib Hvb Hia Hva.
  destruct (compute_btc_ratio_quarterly btc_df asset_df s sb sa)
    as (c & Hrun); [done..|].
  eexists _, _, _. split; [exact Hrun|].
  split; [apply lookup_snoc2_length|]. cbn [rows].
  rewrite inner_join_ratio_dates.
  assert (length (inner_join_ratio sb sa)
          = length (filter (fun d => d ∈ sa.*1) sb.*1)) as ->
    by (by rewrite <- inner_join_ratio_dates, length_fmap).
  split_and!.
  - intros d. rewrite list_elem_of_filter. tauto.
  - apply Nat.min_glb.
    + rewrite <- (length_fmap fst sb). apply length_filter.
    + rewrite <- (length_fmap fst sa). apply submseteq_length, NoDup_submseteq.
      * apply ts_lt_sorted_NoDup, filter_sorted, increasing_dates_index, Hib.
      * by intros d [? _]%list_elem_of_filter.
  - apply filter_sorted, increasing_dates_index, Hib.
Qed.

Lemma ratio_inner_join_witness :
  exists l s' combined,
    compute_btc_ratio 0%nat 1%nat
      (mkState [to_frame "price" btc_scenario; to_frame "price" gold_scenario]
         ∅ ∅ [] 0) = (Ok l, s') /\
    heap s' !! l = Some combined /\
    (forall d, d ∈ (rows combined).*1 <->
               d ∈ btc_scenario.*1 /\ d ∈ gold_scenario.*1) /\
    (length (rows combined) <= length btc_scenario `min` length gold_scenario)%nat /\
    StronglySorted ts_lt (rows combined).*1.
Proof.
  apply ratio_inner_join; try reflexivity;
    repeat constructor; unfold ts_lt; simpl; lia.
Defined.

(** The record the specification asks for at date [d]. *)
Lemma ratio_record_joined (sb sa : Series) d :
  ratio_record ["btc"; "asset"; "asset_per_btc"]
    (d, [value_at d sb; value_at d sa; f_div (value_at d sa) (value_at d sb)])
  = JObj [("date", JStr (strftime_ymd d));
          ("btc_price", JNum (round_nd 2 (value_at d sb)));
          ("asset_price", JNum (round_nd 2 (value_at d sa)));
          ("asset_per_btc",
           JNum (round_nd 10 (f_div (value_at d sa) (value_at d sb))))].
Proof. done. Qed.

Lemma row_get_absent cols cells name :
  name ∉ cols -> row_get cols cells name = None.
Proof.
  intros Hn. unfold row_get.
  assert (col_pos name cols = None) as ->; [|done].
  induction cols as [|c cols IH]; [done|].
  apply not_elem_of_cons in Hn as [Hc Hn]. simpl.
  rewrite decide_False by done. by rewrite IH.
Qed.

(** C3. Every joined row is serialized as its date in the form
    YYYY-MM-DD, the two prices rounded to 2 decimal places and the asset
    price divided by the BTC price rounded to 10 decimal places; a field
    whose column is absent is null.  The rounding is that of numpy on
    binary64 numbers: the value is scaled by the power of ten, rounded to
    the nearest integer [z], halves to even, and the result is the
    binary64 number nearest to the decimal [z / 10^n]; so the text 8.345
    gives 8.35 and the binary64 number 16.055 gives 16.06.  The scenario
    of the specification gives the binary64 numbers nearest to 0.036 and
    0.0505714286. *)
Theorem ratio_records_serialized :
  (forall W btc_df asset_df s (sb sa : Series) filepath asset_name,
     heap s !! btc_df = Some (to_frame "price" sb) ->
     heap s !! asset_df = Some (to_frame "price" sa) ->
     increasing_dates sb -> valid_series sb ->
     increasing_dates sa -> valid_series sa ->
     exists l s1 s2,
       compute_btc_ratio btc_df asset_df s = (Ok l, s1) /\
       save_to_json W l filepath asset_name s1 = (Ok tt, s2) /\
       files s2 !! filepath
       = Some [JObj [("asset", JStr asset_name);
                     ("updated_at", JStr (now_isoformat W (clock s)));
                     ("data",
                      JArr ((fun d =>
                               JObj [("date", JStr (strftime_ymd d));
                                     ("btc_price", JNum (round_nd 2 (value_at d sb)));
                                     ("asset_price", JNum (round_nd 2 (value_at d sa)));
                                     ("asset_per_btc",
                                      JNum (round_nd 10 (f_div (value_at d sa)
                                                               (value_at d sb))))])
                              <$> filter (fun d => d ∈ sa.*1) sb.*1))]]) /\
  (forall cols cells name n, name ∉ cols ->
     rounded_field cols cells name n = JNull) /\
  (forall n q y, (n <= 22)%nat ->
     f_mul (Fin q) (pow10 n) = Fin y ->
     exists z : Z,
       (Qabs (inject_Z z - y) <= 1 # 2)%Q /\
       (z <> 0 ->
        round_nd n (Fin q) = b64 (inject_Z z / inject_Z (10 ^ Z.of_nat n))) /\
       (z = 0 -> round_nd n (Fin q) = f_zero (f_neg (Fin y)))) /\
  round_nd 2 (to_numeric_coerce "8.345") = b64 8.35 /\
  round_nd 2 (b64 16.055) = b64 16.06 /\
  (forall d, 1000 <= year d < 10000 -> 0 <= day d < 100 ->
     exists ys ms ds,
       strftime_ymd d = ys +:+ "-" +:+ ms +:+ "-" +:+ ds /\
       String.length ys = 4%nat /\ String.length ms = 2%nat /\
       String.length ds = 2%nat) /\
  files (main scenario_world state_with_data_dir).2 !! ["repo"; "data"; "gold_usd.json"]
  = Some [JObj [("asset", JStr "gold_usd");
                ("updated_at", JStr "2026-01-01T00:00:01");
                ("data",
                 JArr [JObj [("date", JStr "2021-03-31");
                             ("btc_price", JNum (b64 50000.00));
                             ("asset_price", JNum (b64 1800.00));
                             ("asset_per_btc", JNum (b64 0.036))];
                       JObj [("date", JStr "2021-06-30");
                             ("btc_price", JNum (b64 35000.00));
                             ("asset_price", JNum (b64 1770.00));
                             ("asset_per_btc", JNum (b64 0.0505714286))]])]].
Proof.
  split_and!.
  - intros W btc_df asset_df s sb sa filepath asset_name Hb Ha Hib Hvb Hia Hva.
    destruct (compute_btc_ratio_quarterly btc_df asset_df s sb sa)
      as (c & Hrun); [done..|].
    eexists _, _, _. split; [exact Hrun|].
    rewrite save_to_json_run. cbv zeta. split; [reflexivity|].
    cbn [files heap clock set_heap]. rewrite lookup_insert_eq, lookup_snoc2_length.
    cbn [default from_option id columns rows].
    unfold inner_join_ratio. by rewrite <- list_fmap_compose.
  - intros cols cells name n Hn. unfold rounded_field.
    by rewrite row_get_absent.
  - intros n q y Hn Hmul.
    destruct (round_nd_decimal n q y Hn Hmul) as [Hnear Hround].
    exists (round_half_even y). split_and!; [done| |].
    + intros Hz. apply Z.eqb_neq in Hz. by rewrite Hz in Hround.
    + intros Hz. by rewrite Hz in Hround.
  - vm_compute. reflexivity.
  - vm_compute. reflexivity.
  - apply strftime_ymd_shape.
  - vm_compute. reflexivity.
Qed.

Lemma ratio_records_serialized_witness :
  exists l s1 s2,
    compute_btc_ratio 0%nat 1%nat
      (mkState [to_frame "price" btc_scenario; to_frame "price" gold_scenario]
         ∅ ∅ [] 0) = (Ok l, s1) /\
    save_to_json scenario_world l ["repo"; "data"; "gold_usd.json"] "gold_usd" s1
    = (Ok tt, s2) /\
    files s2 !! ["repo"; "data"; "gold_usd.json"]
    = Some [JObj [("asset", JStr "gold_usd");
                  ("updated_at", JStr (now_isoformat scenario_world 0));
                  ("data",
                   JArr ((fun d =>
                            JObj [("date", JStr (strftime_ymd d));
                                  ("btc_price",
                                   JNum (round_nd 2 (value_at d btc_scenario)));
                                  ("asset_price",
                                   JNum (round_nd 2 (value_at d gold_scenario)));
                                  ("asset_per_btc",
                                   JNum (round_nd 10
                                           (f_div (value_at d gold_scenario)
                                                  (value_at d btc_scenario))))])
                           <$> filter (fun d => d ∈ gold_scenario.*1)
                                      btc_scenario.*1))]].
Proof.
  apply (proj1 ratio_records_serialized scenario_world 0%nat 1%nat
           (mkState [to_frame "price" btc_scenario; to_frame "price" gold_scenario]
              ∅ ∅ [] 0)
           btc_scenario gold_scenario);
    try reflexivity; repeat constructor; unfold ts_lt; simpl; lia.
Defined.

(** ** The store under the script's functions *)

Lemma store_extends_ret {A} (a : A) : store_extends (ret a).
Proof. by intros s. Qed.

Lemma store_extends_bind {A B} (m : M A) (k : A -> M B) :
  store_extends m -> (forall a, store_extends (k a)) -> store_extends (bind m k).
Proof.
  intros Hm Hk s. unfold bind. specialize (Hm s).
  destruct (m s) as [[a|e] s']; simpl in *; [|done].
  etrans; [exact Hm|apply Hk].
Qed.

Lemma store_extends_for_each {A} (body : A -> M unit) (l : list A) :
  (forall x, store_extends (body x)) -> store_extends (for_each l body).
Proof.
  intros Hbody. induction l as [|x l IH]; simpl.
  - apply store_extends_ret.
  - apply store_extends_bind; auto.
Qed.

Lemma store_extends_print line : store_extends (print line).
Proof. by intros s. Qed.

Lemma store_extends_read l : store_extends (read l).
Proof. by intros s. Qed.

Lemma store_extends_alloc df : store_extends (alloc df).
Proof. intros s. by apply prefix_app_r. Qed.

Lemma store_extends_fetch_yfinance_data W ticker name :
  store_extends (fetch_yfinance_data W ticker name).
Proof.
  intros s. rewrite fetch_yfinance_data_run. cbv zeta.
  repeat case_match; simpl; try done; by apply prefix_app_r.
Qed.

Lemma store_extends_fetch_fred_data W series_id name :
  store_extends (fetch_fred_data W series_id name).
Proof.
  intros s. rewrite fetch_fred_data_run. cbv zeta.
  repeat case_match; simpl; by apply prefix_app_r.
Qed.

Lemma store_extends_save_to_json W df filepath asset_name :
  store_extends (save_to_json W df filepath asset_name).
Proof. intros s. by rewrite save_to_json_run. Qed.

Lemma store_extends_save_btc_usd W btc_df :
  store_extends (save_btc_usd W btc_df).
Proof.
  intros s. rewrite save_btc_usd_run. cbv zeta. by repeat case_match.
Qed.

(** [compute_btc_ratio] writes to the object it has just allocated and to
    no other. *)
Lemma store_extends_compute_btc_ratio btc_df asset_df :
  store_extends (compute_btc_ratio btc_df asset_df).
Proof.
  intros s. unfold compute_btc_ratio, bind, read, lift, alloc, write, ret.
  cbn [set_heap heap fst snd].
  repeat case_match; simplify_eq/=; try done;
    try (by apply prefix_app_r);
    try (by apply prefix_app_r, prefix_app_r).
  rewrite insert_snoc_length. by apply prefix_app_r, prefix_app_r.
Qed.

Create HintDb store.
#[local] Hint Resolve store_extends_ret store_extends_print store_extends_read
  store_extends_alloc store_extends_fetch_yfinance_data
  store_extends_fetch_fred_data store_extends_save_to_json
  store_extends_save_btc_usd store_extends_compute_btc_ratio : store.

(** Walks along the binds and branches of a loop body. *)
Ltac store_steps :=
  first
    [ solve [auto with store]
    | apply store_extends_bind; [store_steps|intros ?; store_steps]
    | case_decide; store_steps
    | match goal with
      | |- store_extends (if ?b then _ else _) => destruct b; store_steps
      end ].

Lemma store_extends_yfinance_step W btc_df item :
  store_extends (yfinance_step W btc_df item).
Proof. destruct item as [name ticker]. unfold yfinance_step. store_steps. Qed.

Lemma store_extends_fred_step W btc_df item :
  store_extends (fred_step W btc_df item).
Proof. destruct item as [name series_id]. unfold fred_step. store_steps. Qed.

Lemma store_extends_lookup {A} (m : M A) s l df :
  store_extends m -> heap s !! l = Some df -> heap (m s).2 !! l = Some df.
Proof. intros Hm Hl. eapply prefix_lookup_Some; [exact Hl|apply Hm]. Qed.

(** C10. [compute_btc_ratio] never modifies the series it is given: every
    object of the store, the BTC frame and the asset frame among them, is
    the same after the call, and so the anchor BTC frame is the same
    before every ratio computation of the two loops of [main]. *)
Theorem compute_btc_ratio_preserves_inputs :
  (forall btc_df asset_df s,
     heap s `prefix_of` heap (compute_btc_ratio btc_df asset_df s).2) /\
  (forall btc_df asset_df s b a,
     heap s !! btc_df = Some b -> heap s !! asset_df = Some a ->
     heap (compute_btc_ratio btc_df asset_df s).2 !! btc_df = Some b /\
     heap (compute_btc_ratio btc_df asset_df s).2 !! asset_df = Some a) /\
  (forall W btc_df s b items,
     heap s !! btc_df = Some b ->
     heap (for_each items (yfinance_step W btc_df) s).2 !! btc_df = Some b /\
     heap (for_each items (fred_step W btc_df) s).2 !! btc_df = Some b).
Proof.
  split_and!.
  - intros. apply store_extends_compute_btc_ratio.
  - intros btc_df asset_df s b a Hb Ha.
    split; by apply store_extends_lookup; [apply store_extends_compute_btc_ratio|].
  - intros W btc_df s b items Hb.
    split; apply store_extends_lookup; try done; apply store_extends_for_each.
    + apply store_extends_yfinance_step.
    + apply store_extends_fred_step.
Qed.

Lemma compute_btc_ratio_preserves_inputs_witness :
  let s := mkState [to_frame "price" btc_scenario; to_frame "price" gold_scenario]
             ∅ ∅ [] 0 in
  heap (compute_btc_ratio 0%nat 1%nat s).2 !! 0%nat
  = Some (to_frame "price" btc_scenario) /\
  heap (compute_btc_ratio 0%nat 1%nat s).2 !! 1%nat
  = Some (to_frame "price" gold_scenario).
Proof.
  intros s.
  apply (proj1 (proj2 compute_btc_ratio_preserves_inputs) 0%nat 1%nat s);
    reflexivity.
Defined.

(** ** Running [main] *)

Lemma main_run W s :
  main W s =
  let s0 := mkState (heap s) (dirs s) (files s)
              (stdout s ++ [str_repeat 50 "=";
                            "BTC Purchasing Power - Data Update";
                            str_repeat 50 "=";
                            nl +:+ "[1/3] Fetching yfinance data..."])
              (clock s) in
  match fetch_yfinance_data W "BTC-USD" "Bitcoin" s0 with
  | (Raise e, s1) => (Raise e, s1)
  | (Ok btc_df, s1) =>
      if df_empty (default empty_frame (heap s1 !! btc_df)) then
        (Ok tt,
         mkState (heap s1) (dirs s1) (files s1)
           (stdout s1 ++ ["Error: Could not fetch BTC data. Aborting."])
           (clock s1))
      else
        bind (save_btc_usd W btc_df) (fun _ =>
        bind (for_each YFINANCE_TICKERS (yfinance_step W btc_df)) (fun _ =>
        bind (print (nl +:+ "[2/3] Fetching FRED housing data...")) (fun _ =>
        bind (for_each FRED_SERIES (fred_step W btc_df)) (fun _ =>
        bind (print (nl +:+ "[3/3] Done!")) (fun _ =>
        print (str_repeat 50 "=")))))) s1
  end.
Proof.
  unfold main. unfold bind at 1 2 3 4 5 6 7. unfold print at 1 2 3 4.
  unfold lift, read.
  cbn [set_stdout heap dirs files stdout clock dict_get YFINANCE_TICKERS fst snd].
  rewrite decide_True by done.
  rewrite <- !app_assoc. cbn [app]. cbv zeta.
  destruct (fetch_yfinance_data W "BTC-USD" "Bitcoin" _) as [[btc_df|e] s1];
    [|done].
  by destruct (df_empty _).
Qed.

Lemma fetch_yfinance_data_files W ticker name s :
  files (fetch_yfinance_data W ticker name s).2 = files s /\
  dirs (fetch_yfinance_data W ticker name s).2 = dirs s.
Proof.
  rewrite fetch_yfinance_data_run. cbv zeta. by repeat case_match.
Qed.

(** When the anchor fetch comes back empty, [main] prints the error and
    returns: the file system is as it was. *)
Lemma main_abort W s :
  returns_empty (fetch_yfinance_data W "BTC-USD" "Bitcoin") ->
  exists s1,
    main W s
    = (Ok tt,
       mkState (heap s1) (dirs s) (files s)
         (stdout s1 ++ ["Error: Could not fetch BTC data. Aborting."])
         (clock s1)).
Proof.
  intros Hempty. rewrite main_run. cbv zeta.
  match goal with
  | |- context [fetch_yfinance_data W "BTC-USD" "Bitcoin" ?s0] =>
      destruct (Hempty s0) as (l & s1 & Hrun & Hdf);
      pose proof (fetch_yfinance_data_files W "BTC-USD" "Bitcoin" s0) as [Hf Hd];
      rewrite Hrun in *
  end.
  rewrite Hdf. simpl in Hf, Hd. rewrite Hf, Hd. by exists s1.
Qed.

(** C1. If the anchor BTC fetch returns an empty series, the run prints
    an error message and stops: no file is written, neither a ratio
    document nor the BTC-in-USD document, and no directory is created. *)
Theorem abort_on_empty_anchor W s :
  returns_empty (fetch_yfinance_data W "BTC-USD" "Bitcoin") ->
  exists s',
    main W s = (Ok tt, s') /\
    files s' = files s /\
    dirs s' = dirs s /\
    last (stdout s') = Some "Error: Could not fetch BTC data. Aborting.".
Proof.
  intros Hempty. destruct (main_abort W s Hempty) as (s1 & ->).
  eexists. split; [done|]. split_and!; [done..|].
  cbn [stdout]. apply last_snoc.
Qed.

Lemma no_rows_world_returns_empty ticker name :
  returns_empty (fetch_yfinance_data no_rows_world ticker name).
Proof.
  intros s. rewrite fetch_yfinance_data_run.
  cbn [yf_download no_rows_world pf_rows]. cbv zeta.
  eexists _, _. split; [reflexivity|].
  cbn [heap]. by rewrite lookup_snoc_length.
Qed.

Lemma abort_on_empty_anchor_witness :
  exists s',
    main no_rows_world fresh_state = (Ok tt, s') /\
    files s' = files fresh_state /\
    dirs s' = dirs fresh_state /\
    last (stdout s') = Some "Error: Could not fetch BTC data. Aborting.".
Proof.
  apply (abort_on_empty_anchor no_rows_world fresh_state).
  apply no_rows_world_returns_empty.
Defined.

(** ** Writing the documents *)

(** C6. [save_to_json] creates the parent directories of its target and
    replaces the file whatever it held; [save_btc_usd] replaces its file
    as well but relies on the data directory being there: in a checkout
    without it the first write of a run raises and nothing is written. *)
Theorem btc_usd_write_needs_data_dir :
  (forall W df filepath asset_name s old,
     (save_to_json W df filepath asset_name s).1 = Ok tt /\
     parent filepath ∈ dirs (save_to_json W df filepath asset_name s).2 /\
     (exists doc,
        files (save_to_json W df filepath asset_name s).2 !! filepath = Some [doc] /\
        files (save_to_json W df filepath asset_name
                 (set_files (<[filepath := old]> (files s)) s)).2 !! filepath
        = Some [doc])) /\
  (forall s old,
     let target := ["repo"; "data"; "btc_usd.json"] in
     let s1 := mkState [to_frame "price" btc_scenario] {[ ["repo"; "data"] ]}
                 (<[target := old]> (files s)) [] 0 in
     (save_btc_usd scenario_world 0%nat s1).1 = Ok tt /\
     exists doc,
       files (save_btc_usd scenario_world 0%nat s1).2 !! target = Some [doc]) /\
  (main scenario_world fresh_state).1
  = Raise (FileNotFoundError ["repo"; "data"; "btc_usd.json"]) /\
  files (main scenario_world fresh_state).2 = ∅ /\
  dirs (main scenario_world fresh_state).2 = ∅ /\
  (main scenario_world state_with_data_dir).1 = Ok tt.
Proof.
  split_and!.
  - intros W df filepath asset_name s old. rewrite !save_to_json_run. cbv zeta.
    cbn [fst snd dirs files heap clock set_files].
    split_and!; [done| |].
    + apply elem_of_union_r, elem_of_list_to_set, elem_of_prefixes_self.
    + eexists. by rewrite !lookup_insert_eq.
  - intros s old target s1.
    assert (dir_exists s1 ["repo"; "data"] = true) as Hd.
    { unfold dir_exists. apply orb_true_iff. right.
      apply bool_decide_eq_true_2. subst s1. cbn [dirs]. set_solver. }
    rewrite save_btc_usd_run. cbv zeta.
    change (parent (DATA_DIR scenario_world ++ ["btc_usd.json"]))
      with ["repo"; "data"].
    rewrite Hd.
    change (DATA_DIR scenario_world ++ ["btc_usd.json"]) with target.
    subst s1. cbn [heap lookup list_lookup default from_option id columns rows
                   to_frame btc_scenario fmap list_fmap fst snd].
    match goal with
    | |- context [rmap ?f ?l] =>
        let v := eval vm_compute in (rmap f l) in change (rmap f l) with v
    end.
    cbn [fst snd files]. split; [reflexivity|]. eexists.
    by rewrite lookup_insert_eq.
  - reflexivity.
  - reflexivity.
  - reflexivity.
  - vm_compute. reflexivity.
Qed.

(** ** Failing fetches *)

Lemma df_empty_to_frame name (q : Series) :
  df_empty (to_frame name q) = match q with [] => true | _ => false end.
Proof. by destruct q. Qed.

(** One round of the housing loop on a quarterly BTC frame: it returns,
    and the store only grows. *)
Lemma fred_step_returns W btc_df (sb : Series) item s :
  heap s !! btc_df = Some (to_frame "price" sb) ->
  increasing_dates sb -> valid_series sb ->
  exists s', fred_step W btc_df item s = (Ok tt, s').
Proof.
  intros Hb Hib Hvb.
  destruct item as [name series_id]. unfold fred_step, bind.
  destruct (fetch_fred_data_ok W series_id name s) as (df & out & Hdf & ->).
  unfold read. cbn [heap]. rewrite lookup_snoc_length.
  cbn [default from_option id].
  destruct Hdf as [->|(q & -> & Hiq & Hvq & _)]; [by eexists|].
  rewrite df_empty_to_frame. destruct q as [|r q]; [by eexists|].
  cbn [negb].
  match goal with
  | |- context [compute_btc_ratio btc_df _ ?s1] =>
      destruct (compute_btc_ratio_quarterly btc_df (length (heap s)) s1 sb (r :: q))
        as (c & ->)
  end; try done.
  - cbn [heap]. by apply lookup_app_l_Some.
  - cbn [heap]. apply lookup_snoc_length.
  - rewrite save_to_json_run. cbv zeta. by eexists.
Qed.

Lemma fred_step_ok W btc_df (sb : Series) item s :
  heap s !! btc_df = Some (to_frame "price" sb) ->
  increasing_dates sb -> valid_series sb ->
  exists s', fred_step W btc_df item s = (Ok tt, s') /\
             heap s `prefix_of` heap s'.
Proof.
  intros Hb Hib Hvb.
  destruct (fred_step_returns W btc_df sb item s) as (s' & Hstep); [done..|].
  exists s'. split; [done|].
  pose proof (store_extends_fred_step W btc_df item s) as Hext.
  by rewrite Hstep in Hext.
Qed.

Lemma fred_loop_ok W btc_df (sb : Series) items : forall s,
  heap s !! btc_df = Some (to_frame "price" sb) ->
  increasing_dates sb -> valid_series sb ->
  exists s', for_each items (fred_step W btc_df) s = (Ok tt, s').
Proof.
  induction items as [|item items IH]; intros s Hb Hib Hvb.
  - by eexists.
  - destruct (fred_step_ok W btc_df sb item s) as (s1 & Hstep & Hext); [done..|].
    simpl. unfold bind. rewrite Hstep. apply IH; [|done..].
    by eapply prefix_lookup_Some.
Qed.

(** C5. Every exception raised while a housing series is read and parsed
    is caught, logged and turned into an empty result: [fetch_fred_data]
    always returns, and the housing loop runs through every series
    without an exception. *)
Theorem housing_fetch_never_raises W :
  (forall series_id name s,
     exists l s', fetch_fred_data W series_id name s = (Ok l, s')) /\
  (forall series_id name s e,
     rbind (read_csv W ("https://fred.stlouisfed.org/graph/fredgraph.csv?id="
                        +:+ series_id))
           (fred_try_body series_id) = Raise e ->
     fetch_fred_data W series_id name s
     = (Ok (length (heap s)),
        mkState (heap s ++ [empty_frame]) (dirs s) (files s)
          (stdout s ++ ["Fetching " +:+ name +:+ " (" +:+ series_id +:+ ")...";
                        "  Warning: Failed to fetch " +:+ series_id +:+ ": "
                        +:+ exn_str e])
          (clock s))) /\
  (forall btc_df (sb : Series) items s,
     heap s !! btc_df = Some (to_frame "price" sb) ->
     increasing_dates sb -> valid_series sb ->
     exists s', for_each items (fred_step W btc_df) s = (Ok tt, s')).
Proof.
  split_and!.
  - intros series_id name s.
    destruct (fetch_fred_data_ok W series_id name s) as (df & out & _ & ->).
    by eexists _, _.
  - intros series_id name s e He. rewrite fetch_fred_data_run. cbv zeta.
    rewrite He. by rewrite <- app_assoc.
  - intros btc_df sb items s. apply fred_loop_ok.
Qed.

Lemma housing_fetch_never_raises_witness :
  fetch_fred_data offline_world "MSPUS" "housing_us_median" fresh_state
  = (Ok O,
     mkState [empty_frame] ∅ ∅
       ["Fetching housing_us_median (MSPUS)...";
        "  Warning: Failed to fetch MSPUS: connection refused"] 0) /\
  exists s',
    for_each FRED_SERIES (fred_step offline_world 0%nat)
      (mkState [to_frame "price" btc_scenario] ∅ ∅ [] 0) = (Ok tt, s').
Proof.
  split.
  - apply (proj1 (proj2 (housing_fetch_never_raises offline_world))
             "MSPUS" "housing_us_median" fresh_state (IOError "connection refused")).
    reflexivity.
  - apply (proj2 (proj2 (housing_fetch_never_raises offline_world))
             0%nat btc_scenario); try reflexivity;
      repeat constructor; unfold ts_lt; simpl; lia.
Defined.

(** One round of the market loop for a ticker other than the anchor
    whose fetch comes back empty: the asset is skipped. *)
Lemma yfinance_step_skip W btc_df name ticker s :
  name <> "btc_usd" ->
  returns_empty (fetch_yfinance_data W ticker name) ->
  exists s1,
    yfinance_step W btc_df (name, ticker) s = (Ok tt, s1) /\
    files s1 = files s /\ dirs s1 = dirs s.
Proof.
  intros Hname Hempty. unfold yfinance_step. rewrite decide_False by done.
  unfold bind, read. destruct (Hempty s) as (l & s1 & Hrun & Hdf).
  pose proof (fetch_yfinance_data_files W ticker name s) as [Hf Hd].
  rewrite Hrun in *. rewrite Hdf. by exists s1.
Qed.

(** When the provider has no rows for a ticker, [fetch_yfinance_data]
    returns the empty frame and raises nothing; for a ticker other than
    the anchor the orchestrator skips the asset, writes nothing for it and
    goes on with the next series; for the anchor ticker the run ends with
    the error message. *)
Lemma empty_market_fetch_skipped W :
  (forall ticker name s pf,
     yf_download W ticker = Ok pf -> pf_rows pf = [] ->
     fetch_yfinance_data W ticker name s
     = (Ok (length (heap s)),
        mkState (heap s ++ [empty_frame]) (dirs s) (files s)
          (stdout s ++ ["Fetching " +:+ name +:+ " (" +:+ ticker +:+ ")...";
                        "  Warning: No data returned for " +:+ ticker])
          (clock s))) /\
  (forall btc_df name ticker rest s,
     name <> "btc_usd" ->
     returns_empty (fetch_yfinance_data W ticker name) ->
     exists s1,
       yfinance_step W btc_df (name, ticker) s = (Ok tt, s1) /\
       files s1 = files s /\ dirs s1 = dirs s /\
       for_each ((name, ticker) :: rest) (yfinance_step W btc_df) s
       = for_each rest (yfinance_step W btc_df) s1) /\
  (returns_empty (fetch_yfinance_data W "BTC-USD" "Bitcoin") ->
   forall s, exists s',
     main W s = (Ok tt, s') /\ files s' = files s /\
     last (stdout s') = Some "Error: Could not fetch BTC data. Aborting.").
Proof.
  split_and!.
  - intros ticker name s pf Hpf Hrows. rewrite fetch_yfinance_data_run. cbv zeta.
    rewrite Hpf, Hrows. by rewrite <- app_assoc.
  - intros btc_df name ticker rest s Hname Hempty.
    destruct (yfinance_step_skip W btc_df name ticker s Hname Hempty)
      as (s1 & Hstep & Hf & Hd).
    exists s1. split_and!; [done..|].
    cbn [for_each]. unfold bind at 1. by rewrite Hstep.
  - intros Hempty s. destruct (main_abort W s Hempty) as (s1 & ->).
    eexists. split_and!; [done..|]. cbn [stdout]. apply last_snoc.
Qed.

(** [fetch_yfinance_data] has no handler of its own: an exception of the
    provider call leaves the fetch and the run. *)
Example provider_exception_propagates :
  (fetch_yfinance_data offline_world "GC=F" "gold_usd" fresh_state).1
  = Raise (IOError "connection refused") /\
  (main offline_world fresh_state).1 = Raise (IOError "connection refused").
Proof. split; reflexivity. Qed.


(** * Further properties of the script *)

(** ** [compute_btc_ratio] on arbitrary frames *)

Lemma col_pos_absent name cols : name ∉ cols -> col_pos name cols = None.
Proof.
  induction cols as [|c cols IH]; [done|].
  intros [Hc Hn]%not_elem_of_cons. simpl.
  rewrite decide_False by done. by rewrite IH.
Qed.

Lemma col_pos_present name cols : name ∈ cols -> is_Some (col_pos name cols).
Proof.
  induction cols as [|c cols IH]; [by intros ?%elem_of_nil|].
  intros Hn. simpl. destruct (decide (c = name)) as [|Hne]; [by eexists|].
  apply elem_of_cons in Hn as [->|Hn]; [done|].
  destruct (IH Hn) as [i ->]. by eexists.
Qed.

(** X1. [compute_btc_ratio] needs the column ["price"] in both frames: on a
    frame without it, the frame [pd.DataFrame()] of a failed fetch among
    them, it raises [KeyError('price')] and changes nothing. *)
Theorem compute_btc_ratio_missing_price btc_df asset_df s b a :
  heap s !! btc_df = Some b ->
  heap s !! asset_df = Some a ->
  "price" ∉ columns b \/ "price" ∉ columns a ->
  compute_btc_ratio btc_df asset_df s = (Raise (KeyError "price"), s).
Proof.
  intros Hb Ha Hcols.
  unfold compute_btc_ratio, bind, read, lift. rewrite Hb, Ha.
  cbn [default from_option id]. unfold df_getitem.
  destruct Hcols as [Hc|Hc].
  - by rewrite (col_pos_absent _ _ Hc).
  - rewrite (col_pos_absent _ _ Hc). by destruct (col_pos "price" (columns b)).
Qed.

Lemma compute_btc_ratio_missing_price_witness :
  compute_btc_ratio 0%nat 1%nat
    (mkState [to_frame "price" btc_scenario; empty_frame] ∅ ∅ [] 0)
  = (Raise (KeyError "price"),
     mkState [to_frame "price" btc_scenario; empty_frame] ∅ ∅ [] 0).
Proof.
  apply (compute_btc_ratio_missing_price 0%nat 1%nat _
           (to_frame "price" btc_scenario) empty_frame);
    [reflexivity|reflexivity|].
  right. apply not_elem_of_nil.
Defined.

Lemma concat_axis1_shape k1 k2 (s1 s2 : Series) c :
  concat_axis1 k1 k2 s1 s2 = Ok c ->
  columns c = [k1; k2] /\
  Forall (fun r => exists x y, r.2 = [x; y]) (rows c).
Proof.
  unfold concat_axis1. destruct (decide (s1.*1 = s2.*1)) as [_|_].
  - intros [= <-]. split; [done|]. cbn [rows].
    clear. revert s2. induction s1 as [|r1 s1 IH]; intros [|r2 s2]; simpl;
      try by constructor.
    constructor; [by eexists _, _|apply IH].
  - destruct (has_dup s1.*1 || has_dup s2.*1); [done|].
    intros [= <-]. split; [done|]. cbn [rows].
    apply Forall_fmap, Forall_forall. intros d _. by eexists _, _.
Qed.

Lemma zip_with_fmap_same {A B C D} (f : B -> C -> D) (g : A -> B) (h : A -> C)
    (l : list A) :
  zip_with f (g <$> l) (h <$> l) = (fun x => f (g x) (h x)) <$> l.
Proof.
  induction l as [|x l IH]; [done|].
  rewrite !fmap_cons. cbn [zip_with]. by rewrite IH.
Qed.

Lemma zip_with_self_fmap {A B C} (f : A -> B -> C) (g : A -> B) (l : list A) :
  zip_with f l (g <$> l) = (fun x => f x (g x)) <$> l.
Proof.
  induction l as [|x l IH]; [done|].
  rewrite !fmap_cons. cbn [zip_with]. by rewrite IH.
Qed.

(** X2. Whenever [compute_btc_ratio] returns, on any two frames, the frame
    it returns has the columns btc, asset and asset_per_btc, no row of it
    misses a price, and the third cell of every row is the asset price
    divided by the BTC price. *)
Theorem compute_btc_ratio_shape btc_df asset_df s l s' :
  compute_btc_ratio btc_df asset_df s = (Ok l, s') ->
  exists combined,
    heap s' !! l = Some combined /\
    columns combined = ["btc"; "asset"; "asset_per_btc"] /\
    Forall (fun r => exists b a,
              r.2 = [b; a; f_div a b] /\ notna b = true /\ notna a = true)
           (rows combined).
Proof.
  unfold compute_btc_ratio, bind, read, lift, alloc, write, ret.
  cbn [set_heap heap].
  destruct (df_getitem _ "price") as [bp|e]; [|done].
  destruct (df_getitem _ "price") as [ap|e]; [|done].
  destruct (concat_axis1 "btc" "asset" bp ap) as [c|e] eqn:Hc; [|done].
  apply concat_axis1_shape in Hc as [Hcols Hrows].
  rewrite !lookup_snoc_length. cbn [default from_option id].
  rewrite ?lookup_snoc_length. cbn [default from_option id].
  unfold df_getitem. cbn [columns df_dropna]. rewrite Hcols.
  change (col_pos "asset" ["btc"; "asset"]) with (Some 1%nat).
  change (col_pos "btc" ["btc"; "asset"]) with (Some 0%nat).
  cbv iota. intros [= <- <-]. eexists. split.
  { cbn [heap]. rewrite insert_snoc_length. apply lookup_snoc_length. }
  split; [cbn [columns df_setitem df_dropna]; by rewrite Hcols|].
  cbn [rows df_setitem df_dropna]. unfold series_div.
  rewrite zip_with_fmap_same, zip_with_self_fmap.
  apply Forall_fmap, Forall_forall. intros r [Hv Hr]%list_elem_of_filter.
  rewrite Forall_forall in Hrows. destruct (Hrows r Hr) as (x & y & Hxy).
  rewrite Hxy in Hv. simpl. rewrite !Hxy. simpl in *.
  apply andb_true_iff in Hv as [Hx Hy].
  rewrite andb_true_r in Hy. by exists x, y.
Qed.

Lemma compute_btc_ratio_shape_witness :
  exists combined,
    heap (compute_btc_ratio 0%nat 1%nat
            (mkState [to_frame "price" btc_scenario; to_frame "price" gold_scenario]
               ∅ ∅ [] 0)).2 !! 3%nat = Some combined /\
    columns combined = ["btc"; "asset"; "asset_per_btc"] /\
    Forall (fun r => exists b a,
              r.2 = [b; a; f_div a b] /\ notna b = true /\ notna a = true)
           (rows combined).
Proof.
  apply (compute_btc_ratio_shape 0%nat 1%nat
           (mkState [to_frame "price" btc_scenario; to_frame "price" gold_scenario]
              ∅ ∅ [] 0)).
  reflexivity.
Defined.

(** X3. The value of a ratio row.  At a date that both quarterly series
    hold with finite prices, the row of the ratio frame carries the asset
    price divided by the BTC price in binary64: the binary64 number
    nearest to the exact quotient.  A BTC price of zero is not filtered:
    the row stays, with an infinite ratio for a positive asset price. *)
Theorem ratio_row_value btc_df asset_df s (sb sa : Series) d b a :
  heap s !! btc_df = Some (to_frame "price" sb) ->
  heap s !! asset_df = Some (to_frame "price" sa) ->
  increasing_dates sb -> valid_series sb ->
  increasing_dates sa -> valid_series sa ->
  (d, Fin b) ∈ sb -> (d, Fin a) ∈ sa ->
  exists l s' combined ratio,
    compute_btc_ratio btc_df asset_df s = (Ok l, s') /\
    heap s' !! l = Some combined /\
    (d, [Fin b; Fin a; ratio]) ∈ rows combined /\
    ratio = f_div (Fin a) (Fin b) /\
    (~ (b == 0)%Q -> ~ (a == 0)%Q -> ratio = b64 (a / b)) /\
    ((b == 0)%Q -> (0 < a)%Q -> ratio = PInf).
Proof.
  intros Hb Ha Hib Hvb Hia Hva Hdb Hda.
  destruct (compute_btc_ratio_quarterly btc_df asset_df s sb sa)
    as (c & Hrun); [done..|].
  pose proof (value_at_elem_of sb (d, Fin b) (increasing_dates_NoDup sb Hib) Hdb) as Hvb'.
  pose proof (value_at_elem_of sa (d, Fin a) (increasing_dates_NoDup sa Hia) Hda) as Hva'.
  simpl in Hvb', Hva'.
  eexists _, _, _, (f_div (Fin a) (Fin b)). split; [exact Hrun|].
  split; [apply lookup_snoc2_length|]. split_and!.
  - cbn [rows]. unfold inner_join_ratio. apply list_elem_of_fmap.
    exists d. rewrite Hvb', Hva'. split; [done|].
    apply list_elem_of_filter. split.
    + apply list_elem_of_fmap. by exists (d, Fin a).
    + apply list_elem_of_fmap. by exists (d, Fin b).
  - done.
  - intros Hb0 Ha0. by apply f_div_finite.
  - intros Hz Hpos. unfold f_div. cbn [f_val f_neg].
    rewrite (proj2 (Qeq_bool_iff b 0) Hz), Qeq_bool_false by lra.
    assert (Qle_bool 0 a = true) as -> by (apply Qle_bool_iff; lra).
    assert (Qle_bool 0 b = true) as -> by (apply Qle_bool_iff; lra).
    done.
Qed.

Lemma ratio_row_value_witness :
  exists l s' combined ratio,
    compute_btc_ratio 0%nat 1%nat
      (mkState [to_frame "price" btc_scenario; to_frame "price" gold_scenario]
         ∅ ∅ [] 0) = (Ok l, s') /\
    heap s' !! l = Some combined /\
    (mkTs 2021 Jun 30, [Fin 35000; Fin 1770; ratio]) ∈ rows combined /\
    ratio = f_div (Fin 1770) (Fin 35000) /\
    (~ (35000 == 0)%Q -> ~ (1770 == 0)%Q -> ratio = b64 (1770 / 35000)) /\
    ((35000 == 0)%Q -> (0 < 1770)%Q -> ratio = PInf).
Proof.
  apply (ratio_row_value 0%nat 1%nat _ btc_scenario gold_scenario);
    try reflexivity;
    repeat constructor; unfold ts_lt; simpl; lia.
Defined.

(** ** Edge cases of the market fetch *)

(** X4. A provider frame that has rows but no column ["Close"] makes
    [fetch_yfinance_data] raise [KeyError('Close')]; nothing is allocated
    and only the first progress line is printed. *)
Theorem fetch_yfinance_data_no_close W ticker name s pf r rs c cs :
  yf_download W ticker = Ok pf ->
  pf_rows pf = r :: rs ->
  flat_columns (pf_columns pf) = c :: cs ->
  "Close" ∉ c :: cs ->
  fetch_yfinance_data W ticker name s
  = (Raise (KeyError "Close"),
     mkState (heap s) (dirs s) (files s)
       (stdout s ++ ["Fetching " +:+ name +:+ " (" +:+ ticker +:+ ")..."])
       (clock s)).
Proof.
  intros Hpf Hrows Hcols Hclose.
  rewrite fetch_yfinance_data_run. cbv zeta. rewrite Hpf, Hrows, Hcols.
  unfold df_getitem. cbn [columns]. by rewrite (col_pos_absent _ _ Hclose).
Qed.

Lemma fetch_yfinance_data_no_close_witness :
  fetch_yfinance_data
    (mkWorld (fun _ => Ok (mkPF (Index ["Open"; "High"])
                             [(mkTs 2021 Mar 31, [Fin 1; Fin 2])]))
             (fun _ => Raise (IOError "connection refused"))
             (fun _ => EmptyString) repo_script)
    "GC=F" "gold_usd" fresh_state
  = (Raise (KeyError "Close"),
     mkState [] ∅ ∅ ["Fetching gold_usd (GC=F)..."] 0).
Proof.
  apply (fetch_yfinance_data_no_close _ "GC=F" "gold_usd" fresh_state
           (mkPF (Index ["Open"; "High"]) [(mkTs 2021 Mar 31, [Fin 1; Fin 2])])
           (mkTs 2021 Mar 31, [Fin 1; Fin 2]) [] "Open" ["High"]);
    try reflexivity.
  intros H. repeat (apply elem_of_cons in H as [H|H]; [discriminate|]).
  by apply elem_of_nil in H.
Defined.

Lemma dropna_all_missing (s : Series) :
  Forall (fun r : Timestamp * float64 => isna r.2 = true) s -> dropna s = [].
Proof.
  intros H. apply filter_none. eapply Forall_impl; [exact H|].
  simpl. intros r Hr. unfold notna. by rewrite Hr.
Qed.

(** X5. When no row of the provider has a close value, the fetch returns a
    frame that has the column ["price"] and no row; it counts as empty,
    so for the anchor ticker the run stops as for a provider without
    rows. *)
Theorem fetch_yfinance_data_all_missing W ticker name s pf close :
  yf_download W ticker = Ok pf ->
  df_getitem (mkDF (flat_columns (pf_columns pf)) (pf_rows pf)) "Close" = Ok close ->
  pf_rows pf <> [] ->
  Forall (fun r : Timestamp * float64 => isna r.2 = true) close ->
  exists s',
    fetch_yfinance_data W ticker name s = (Ok (length (heap s)), s') /\
    heap s' !! length (heap s) = Some (to_frame "price" []) /\
    df_empty (to_frame "price" []) = true /\
    last (stdout s') = Some "  Got 0 quarterly data points".
Proof.
  intros Hpf Hclose Hrows Hna.
  rewrite fetch_yfinance_data_run. cbv zeta. rewrite Hpf.
  assert (exists c cs, flat_columns (pf_columns pf) = c :: cs) as (c & cs & Hcols).
  { unfold df_getitem in Hclose. cbn [columns] in Hclose.
    destruct (flat_columns (pf_columns pf)) as [|c cs]; [done|]. by eexists _, _. }
  destruct (pf_rows pf) as [|r rs] eqn:Er; [done|].
  rewrite Hcols, <- Hcols, Hclose.
  rewrite <- quarterly_dropna, (dropna_all_missing close Hna).
  eexists. split; [reflexivity|]. cbn [heap stdout].
  split_and!; [apply lookup_snoc_length|done|apply last_snoc].
Qed.

Lemma fetch_yfinance_data_all_missing_witness :
  exists s',
    fetch_yfinance_data
      (mkWorld (fun _ => Ok (mkPF (Index ["Close"])
                               [(mkTs 2021 Mar 31, [NaN]); (mkTs 2021 Apr 1, [NaN])]))
               (fun _ => Raise (IOError "connection refused"))
               (fun _ => EmptyString) repo_script)
      "BTC-USD" "Bitcoin" fresh_state = (Ok (length (heap fresh_state)), s') /\
    heap s' !! length (heap fresh_state) = Some (to_frame "price" []) /\
    df_empty (to_frame "price" []) = true /\
    last (stdout s') = Some "  Got 0 quarterly data points".
Proof.
  apply (fetch_yfinance_data_all_missing _ "BTC-USD" "Bitcoin" fresh_state
           (mkPF (Index ["Close"])
              [(mkTs 2021 Mar 31, [NaN]); (mkTs 2021 Apr 1, [NaN])])
           [(mkTs 2021 Mar 31, NaN); (mkTs 2021 Apr 1, NaN)]);
    try reflexivity; [discriminate|repeat constructor].
Defined.

(** ** Edge cases of the housing fetch *)

Lemma from_start_date_elem_of rows (r : Timestamp * float64) :
  r ∈ from_start_date rows -> ts_leb START_DATE r.1 = true.
Proof.
  unfold from_start_date. intros (x & Hx & Hr)%list_elem_of_omap.
  destruct x.1 as [d|]; [|done].
  destruct (ts_leb START_DATE d) eqn:E; [|done]. by injection Hr as <-.
Qed.

Lemma quarter_end_after_start q :
  quarter START_DATE <= q -> ts_lt START_DATE (quarter_end q).
Proof.
  intros Hq. destruct (decide (q = quarter START_DATE)) as [->|Hne].
  - unfold ts_lt. vm_compute. intuition congruence.
  - eapply ts_lt_trans; [|apply (quarter_end_lt (quarter START_DATE) q); lia].
    unfold ts_lt. vm_compute. intuition congruence.
Qed.

(** X6. No row of a housing frame is dated before the start date: rows
    read before 2010-01-01 are filtered out before the resampling, so the
    first label a housing series can carry is 2010-03-31. *)
Theorem fetch_fred_data_after_start W series_id name s l s' df d cells :
  fetch_fred_data W series_id name s = (Ok l, s') ->
  heap s' !! l = Some df ->
  (d, cells) ∈ rows df ->
  ts_lt START_DATE d.
Proof.
  rewrite fetch_fred_data_run. cbv zeta.
  destruct (rbind _ _) as [parsed|e]; intros [= <- <-]; cbn [heap];
    rewrite lookup_snoc_length; intros [= <-]; [|by intros ?%elem_of_nil].
  cbn [rows to_frame]. intros (r & [= -> _] & Hr)%list_elem_of_fmap.
  destruct (quarterly_series_resample (from_start_date parsed)) as (_ & _ & Hqe).
  rewrite Forall_forall in Hqe. rewrite (Hqe r Hr).
  destruct (quarterly_values_observed _ r Hr) as (r0 & Hr0 & Hq & _).
  apply quarter_end_after_start. rewrite <- Hq.
  by apply quarter_mono, from_start_date_elem_of with (rows := parsed).
Qed.

Lemma fetch_fred_data_after_start_witness :
  ts_lt START_DATE (mkTs 2021 Mar 31).
Proof.
  apply (fetch_fred_data_after_start scenario_world "MSPUS" "housing_us_median"
           fresh_state O _ _ (mkTs 2021 Mar 31) [Fin 369800] eq_refl eq_refl).
  apply list_elem_of_here.
Defined.

(** X7. A housing CSV with fewer than two columns, none of them named
    after the series, fails inside the [try] block with an [IndexError]:
    the label of the date column or of the value column is looked up past
    the end of the column labels.  The fetch logs the message of the
    exception and returns the empty frame. *)
Theorem fetch_fred_data_too_few_columns W series_id name s cols rows :
  read_csv W ("https://fred.stlouisfed.org/graph/fredgraph.csv?id=" +:+ series_id)
    = Ok (mkCsv cols rows) ->
  (length cols < 2)%nat ->
  series_id ∉ cols ->
  fetch_fred_data W series_id name s
  = (Ok (length (heap s)),
     mkState (heap s ++ [empty_frame]) (dirs s) (files s)
       (stdout s ++ ["Fetching " +:+ name +:+ " (" +:+ series_id +:+ ")...";
                     "  Warning: Failed to fetch " +:+ series_id
                     +:+ ": index " +:+ pretty (length cols)
                     +:+ " is out of bounds for axis 0 with size "
                     +:+ pretty (length cols)])
       (clock s)).
Proof.
  intros Hcsv Hlen Hsid. rewrite fetch_fred_data_run. cbv zeta. rewrite Hcsv.
  assert (fred_try_body series_id (mkCsv cols rows)
          = Raise (IndexError (length cols) (length cols))) as Hbody.
  { unfold fred_try_body. cbn [csv_columns csv_rows].
    rewrite bool_decide_eq_false_2 by done.
    destruct cols as [|c [|c' cols]]; simpl in *; [done| |lia].
    by destruct (bool_decide _). }
  cbn [rbind]. rewrite Hbody. cbn [exn_str]. by rewrite <- app_assoc.
Qed.

Lemma fetch_fred_data_too_few_columns_witness :
  fetch_fred_data
    (mkWorld (fun _ => Raise (IOError "connection refused"))
             (fun _ => Ok (mkCsv ["observation_date"] [["2021-01-01"]]))
             (fun _ => EmptyString) repo_script)
    "MSPUS" "housing_us_median" fresh_state
  = (Ok (length (heap fresh_state)),
     mkState (heap fresh_state ++ [empty_frame]) (dirs fresh_state) (files fresh_state)
       (stdout fresh_state ++ ["Fetching housing_us_median (MSPUS)...";
                               "  Warning: Failed to fetch MSPUS: index 1 is out of bounds for axis 0 with size 1"])
       (clock fresh_state)).
Proof.
  apply (fetch_fred_data_too_few_columns _ "MSPUS" "housing_us_median"
           fresh_state ["observation_date"] [["2021-01-01"]]);
    [reflexivity|simpl; lia|].
  intros H. apply elem_of_cons in H as [H|H]; [discriminate|].
  by apply elem_of_nil in H.
Defined.

Lemma rmap_raise {A B} (f : A -> result B) (l : list A) i x e0 :
  l !! i = Some x -> f x = Raise e0 -> exists e, rmap f l = Raise e.
Proof.
  revert i. induction l as [|y l IH]; intros [|i] Hi Hx; simplify_eq/=.
  - rewrite Hx. by eexists.
  - destruct (f y) as [z|e]; simpl; [|by eexists].
    destruct (IH i Hi Hx) as [e ->]. by eexists.
Qed.

(** X8. One date of a housing CSV that cannot be parsed discards the whole
    series, not only its row: the exception of [pd.to_datetime] is caught
    and the fetch returns the empty frame.  (A value that cannot be
    parsed only drops its row.) *)
Theorem fetch_fred_data_bad_date W series_id name s cols rows dc dpos i cells e0 :
  read_csv W ("https://fred.stlouisfed.org/graph/fredgraph.csv?id=" +:+ series_id)
    = Ok (mkCsv cols rows) ->
  find_date_col cols = Some dc \/ (find_date_col cols = None /\ head cols = Some dc) ->
  col_pos dc cols = Some dpos ->
  rows !! i = Some cells ->
  to_datetime (cell_at cells dpos) = Raise e0 ->
  exists s',
    fetch_fred_data W series_id name s = (Ok (length (heap s)), s') /\
    heap s' = heap s ++ [empty_frame] /\
    files s' = files s /\ dirs s' = dirs s.
Proof.
  intros Hcsv Hdc Hpos Hi Hbad. rewrite fetch_fred_data_run. cbv zeta.
  rewrite Hcsv. cbn [rbind].
  assert (exists e, fred_try_body series_id (mkCsv cols rows) = Raise e)
    as [e ->]; [|by eexists].
  unfold fred_try_body. cbn [csv_columns csv_rows].
  assert (match find_date_col cols with
          | Some col => Ok col
          | None => match cols with
                    | col :: _ => Ok col
                    | [] => Raise (IndexError 0 0)
                    end
          end = Ok dc) as ->.
  { destruct Hdc as [->|[-> Hh]]; [done|]. by destruct cols; simplify_eq/=. }
  cbn [rbind].
  destruct (if bool_decide (series_id ∈ cols) then Ok series_id
            else match cols !! 1%nat with
                 | Some col => Ok col
                 | None => Raise (IndexError 1 (length cols))
                 end) as [value_col|e]; [|by eexists].
  cbn [rbind]. rewrite Hpos. cbn [default from_option id].
  destruct (rmap_raise (fun cells => to_datetime (cell_at cells dpos)) rows
              i cells e0 Hi Hbad) as [e ->].
  by eexists.
Qed.

Lemma fetch_fred_data_bad_date_witness :
  exists s',
    fetch_fred_data
      (mkWorld (fun _ => Raise (IOError "connection refused"))
               (fun _ => Ok (mkCsv ["observation_date"; "MSPUS"]
                               [["2021-01-01"; "369800"]; ["2021-13-01"; "374500"]]))
               (fun _ => EmptyString) repo_script)
      "MSPUS" "housing_us_median" fresh_state
    = (Ok (length (heap fresh_state)), s') /\
    heap s' = heap fresh_state ++ [empty_frame] /\
    files s' = files fresh_state /\ dirs s' = dirs fresh_state.
Proof.
  apply (fetch_fred_data_bad_date _ "MSPUS" "housing_us_median" fresh_state
           ["observation_date"; "MSPUS"]
           [["2021-01-01"; "369800"]; ["2021-13-01"; "374500"]]
           "observation_date" 0%nat 1%nat ["2021-13-01"; "374500"] (ValueError "2021-13-01"));
    try reflexivity.
  by left.
Defined.

(** X9. A housing series whose fetch fails, or yields no quarter, is
    skipped by the loop: the round returns, no file is created and no
    directory, so a document written by an earlier run stays as it is. *)
Theorem fred_step_skip W btc_df name series_id s :
  (forall parsed,
     rbind (read_csv W ("https://fred.stlouisfed.org/graph/fredgraph.csv?id="
                        +:+ series_id))
           (fred_try_body series_id) = Ok parsed ->
     dropna (resample_QE_last (from_start_date parsed)) = []) ->
  exists s',
    fred_step W btc_df (name, series_id) s = (Ok tt, s') /\
    files s' = files s /\ dirs s' = dirs s.
Proof.
  intros Hempty. unfold fred_step, bind, read.
  rewrite fetch_fred_data_run. cbv zeta.
  destruct (rbind _ _) as [parsed|e].
  - rewrite (Hempty parsed eq_refl). cbn [heap].
    rewrite lookup_snoc_length. by eexists.
  - cbn [heap]. rewrite lookup_snoc_length. by eexists.
Qed.

Lemma fred_step_skip_witness :
  exists s',
    fred_step offline_world 0%nat ("housing_west", "MSPW") state_with_data_dir
    = (Ok tt, s') /\
    files s' = files state_with_data_dir /\ dirs s' = dirs state_with_data_dir.
Proof.
  apply (fred_step_skip offline_world 0%nat "housing_west" "MSPW").
  intros parsed H. discriminate H.
Defined.

(** ** How a run can end *)

Lemma col_pos_None_absent name cols : col_pos name cols = None -> name ∉ cols.
Proof.
  intros Hn Hin. apply col_pos_present in Hin as [i Hi]. congruence.
Qed.

Lemma fetch_yfinance_data_raise W ticker name s e s' :
  fetch_yfinance_data W ticker name s = (Raise e, s') ->
  market_fetch_raises W ticker e.
Proof.
  rewrite fetch_yfinance_data_run. cbv zeta. unfold market_fetch_raises.
  destruct (yf_download W ticker) as [pf|e0] eqn:Hpf; [|intros [= <- _]; by left].
  destruct (pf_rows pf) as [|r rs] eqn:Hrows; [done|].
  destruct (flat_columns (pf_columns pf)) as [|c cs] eqn:Hcols; [done|].
  unfold df_getitem. cbn [columns].
  destruct (col_pos "Close" (c :: cs)) as [i|] eqn:Hpos; [done|].
  intros [= <- _]. right. exists pf.
  split_and!; [done|by rewrite Hrows| |done].
  rewrite Hcols. by apply col_pos_None_absent.
Qed.

Lemma rmap_btc_usd_records (q : Series) :
  exists records,
    rmap (btc_usd_record ["price"]) (rows (to_frame "price" q)) = Ok records.
Proof.
  induction q as [|r q [records IH]]; [by eexists|].
  cbn [to_frame rows map] in *. cbn [rmap]. rewrite IH.
  unfold btc_usd_record at 1. cbn. by eexists.
Qed.

(** One round of the market loop on a quarterly BTC frame: it returns, or
    the fetch of its ticker raised. *)
Lemma yfinance_step_outcome W btc_df (sb : Series) name ticker s :
  heap s !! btc_df = Some (to_frame "price" sb) ->
  increasing_dates sb -> valid_series sb ->
  (exists s', yfinance_step W btc_df (name, ticker) s = (Ok tt, s')) \/
  (exists e s', yfinance_step W btc_df (name, ticker) s = (Raise e, s') /\
                market_fetch_raises W ticker e).
Proof.
  intros Hb Hib Hvb. unfold yfinance_step.
  case_decide; [left; by eexists|].
  destruct (fetch_yfinance_data W ticker name s) as [[l|e] s1] eqn:Hfetch.
  2:{ right. eexists _, _. unfold bind at 1. rewrite Hfetch.
      split; [done|]. by eapply fetch_yfinance_data_raise. }
  left. unfold bind at 1. rewrite Hfetch.
  apply fetch_yfinance_data_ok in Hfetch as (df & out & -> & Hdf & ->).
  unfold bind, read. cbn [heap]. rewrite lookup_snoc_length.
  cbn [default from_option id].
  destruct Hdf as [->|(q & -> & Hiq & Hvq & _)]; [by eexists|].
  rewrite df_empty_to_frame. destruct q as [|r q]; [by eexists|].
  cbn [negb].
  match goal with
  | |- context [compute_btc_ratio btc_df _ ?s1] =>
      destruct (compute_btc_ratio_quarterly btc_df (length (heap s)) s1 sb (r :: q))
        as (c & ->)
  end; try done.
  - cbn [heap]. by apply lookup_app_l_Some.
  - cbn [heap]. apply lookup_snoc_length.
  - rewrite save_to_json_run. cbv zeta. by eexists.
Qed.

Lemma yfinance_loop_outcome W btc_df (sb : Series) items : forall s,
  heap s !! btc_df = Some (to_frame "price" sb) ->
  increasing_dates sb -> valid_series sb ->
  (exists s', for_each items (yfinance_step W btc_df) s = (Ok tt, s') /\
              heap s `prefix_of` heap s') \/
  (exists e s' ticker,
     for_each items (yfinance_step W btc_df) s = (Raise e, s') /\
     ticker ∈ items.*2 /\ market_fetch_raises W ticker e).
Proof.
  induction items as [|[name ticker] items IH]; intros s Hb Hib Hvb.
  - left. by eexists.
  - cbn [for_each]. unfold bind.
    pose proof (store_extends_yfinance_step W btc_df (name, ticker) s) as Hext.
    destruct (yfinance_step_outcome W btc_df sb name ticker s Hb Hib Hvb)
      as [(s1 & Hstep)|(e & s1 & Hstep & He)]; rewrite Hstep in *.
    + destruct (IH s1) as [(s2 & Hloop & Hext2)|(e & s2 & t & Hloop & Ht & He)];
        [by eapply prefix_lookup_Some|done..| |].
      * left. exists s2. split; [done|]. by etrans.
      * right. exists e, s2, t. split_and!; [done| |done].
        rewrite fmap_cons. by right.
    + right. exists e, s1, ticker. split_and!; [done| |done].
      rewrite fmap_cons. by left.
Qed.

Lemma parent_snoc (p : path) (x : string) : parent (p ++ [x]) = p.
Proof. unfold parent. apply removelast_last. Qed.

(** The ends of [main]: it returns, a market fetch raised, or the
    BTC-in-USD document could not be opened for want of its directory. *)
Lemma main_cases W s (P : result unit * State -> Prop) :
  (forall s', P (Ok tt, s')) ->
  (forall e s' ticker,
     ticker ∈ YFINANCE_TICKERS.*2 -> market_fetch_raises W ticker e ->
     P (Raise e, s')) ->
  (forall s',
     dir_exists s (DATA_DIR W) = false ->
     P (Raise (FileNotFoundError (DATA_DIR W ++ ["btc_usd.json"])), s')) ->
  P (main W s).
Proof.
  intros HP1 HP2 HP3. rewrite main_run. cbv zeta.
  match goal with
  | |- context [fetch_yfinance_data W "BTC-USD" "Bitcoin" ?s0] =>
      set (s0' := s0);
      destruct (fetch_yfinance_data W "BTC-USD" "Bitcoin" s0')
        as [[l|e] s1] eqn:Hfetch
  end.
  2:{ apply (HP2 e s1 "BTC-USD").
      - cbn. by left.
      - by eapply fetch_yfinance_data_raise. }
  apply fetch_yfinance_data_ok in Hfetch as (df & out & -> & Hdf & ->).
  cbn [heap]. rewrite lookup_snoc_length. cbn [default from_option id].
  destruct (df_empty df) eqn:Hempty; [apply HP1|].
  destruct Hdf as [->|(q & -> & Hiq & Hvq & _)]; [done|].
  unfold bind at 1. rewrite save_btc_usd_run. cbv zeta.
  cbn [heap]. rewrite lookup_snoc_length. cbn [default from_option id columns].
  destruct (rmap_btc_usd_records q) as [records Hrec].
  change (columns (to_frame "price" q)) with ["price"]. rewrite Hrec.
  rewrite parent_snoc.
  change (dir_exists _ (DATA_DIR W)) with (dir_exists s (DATA_DIR W)).
  destruct (dir_exists s (DATA_DIR W)) eqn:Hdir.
  2:{ by apply HP3. }
  unfold bind at 1.
  match goal with
  | |- context [for_each YFINANCE_TICKERS (yfinance_step W ?l) ?s2] =>
      destruct (yfinance_loop_outcome W l q YFINANCE_TICKERS s2)
        as [(s3 & Hloop & Hext)|(e & s3 & t & Hloop & Ht & He)];
        [cbn [heap]; apply lookup_snoc_length|done..| |]; rewrite Hloop
  end.
  2:{ by apply (HP2 e s3 t). }
  unfold bind at 1. unfold print at 1.
  unfold bind at 1.
  match goal with
  | |- context [for_each FRED_SERIES (fred_step W ?l) ?s4] =>
      destruct (fred_loop_ok W l q FRED_SERIES s4) as (s5 & Hfred);
        [|done..|rewrite Hfred]
  end.
  { cbn [heap set_stdout]. eapply prefix_lookup_Some; [|exact Hext].
    cbn [heap]. apply lookup_snoc_length. }
  apply HP1.
Qed.

Lemma main_outcome W s :
  (exists s', main W s = (Ok tt, s')) \/
  (exists e s' ticker,
     main W s = (Raise e, s') /\
     ticker ∈ YFINANCE_TICKERS.*2 /\ market_fetch_raises W ticker e) \/
  (exists s',
     main W s = (Raise (FileNotFoundError (DATA_DIR W ++ ["btc_usd.json"])), s') /\
     dir_exists s (DATA_DIR W) = false).
Proof.
  apply (main_cases W s (fun r =>
    (exists s', r = (Ok tt, s')) \/
    (exists e s' ticker,
       r = (Raise e, s') /\
       ticker ∈ YFINANCE_TICKERS.*2 /\ market_fetch_raises W ticker e) \/
    (exists s',
       r = (Raise (FileNotFoundError (DATA_DIR W ++ ["btc_usd.json"])), s') /\
       dir_exists s (DATA_DIR W) = false))).
  - intros s'. left. by eexists.
  - intros e s' t Ht He. right. left. by exists e, s', t.
  - intros s' Hd. right. right. by eexists.
Qed.

(** X10. The only exceptions that leave [main] are those of a market fetch
    (the provider call raised, or its frame has no column ["Close"]) and
    the [FileNotFoundError] for btc_usd.json when the data directory does
    not exist.  No housing fetch, no join and no ratio document ends a
    run. *)
Theorem main_exceptions W s e s' :
  main W s = (Raise e, s') ->
  (exists ticker,
     ticker ∈ YFINANCE_TICKERS.*2 /\ market_fetch_raises W ticker e) \/
  (e = FileNotFoundError (DATA_DIR W ++ ["btc_usd.json"]) /\
   dir_exists s (DATA_DIR W) = false).
Proof.
  intros Hrun.
  destruct (main_outcome W s)
    as [(s1 & H)|[(e1 & s1 & t & H & Ht & He)|(s1 & H & Hd)]];
    rewrite H in Hrun; simplify_eq.
  - left. by exists t.
  - by right.
Qed.

Lemma main_exceptions_witness :
  (exists ticker,
     ticker ∈ YFINANCE_TICKERS.*2 /\
     market_fetch_raises scenario_world ticker
       (FileNotFoundError ["repo"; "data"; "btc_usd.json"])) \/
  (FileNotFoundError ["repo"; "data"; "btc_usd.json"]
   = FileNotFoundError (DATA_DIR scenario_world ++ ["btc_usd.json"]) /\
   dir_exists fresh_state (DATA_DIR scenario_world) = false).
Proof.
  apply (main_exceptions scenario_world fresh_state _
           (main scenario_world fresh_state).2).
  reflexivity.
Defined.

(** X11. When the provider answers every configured ticker with a frame
    that is empty or has a column ["Close"], and the data directory
    exists, [main] returns without an exception, whatever the housing
    provider does. *)
Theorem main_completes W s :
  (forall ticker, ticker ∈ YFINANCE_TICKERS.*2 ->
     exists pf, yf_download W ticker = Ok pf /\
       (pf_rows pf = [] \/ "Close" ∈ flat_columns (pf_columns pf))) ->
  dir_exists s (DATA_DIR W) = true ->
  exists s', main W s = (Ok tt, s').
Proof.
  intros Hprov Hdir.
  destruct (main_outcome W s)
    as [H|[(e & s1 & t & H & Ht & He)|(s1 & H & Hd)]]; [done| |congruence].
  destruct (Hprov t Ht) as (pf & Hpf & Hok).
  destruct He as [He|(pf' & Hpf' & Hrows & Hclose & _)]; [congruence|].
  rewrite Hpf in Hpf'. injection Hpf' as <-. by destruct Hok.
Qed.

Lemma main_completes_witness :
  exists s', main scenario_world state_with_data_dir = (Ok tt, s').
Proof.
  apply (main_completes scenario_world state_with_data_dir).
  - intros ticker Ht. cbn in Ht.
    repeat (apply elem_of_cons in Ht as [->|Ht];
            [eexists; split; [reflexivity|]; cbn; auto using list_elem_of_here|]).
    by apply elem_of_nil in Ht.
  - reflexivity.
Defined.

(** ** The footprint of a run on the file system *)

Lemma fs_within_eq fs ds s s' :
  files s' = files s -> dirs s' = dirs s -> fs_within fs ds s s'.
Proof.
  intros Hf Hd. unfold fs_within. rewrite Hf, Hd.
  split_and!; [done|done|done|]. apply union_subseteq_l.
Qed.

Lemma fs_within_trans fs ds s1 s2 s3 :
  fs_within fs ds s1 s2 -> fs_within fs ds s2 s3 -> fs_within fs ds s1 s3.
Proof.
  intros (Hf1 & Hdom1 & Hd1 & Hn1) (Hf2 & Hdom2 & Hd2 & Hn2). split_and!.
  - intros p Hp. by rewrite Hf2, Hf1.
  - by etrans.
  - by etrans.
  - etrans; [exact Hn2|]. apply union_least; [done|]. apply union_subseteq_r.
Qed.

Lemma writes_within_bind {A B} fs ds (m : M A) (k : A -> M B) :
  writes_within fs ds m -> (forall a, writes_within fs ds (k a)) ->
  writes_within fs ds (bind m k).
Proof.
  intros Hm Hk s. unfold bind. specialize (Hm s).
  destruct (m s) as [[a|e] s']; simpl in *; [|done].
  eapply fs_within_trans; [exact Hm|apply Hk].
Qed.

Lemma writes_within_for_each {A} fs ds (body : A -> M unit) (l : list A) :
  (forall x, x ∈ l -> writes_within fs ds (body x)) ->
  writes_within fs ds (for_each l body).
Proof.
  induction l as [|x l IH]; intros Hbody; simpl.
  - intros s. by apply fs_within_eq.
  - apply writes_within_bind; [apply Hbody; by left|].
    intros _. apply IH. intros y Hy. apply Hbody. by right.
Qed.

Lemma writes_within_print fs ds line : writes_within fs ds (print line).
Proof. intros s. by apply fs_within_eq. Qed.

Lemma writes_within_read fs ds l : writes_within fs ds (read l).
Proof. intros s. by apply fs_within_eq. Qed.

Lemma writes_within_lift {A} fs ds (r : result A) : writes_within fs ds (lift r).
Proof. intros s. by apply fs_within_eq. Qed.

Lemma writes_within_fetch_yfinance_data W fs ds ticker name :
  writes_within fs ds (fetch_yfinance_data W ticker name).
Proof.
  intros s. destruct (fetch_yfinance_data_files W ticker name s).
  by apply fs_within_eq.
Qed.

Lemma writes_within_fetch_fred_data W fs ds series_id name :
  writes_within fs ds (fetch_fred_data W series_id name).
Proof.
  intros s. rewrite fetch_fred_data_run. cbv zeta.
  by case_match; apply fs_within_eq.
Qed.

Lemma writes_within_compute_btc_ratio fs ds btc_df asset_df :
  writes_within fs ds (compute_btc_ratio btc_df asset_df).
Proof.
  intros s. unfold compute_btc_ratio, bind, read, lift, alloc, write, ret.
  cbn [set_heap heap fst snd].
  by repeat case_match; simplify_eq/=; apply fs_within_eq.
Qed.

Lemma writes_within_save_to_json W fs ds df filepath asset_name :
  filepath ∈ fs -> prefixes (parent filepath) ⊆ ds ->
  writes_within fs ds (save_to_json W df filepath asset_name).
Proof.
  intros Hfs Hds s. rewrite save_to_json_run. cbv zeta.
  unfold fs_within. cbn [snd files dirs]. split_and!.
  - intros p Hp. apply lookup_insert_ne. by intros ->.
  - rewrite dom_insert. apply union_subseteq_r.
  - apply union_subseteq_l.
  - apply union_mono_l. intros d Hd.
    apply elem_of_list_to_set. apply elem_of_list_to_set in Hd. by apply Hds.
Qed.

Lemma writes_within_save_btc_usd W fs ds btc_df :
  DATA_DIR W ++ ["btc_usd.json"] ∈ fs ->
  writes_within fs ds (save_btc_usd W btc_df).
Proof.
  intros Hfs s. rewrite save_btc_usd_run. cbv zeta.
  repeat case_match; try by apply fs_within_eq.
  unfold fs_within. cbn [snd files dirs]. split_and!.
  - intros p Hp. apply lookup_insert_ne. intros Heq. by rewrite <- Heq in Hp.
  - rewrite dom_insert. apply union_subseteq_r.
  - done.
  - apply union_subseteq_l.
Qed.

Lemma parent_DATA_DIR_file W (x : string) : parent (DATA_DIR W ++ [x]) = DATA_DIR W.
Proof. unfold parent. apply removelast_last. Qed.

Lemma ratio_files_elem_of W name :
  name <> "btc_usd" ->
  name ∈ YFINANCE_TICKERS.*1 ++ FRED_SERIES.*1 ->
  DATA_DIR W ++ [name +:+ ".json"] ∈ ratio_files W.
Proof.
  intros Hne Hn. unfold ratio_files.
  apply (list_elem_of_fmap_2 (fun name => DATA_DIR W ++ [name +:+ ".json"])).
  apply elem_of_app in Hn as [Hn|Hn]; apply elem_of_app; [left|by right].
  by apply list_elem_of_filter.
Qed.

Lemma btc_usd_not_ratio_file W : DATA_DIR W ++ ["btc_usd.json"] ∉ ratio_files W.
Proof.
  unfold ratio_files. intros Hin.
  apply list_elem_of_fmap in Hin as (name & Heq & Hname).
  apply app_inv_head in Heq. vm_compute in Hname.
  repeat (apply elem_of_cons in Hname as [->|Hname]; [discriminate|]).
  by apply elem_of_nil in Hname.
Qed.

Lemma writes_within_yfinance_step W fs ds btc_df item :
  (item.1 <> "btc_usd" -> DATA_DIR W ++ [item.1 +:+ ".json"] ∈ fs) ->
  prefixes (DATA_DIR W) ⊆ ds ->
  writes_within fs ds (yfinance_step W btc_df item).
Proof.
  destruct item as [name ticker]. cbn [fst]. intros Hn Hds. unfold yfinance_step.
  case_decide; [intros s; by apply fs_within_eq|].
  apply writes_within_bind; [apply writes_within_fetch_yfinance_data|intros l].
  apply writes_within_bind; [apply writes_within_read|intros a].
  destruct (negb (df_empty a)); [|intros s; by apply fs_within_eq].
  apply writes_within_bind; [apply writes_within_compute_btc_ratio|intros c].
  apply writes_within_save_to_json; [by apply Hn|].
  by rewrite parent_DATA_DIR_file.
Qed.

Lemma writes_within_fred_step W fs ds btc_df item :
  DATA_DIR W ++ [item.1 +:+ ".json"] ∈ fs ->
  prefixes (DATA_DIR W) ⊆ ds ->
  writes_within fs ds (fred_step W btc_df item).
Proof.
  destruct item as [name series_id]. cbn [fst]. intros Hn Hds. unfold fred_step.
  apply writes_within_bind; [apply writes_within_fetch_fred_data|intros l].
  apply writes_within_bind; [apply writes_within_read|intros a].
  destruct (negb (df_empty a)); [|intros s; by apply fs_within_eq].
  apply writes_within_bind; [apply writes_within_compute_btc_ratio|intros c].
  apply writes_within_save_to_json; [done|].
  by rewrite parent_DATA_DIR_file.
Qed.

(** What [main] does once the BTC-in-USD document is saved: the two
    loops write ratio documents only. *)
Lemma writes_within_loops W fs btc_df :
  ratio_files W ⊆ fs ->
  writes_within fs (prefixes (DATA_DIR W))
    (bind (for_each YFINANCE_TICKERS (yfinance_step W btc_df)) (fun _ =>
     bind (print (nl +:+ "[2/3] Fetching FRED housing data...")) (fun _ =>
     bind (for_each FRED_SERIES (fred_step W btc_df)) (fun _ =>
     bind (print (nl +:+ "[3/3] Done!")) (fun _ =>
     print (str_repeat 50 "=")))))).
Proof.
  intros Hfs.
  apply writes_within_bind; [|intros _].
  { apply writes_within_for_each. intros item Hitem.
    apply writes_within_yfinance_step; [|done].
    intros Hne. apply Hfs, ratio_files_elem_of; [done|].
    apply elem_of_app. left. by apply list_elem_of_fmap_2. }
  apply writes_within_bind; [apply writes_within_print|intros _].
  apply writes_within_bind; [|intros _].
  { apply writes_within_for_each. intros item Hitem.
    apply writes_within_fred_step; [|done].
    apply Hfs, ratio_files_elem_of.
    - intros Heq. apply (list_elem_of_fmap_2 fst) in Hitem. rewrite Heq in Hitem.
      vm_compute in Hitem.
      repeat (apply elem_of_cons in Hitem as [Hitem|Hitem]; [discriminate|]).
      by apply elem_of_nil in Hitem.
    - apply elem_of_app. right. by apply list_elem_of_fmap_2. }
  apply writes_within_bind; [apply writes_within_print|intros _].
  apply writes_within_print.
Qed.

Lemma writes_within_main W :
  writes_within (output_files W) (prefixes (DATA_DIR W)) (main W).
Proof.
  unfold main.
  repeat (apply writes_within_bind; [apply writes_within_print|intros _]).
  apply writes_within_bind; [apply writes_within_lift|intros ticker].
  apply writes_within_bind; [apply writes_within_fetch_yfinance_data|intros l].
  apply writes_within_bind; [apply writes_within_read|intros b].
  destruct (df_empty b); [apply writes_within_print|].
  apply writes_within_bind; [|intros _].
  { apply writes_within_save_btc_usd. by left. }
  apply writes_within_loops. intros p Hp. by right.
Qed.

(** X12. The files of a run.  Whatever the providers answer and however the
    run ends, [main] leaves every file other than the documents of the
    configured names in the data directory as it was, and it deletes no
    file. *)
Theorem main_file_footprint W s :
  dom (files s) ⊆ dom (files (main W s).2) /\
  (forall p, p ∉ output_files W -> files (main W s).2 !! p = files s !! p).
Proof.
  destruct (writes_within_main W s) as (Hf & Hdom & _). by split.
Qed.

Lemma main_file_footprint_witness :
  let s := set_files {[ ["repo"; "README.md"] := [JStr "readme"] ]}
             state_with_data_dir in
  files (main scenario_world s).2 !! ["repo"; "README.md"]
  = files s !! ["repo"; "README.md"].
Proof.
  intros s. apply (proj2 (main_file_footprint scenario_world s)).
  vm_compute. intros H.
  repeat (apply elem_of_cons in H as [H|H]; [discriminate|]).
  by apply elem_of_nil in H.
Defined.

(** X13. The directories of a run.  [main] removes no directory, and the
    directories it creates are the data directory and its ancestors. *)
Theorem main_dir_footprint W s :
  dirs s ⊆ dirs (main W s).2 /\
  dirs (main W s).2 ⊆ dirs s ∪ list_to_set (prefixes (DATA_DIR W)).
Proof.
  destruct (writes_within_main W s) as (_ & _ & Hd & Hn). by split.
Qed.

(** ** The BTC-in-USD document *)

Lemma rmap_btc_usd_record_frame (q : Series) :
  rmap (btc_usd_record ["price"]) (rows (to_frame "price" q))
  = Ok ((fun r : Timestamp * float64 =>
           JObj [("date", JStr (strftime_ymd r.1));
                 ("btc_price_usd", JNum r.2);
                 ("btc_per_usd", JNum (f_div (Fin 1) r.2))]) <$> q).
Proof.
  induction q as [|r q IH]; [done|].
  cbn [to_frame rows map] in *. cbn [rmap]. rewrite IH.
  unfold btc_usd_record at 1. by cbn.
Qed.

(** X14. The BTC-in-USD document.  With the data directory in place,
    [save_btc_usd] on a frame whose one column is ["price"] returns and
    replaces btc_usd.json by one document: a record per row, in the order
    of the rows, with the date as YYYY-MM-DD, the price as it is (not
    rounded) and 1 divided by the price in binary64.  Store and
    directories are as before.  The reciprocal of a price other than zero
    is the binary64 number nearest to the exact reciprocal, and a price of
    zero gives an infinity, not an exception. *)
Theorem save_btc_usd_document W btc_df s (q : Series) :
  heap s !! btc_df = Some (to_frame "price" q) ->
  dir_exists s (DATA_DIR W) = true ->
  (exists s',
     save_btc_usd W btc_df s = (Ok tt, s') /\
     files s' !! (DATA_DIR W ++ ["btc_usd.json"])
     = Some [JObj [("asset", JStr "USD in BTC");
                   ("updated_at", JStr (now_isoformat W (clock s)));
                   ("data",
                    JArr ((fun r : Timestamp * float64 =>
                             JObj [("date", JStr (strftime_ymd r.1));
                                   ("btc_price_usd", JNum r.2);
                                   ("btc_per_usd", JNum (f_div (Fin 1) r.2))])
                            <$> q))]] /\
     heap s' = heap s /\ dirs s' = dirs s) /\
  (forall p : Q, ~ (p == 0)%Q -> f_div (Fin 1) (Fin p) = b64 (1 / p)) /\
  f_div (Fin 1) (Fin 0) = PInf /\
  f_div (Fin 1) NZero = NInf.
Proof.
  intros Hq Hdir. split_and!.
  - rewrite save_btc_usd_run. cbv zeta. rewrite Hq.
    cbn [default from_option id].
    change (columns (to_frame "price" q)) with ["price"].
    rewrite rmap_btc_usd_record_frame, parent_DATA_DIR_file, Hdir.
    eexists. split; [reflexivity|]. cbn [files heap dirs].
    by rewrite lookup_insert_eq.
  - intros p Hp. by apply f_div_finite.
  - reflexivity.
  - reflexivity.
Qed.

Lemma save_btc_usd_document_witness :
  let s := mkState [to_frame "price" btc_scenario] {[ ["repo"; "data"] ]} ∅ [] 0 in
  exists s',
    (save_btc_usd scenario_world 0%nat s = (Ok tt, s')) /\
    (files s' !! (DATA_DIR scenario_world ++ ["btc_usd.json"])
     = Some [JObj [("asset", JStr "USD in BTC");
                   ("updated_at", JStr (now_isoformat scenario_world (clock s)));
                   ("data",
                    JArr ((fun r : Timestamp * float64 =>
                             JObj [("date", JStr (strftime_ymd r.1));
                                   ("btc_price_usd", JNum r.2);
                                   ("btc_per_usd", JNum (f_div (Fin 1) r.2))])
                            <$> btc_scenario))]]) /\
    heap s' = heap s /\ dirs s' = dirs s.
Proof.
  intros s.
  apply (proj1 (save_btc_usd_document scenario_world 0%nat s btc_scenario
                  eq_refl eq_refl)).
Defined.

(** ** A housing series with no quarter in common with BTC *)

(** X15. The loops test the fetched frame for emptiness, not the joined one.
    A housing series that has quarters, none of them a quarter of the BTC
    series, still gets its document written: one with an empty data
    array. *)
Theorem fred_step_no_common_quarter W btc_df (sb : Series) name series_id s table :
  heap s !! btc_df = Some (to_frame "price" sb) ->
  increasing_dates sb -> valid_series sb ->
  rbind (read_csv W ("https://fred.stlouisfed.org/graph/fredgraph.csv?id="
                     +:+ series_id))
        (fred_try_body series_id) = Ok table ->
  dropna (resample_QE_last (from_start_date table)) <> [] ->
  (forall d, d ∈ sb.*1 ->
     d ∉ (dropna (resample_QE_last (from_start_date table))).*1) ->
  exists s',
    fred_step W btc_df (name, series_id) s = (Ok tt, s') /\
    files s' !! (DATA_DIR W ++ [name +:+ ".json"])
    = Some [JObj [("asset", JStr name);
                  ("updated_at", JStr (now_isoformat W (clock s)));
                  ("data", JArr [])]].
Proof.
  intros Hb Hib Hvb Htable Hq Hdisj.
  pose proof (quarterly_series_resample (from_start_date table)) as (Hiq & Hvq & _).
  unfold fred_step, bind. rewrite fetch_fred_data_run, Htable. cbv zeta.
  set (q := dropna (resample_QE_last (from_start_date table))) in *.
  unfold read. cbn [heap]. rewrite lookup_snoc_length.
  cbn [default from_option id]. rewrite df_empty_to_frame.
  destruct q as [|r q'] eqn:Eq; [done|]. rewrite <- Eq in *. cbn [negb].
  match goal with
  | |- context [compute_btc_ratio btc_df _ ?s1] =>
      destruct (compute_btc_ratio_quarterly btc_df (length (heap s)) s1 sb q)
        as (c & ->)
  end; try done.
  - cbn [heap]. by apply lookup_app_l_Some.
  - cbn [heap]. apply lookup_snoc_length.
  - rewrite save_to_json_run. cbv zeta. eexists. split; [reflexivity|].
    cbn [files heap clock set_heap]. rewrite lookup_insert_eq, lookup_snoc2_length.
    cbn [default from_option id columns rows].
    unfold inner_join_ratio. rewrite filter_none; [done|].
    by apply Forall_forall.
Qed.

Lemma fred_step_no_common_quarter_witness :
  let s := mkState [to_frame "price" [(mkTs 2020 Dec 31, Fin 29000)]] ∅ ∅ [] 0 in
  exists s',
    fred_step scenario_world 0%nat ("housing_us_median", "MSPUS") s = (Ok tt, s') /\
    files s' !! (DATA_DIR scenario_world ++ ["housing_us_median" +:+ ".json"])
    = Some [JObj [("asset", JStr "housing_us_median");
                  ("updated_at", JStr (now_isoformat scenario_world (clock s)));
                  ("data", JArr [])]].
Proof.
  intros s.
  eapply (fred_step_no_common_quarter scenario_world 0%nat
            [(mkTs 2020 Dec 31, Fin 29000)] "housing_us_median" "MSPUS" s).
  - reflexivity.
  - repeat constructor.
  - repeat constructor.
  - vm_compute. reflexivity.
  - vm_compute. discriminate.
  - intros d Hd Hin. vm_compute in Hd, Hin.
    apply list_elem_of_singleton in Hd as ->.
    repeat (apply elem_of_cons in Hin as [Hin|Hin]; [discriminate|]).
    by apply elem_of_nil in Hin.
Defined.

(** ** Which columns a housing table is read from *)

Lemma cell_at_delete_0 (cells : list string) :
  cell_at (delete 0%nat cells) 0 = cell_at cells 1.
Proof. by destruct cells. Qed.

(** X16. A housing table with two columns is read by position, whatever
    the columns are called: dates from the first and values from the
    second, unless the second is named like a date column or the first
    carries the name of the series. *)
Theorem fred_columns_by_position series_id c0 c1 rows :
  upper c1 ∉ ["DATE"; "OBSERVATION_DATE"] ->
  series_id <> c0 ->
  fred_try_body series_id (mkCsv [c0; c1] rows)
  = rbind (rmap (fun cells => to_datetime (cell_at cells 0)) rows)
      (fun dates =>
         Ok (zip_with (fun d cells => (d, to_numeric_coerce (cell_at cells 1)))
               dates rows)).
Proof.
  intros Hc1 Hsid. unfold fred_try_body.
  cbn [csv_columns csv_rows find_date_col].
  rewrite (bool_decide_eq_false_2 (upper c1 ∈ _)) by done.
  assert ((if bool_decide (upper c0 ∈ ["DATE"; "OBSERVATION_DATE"])
           then Some c0 else None) = Some c0 \/
          (if bool_decide (upper c0 ∈ ["DATE"; "OBSERVATION_DATE"])
           then Some c0 else None) = (None : option string)) as [-> | ->]
    by (case_bool_decide; auto).
  all: cbn [rbind].
  all: assert ((if bool_decide (series_id ∈ [c0; c1]) then Ok series_id
                else match [c0; c1] !! 1%nat with
                     | Some col => Ok col
                     | None => Raise (IndexError 1 (length [c0; c1]))
                     end) = Ok c1) as ->.
  1,3: case_bool_decide as Hin; [|done];
       apply elem_of_cons in Hin as [?|Hin]; [done|];
       by apply list_elem_of_singleton in Hin as ->.
  all: cbn [rbind col_pos]; rewrite decide_True by done;
       cbn [default from_option id delete list_delete col_pos];
       rewrite decide_True by done; cbn [fmap option_fmap option_map].
  all: destruct (rmap _ rows) as [dates|e]; [|done]; cbn [rbind]; f_equal;
       apply zip_with_ext; [|done..]; intros d cells;
       by rewrite cell_at_delete_0.
Qed.

Lemma fred_columns_by_position_witness :
  fred_try_body "MSPUS"
    (mkCsv ["quarter"; "median price"] [["2021-01-01"; "369800"]; ["2021-04-01"; "."]])
  = rbind (rmap (fun cells => to_datetime (cell_at cells 0))
             [["2021-01-01"; "369800"]; ["2021-04-01"; "."]])
      (fun dates =>
         Ok (zip_with (fun d cells => (d, to_numeric_coerce (cell_at cells 1)))
               dates [["2021-01-01"; "369800"]; ["2021-04-01"; "."]])).
Proof.
  apply (fred_columns_by_position "MSPUS" "quarter" "median price").
  - vm_compute. intros H.
    repeat (apply elem_of_cons in H as [H|H]; [discriminate|]).
    by apply elem_of_nil in H.
  - discriminate.
Defined.

(** ** The BTC-in-USD document at the end of a run *)

(** X17. The BTC-in-USD document of a run.  When the provider has close
    values for BTC in at least one quarter and the data directory exists,
    btc_usd.json holds at the end of [main], however the run ends, the
    document of the quarterly BTC series: the market loop skips the name
    of the anchor, and no ratio document is written over it. *)
Theorem main_btc_usd_document W s pf close :
  yf_download W "BTC-USD" = Ok pf ->
  df_getitem (mkDF (flat_columns (pf_columns pf)) (pf_rows pf)) "Close" = Ok close ->
  dropna (resample_QE_last close) <> [] ->
  dir_exists s (DATA_DIR W) = true ->
  files (main W s).2 !! (DATA_DIR W ++ ["btc_usd.json"])
  = Some [JObj [("asset", JStr "USD in BTC");
                ("updated_at", JStr (now_isoformat W (clock s)));
                ("data",
                 JArr ((fun r : Timestamp * float64 =>
                          JObj [("date", JStr (strftime_ymd r.1));
                                ("btc_price_usd", JNum r.2);
                                ("btc_per_usd", JNum (f_div (Fin 1) r.2))])
                         <$> dropna (resample_QE_last close)))]].
Proof.
  intros Hpf Hclose Hq Hdir.
  rewrite main_run. cbv zeta. rewrite fetch_yfinance_data_run, Hpf. cbv zeta.
  assert (match pf_rows pf, flat_columns (pf_columns pf) with
          | [], _ | _, [] => true
          | _, _ => false
          end = false) as ->.
  { unfold df_getitem in Hclose. cbn [columns rows] in Hclose.
    destruct (pf_rows pf) as [|r rs].
    - destruct (col_pos _ _); [|done]. by injection Hclose as <-.
    - by destruct (flat_columns (pf_columns pf)). }
  rewrite Hclose. cbn [heap]. rewrite lookup_snoc_length.
  cbn [default from_option id]. rewrite df_empty_to_frame.
  set (q := dropna (resample_QE_last close)) in *.
  destruct q as [|r q'] eqn:Eq; [done|]. rewrite <- Eq in *. clear Eq.
  unfold bind at 1. rewrite save_btc_usd_run. cbv zeta.
  cbn [heap]. rewrite lookup_snoc_length. cbn [default from_option id].
  change (columns (to_frame "price" q)) with ["price"].
  rewrite rmap_btc_usd_record_frame, parent_DATA_DIR_file.
  change (dir_exists _ (DATA_DIR W)) with (dir_exists s (DATA_DIR W)).
  rewrite Hdir.
  match goal with
  | |- files (?rest ?s2).2 !! _ = _ =>
      destruct (writes_within_loops W (ratio_files W) (length (heap s))
                  (reflexivity _) s2) as (Hf & _)
  end.
  rewrite Hf by apply btc_usd_not_ratio_file.
  cbn [files clock]. by rewrite lookup_insert_eq.
Qed.

Lemma main_btc_usd_document_witness :
  files (main scenario_world state_with_data_dir).2
    !! (DATA_DIR scenario_world ++ ["btc_usd.json"])
  = Some [JObj [("asset", JStr "USD in BTC");
                ("updated_at", JStr (now_isoformat scenario_world 0));
                ("data",
                 JArr ((fun r : Timestamp * float64 =>
                          JObj [("date", JStr (strftime_ymd r.1));
                                ("btc_price_usd", JNum r.2);
                                ("btc_per_usd", JNum (f_div (Fin 1) r.2))])
                         <$> dropna (resample_QE_last btc_scenario)))]].
Proof.
  apply (main_btc_usd_document scenario_world state_with_data_dir
           (mkPF (MultiIndex [("Close", "BTC-USD"); ("Volume", "BTC-USD")])
              [(mkTs 2021 Mar 31, [Fin 50000; Fin 1]);
               (mkTs 2021 Jun 30, [Fin 35000; Fin 2])])
           btc_scenario).
  - reflexivity.
  - reflexivity.
  - vm_compute. discriminate.
  - reflexivity.
Defined.

(** ** The observation a quarter keeps *)

Lemma last_per_quarter_keeps (l : Series) r :
  increasing_dates l -> r ∈ l ->
  (forall r', r' ∈ l -> quarter r'.1 = quarter r.1 -> ~ ts_lt r.1 r'.1) ->
  (quarter_end (quarter r.1), r.2) ∈ last_per_quarter l.
Proof.
  induction 1 as [|r0 l Hs IH Hall]; intros Hr Hlast; [by apply elem_of_nil in Hr|].
  destruct l as [|r1 l].
  { apply list_elem_of_singleton in Hr as ->. by left. }
  change (last_per_quarter (r0 :: r1 :: l))
    with (if quarter r0.1 =? quarter r1.1 then last_per_quarter (r1 :: l)
          else (quarter_end (quarter r0.1), r0.2) :: last_per_quarter (r1 :: l)).
  assert (r ∈ r1 :: l -> (quarter_end (quarter r.1), r.2) ∈ last_per_quarter (r1 :: l))
    as Hrest.
  { intros Hin. apply IH; [done|]. intros r' Hr'. apply Hlast. by right. }
  apply elem_of_cons in Hr as [->|Hr].
  - destruct (quarter r0.1 =? quarter r1.1) eqn:E; [|by left].
    apply Z.eqb_eq in E. exfalso. apply (Hlast r1); [right; by left|done|].
    by inversion Hall.
  - destruct (quarter r0.1 =? quarter r1.1); [|right]; by apply Hrest.
Qed.

(** X18. The value a quarter keeps.  On rows in chronological order,
    quarter-end resampling followed by [dropna] keeps for a quarter the
    value of its last row that has one, under the date of the quarter's
    last day: later rows of the quarter without a value do not hide it. *)
Theorem quarter_keeps_last_observation (s : Series) r :
  increasing_dates s -> r ∈ s -> notna r.2 = true ->
  (forall r', r' ∈ s -> quarter r'.1 = quarter r.1 -> ts_lt r.1 r'.1 ->
     notna r'.2 = false) ->
  (quarter_end (quarter r.1), r.2) ∈ dropna (resample_QE_last s).
Proof.
  intros Hi Hr Hv Hlast.
  assert (increasing_dates (dropna s)) as Hid by by apply filter_sorted.
  rewrite quarterly_last_per_quarter, (increasing_dates_sorted _ Hid).
  apply last_per_quarter_keeps; [done|by apply list_elem_of_filter|].
  intros r' [Hv' Hr']%list_elem_of_filter Hq Hlt.
  by rewrite (Hlast r' Hr' Hq Hlt) in Hv'.
Qed.

Lemma quarter_keeps_last_observation_witness :
  (mkTs 2021 Mar 31, Fin 12)
  ∈ dropna (resample_QE_last [(mkTs 2021 Jan 15, Fin 10); (mkTs 2021 Mar 20, Fin 12);
                              (mkTs 2021 Mar 30, NaN); (mkTs 2021 Apr 2, Fin 13)]).
Proof.
  apply (quarter_keeps_last_observation
           [(mkTs 2021 Jan 15, Fin 10); (mkTs 2021 Mar 20, Fin 12);
            (mkTs 2021 Mar 30, NaN); (mkTs 2021 Apr 2, Fin 13)]
           (mkTs 2021 Mar 20, Fin 12)).
  - repeat constructor; unfold ts_lt; simpl; lia.
  - right. by left.
  - reflexivity.
  - intros r' Hr' Hq Hlt.
    repeat (apply elem_of_cons in Hr' as [->|Hr'];
            [first [ reflexivity
                   | by vm_compute in Hq
                   | by (unfold ts_lt in Hlt; simpl in Hlt; lia) ]|]).
    by apply elem_of_nil in Hr'.
Defined.
